(** * dist.py: module resolution, acquisition and profile recording

    A shallow embedding of the module-bundling part of [dist.py]
    ([parse_version], [download_module_packages] and the head of
    [package]) together with the properties of it that the specification
    states.

    Conventions of the embedding:
    - JSON documents consumed as dictionaries ([module], [release],
      [distconf]) are records; a key the code tests with [in] before
      using it is an [option] field.
    - Python integers are [Z], Python [str] is [string], a Python [set]
      of names is a [gset string].
    - The file system, the remote documents, the HTTP requests issued and
      the log are threaded explicitly through a state-and-failure monad;
      [exit(n)] and an uncaught exception are the two kinds of failure.
    - The file system is a finite map from paths to nodes.  Paths are
      compared as written (no normalisation, posix separators), and a
      file can be written wherever no directory stands: whether its
      parent directory exists is not modelled.
    - Text is ASCII: [int], [str.strip] and [json.dumps] are modelled on
      single-byte characters. *)

From Stdlib Require Import ZArith String Ascii List DecimalString.
From stdpp Require Import base decidable option list strings gmap.

Set Warnings "-register-all".

Local Open Scope string_scope.
Local Open Scope Z_scope.
Local Open Scope list_scope.

(** * Data model *)

(** The dictionary returned by [parse_version]. *)
Record ApiVersion := mkApiVersion {
  major : Z;
  minor : Z;
  patch : Z
}.

(** [module['type'].lower()]: the two keys of [cur_api_ver]. *)
Inductive ModuleType := Plugin | Subsystem.

(** One element of [module_index['releases']].  The two optional fields
    are the keys ["plugin_api_version"] and ["subsystem_api_version"]. *)
Record Release := mkRelease {
  r_version : string;
  r_url : string;
  r_plugin_api_version : option ApiVersion;
  r_subsystem_api_version : option ApiVersion
}.

(** One element of the module index. *)
Record ModuleDescriptor := mkModule {
  m_name : string;
  m_type : ModuleType;
  m_url : string;
  m_production_version : option string
}.

(** One element of [bundle.json]. *)
Record DistributionConfig := mkDist {
  d_key : string;
  d_bundled_modules : option (list string);
  d_includes : option (list string);
  d_module_index_url : string;
  d_local_modules_folder : option string
}.

(** [{"name": name, "version": suitable_release['version']}] *)
Record ResolvedModule := mkResolved {
  rm_name : string;
  rm_version : string
}.

#[global] Instance ApiVersion_eq_dec : EqDecision ApiVersion.
Proof. solve_decision. Defined.
#[global] Instance ModuleType_eq_dec : EqDecision ModuleType.
Proof. solve_decision. Defined.
#[global] Instance Release_eq_dec : EqDecision Release.
Proof. solve_decision. Defined.
#[global] Instance ResolvedModule_eq_dec : EqDecision ResolvedModule.
Proof. solve_decision. Defined.

(** * Logging

    One constructor per [logger] call site of the embedded functions,
    carrying the values interpolated into the message. *)

Inductive Level := DEBUG | INFO | WARNING | ERROR.

#[global] Instance Level_eq_dec : EqDecision Level.
Proof. solve_decision. Defined.

Inductive Message :=
  | MsgFailedToParse (prefix : string)                          (* line 111 *)
  | MsgAddingModulesFrom (key : string) (others : gset string)  (* line 204 *)
  | MsgDownloadingModules (bundled : gset string)               (* line 207 *)
  | MsgDownloadingDirectory (index_url : string)                (* line 209 *)
  | MsgCurrentPluginApi (v : ApiVersion)                        (* line 213 *)
  | MsgCurrentSubsystemApi (v : ApiVersion)                     (* line 214 *)
  | MsgSkippingModule (name key : string)                       (* line 220 *)
  | MsgProductionSpecified (name pv : string)                   (* line 229 *)
  | MsgProductionUnsupported (pv : string) (t : ModuleType)
      (name : string) (cur_major : Z)                           (* line 235 *)
  | MsgUsingLatest (t : ModuleType) (cur_major : Z)             (* line 238 *)
  | MsgNoSupport (t : ModuleType) (name : string) (cur_major : Z) (* line 244 *)
  | MsgFoundLocal (name version folder : string)                (* line 252 *)
  | MsgDownloading (t : ModuleType) (name version zip_url : string) (* line 258 *)
  | MsgPackaging                                                (* line 299 *)
  | MsgDistKeyNotFound (dist_key : string).                     (* line 310 *)

Definition LogRecord : Type := Level * Message.

(** * Compatibility resolver (lines 222-242 of [download_module_packages]) *)

Module Resolver.

(** [release[f"{module_type}_api_version"]], [None] when the key is not
    in the release. *)
Definition api_version_of (t : ModuleType) (r : Release) : option ApiVersion :=
  match t with
  | Plugin => r_plugin_api_version r
  | Subsystem => r_subsystem_api_version r
  end.

(** Lines 230-233: the first release whose version is the pinned one. *)
Definition find_version (pv : string) (releases : list Release) : option Release :=
  List.find (fun release => String.eqb (r_version release) pv) releases.

(** Line 234, the parenthesised condition: the key is not in the release,
    or its major differs from the current one. *)
Definition pin_rejected (t : ModuleType) (cur_major : Z) (r : Release) : bool :=
  match api_version_of t r with
  | None => true
  | Some v => negb (Z.eqb (major v) cur_major)
  end.

(** Line 240: the key is not in the release, or its major is the current
    one. *)
Definition scan_accepts (t : ModuleType) (cur_major : Z) (r : Release) : bool :=
  match api_version_of t r with
  | None => true
  | Some v => Z.eqb (major v) cur_major
  end.

(** Lines 228-236: the value of [suitable_release] after the
    production-version block, and what the block logs. *)
Definition production_release (name : string) (t : ModuleType) (cur_major : Z)
    (production_version : option string) (releases : list Release)
  : list LogRecord * option Release :=
  match production_version with
  | None => ([], None)
  | Some pv =>
      match find_version pv releases with
      | None => ([(DEBUG, MsgProductionSpecified name pv)], None)
      | Some r =>
          if pin_rejected t cur_major r
          then ([(DEBUG, MsgProductionSpecified name pv);
                 (WARNING, MsgProductionUnsupported pv t name cur_major)], None)
          else ([(DEBUG, MsgProductionSpecified name pv)], Some r)
      end
  end.

(** Lines 237-242: the scan for the latest supporting release, entered
    only when [suitable_release] is still [None]. *)
Definition latest_release (t : ModuleType) (cur_major : Z)
    (suitable_release : option Release) (releases : list Release)
  : list LogRecord * option Release :=
  match suitable_release with
  | Some r => ([], Some r)
  | None => ([(DEBUG, MsgUsingLatest t cur_major)],
             List.find (scan_accepts t cur_major) releases)
  end.

(** Lines 222-242 as a whole. *)
Definition resolve_log (module : ModuleDescriptor) (releases : list Release)
    (cur_api_ver : ModuleType -> ApiVersion) : list LogRecord * option Release :=
  let name := m_name module in
  let module_type := m_type module in
  let cur_major := major (cur_api_ver module_type) in
  let '(log1, suitable_release) :=
    production_release name module_type cur_major (m_production_version module) releases in
  let '(log2, suitable_release) :=
    latest_release module_type cur_major suitable_release releases in
  (log1 ++ log2, suitable_release).

Definition resolve (module : ModuleDescriptor) (releases : list Release)
    (cur_api_ver : ModuleType -> ApiVersion) : option Release :=
  snd (resolve_log module releases cur_api_ver).

(** The compatibility notion of the specification: no declared version
    for the module's type, or a declared version with the current major. *)
Definition compatible (t : ModuleType) (cur_major : Z) (r : Release) : Prop :=
  api_version_of t r = None \/
  exists v, api_version_of t r = Some v /\ major v = cur_major.

(** [r] is the first element of [l] that satisfies [P]. *)
Definition first_such (P : Release -> Prop) (l : list Release) (r : Release) : Prop :=
  exists l1 l2, l = l1 ++ r :: l2 /\ Forall (fun r' => ~ P r') l1 /\ P r.

End Resolver.

(** * Python string and path primitives used by the code *)

Module Py.

(** [sep in s], for a one-character [sep]. *)
Fixpoint occurs (sep : ascii) (s : string) : bool :=
  match s with
  | EmptyString => false
  | String c r => if Ascii.eqb c sep then true else occurs sep r
  end.

(** [s.split(sep)[-1]] for a one-character [sep]: what follows the last
    [sep], the whole of [s] when [sep] does not occur. *)
Fixpoint after_last (sep : ascii) (s : string) : string :=
  match s with
  | EmptyString => EmptyString
  | String c r =>
      if occurs sep r then after_last sep r
      else if Ascii.eqb c sep then r else s
  end.

(** [s.startswith(prefix)] *)
Definition startswith (s prefix : string) : bool := String.prefix prefix s.

(** [os.path.basename] (posixpath): what follows the last slash. *)
Definition basename (p : string) : string := after_last "/" p.

(** [os.path.join(a, b)] (posixpath) for a relative [b]. *)
Definition join2 (a b : string) : string :=
  if String.eqb a "" then b
  else if Ascii.eqb (default "/"%char (String.get 0 (String.rev a))) "/" then a +:+ b
  else a +:+ "/" +:+ b.

Definition join (a : string) (parts : list string) : string :=
  fold_left join2 parts a.

(** The characters [str.strip()] removes, restricted to ASCII:
    TAB, LF, VT, FF, CR, FS, GS, RS, US and SPACE. *)
Definition isspace (c : ascii) : bool :=
  let n := nat_of_ascii c in
  ((9 <=? n) && (n <=? 13) || (28 <=? n) && (n <=? 32))%nat.

Fixpoint lstrip (s : string) : string :=
  match s with
  | EmptyString => EmptyString
  | String c r => if isspace c then lstrip r else s
  end.

Definition strip (s : string) : string :=
  String.rev (lstrip (String.rev (lstrip s))).

Definition digit (c : ascii) : option Z :=
  let n := Z.of_nat (nat_of_ascii c) in
  if (48 <=? n) && (n <=? 57) then Some (n - 48) else None.

(** Decimal digits, a single underscore allowed between two digits.
    [after_digit] tells whether the previous character was a digit. *)
Fixpoint digits (acc : Z) (after_digit : bool) (s : string) : option Z :=
  match s with
  | EmptyString => if after_digit then Some acc else None
  | String c r =>
      match digit c with
      | Some d => digits (10 * acc + d) true r
      | None =>
          if Ascii.eqb c "_" && after_digit then digits acc false r else None
      end
  end.

(** [int(s)] for an ASCII [s]; [None] is [ValueError].  Surrounding white
    space is stripped, one sign is allowed. *)
Definition int (s : string) : option Z :=
  match strip s with
  | String "+" r => digits 0 false r
  | String "-" r => Z.opp <$> digits 0 false r
  | t => digits 0 false t
  end.

End Py.

(** * The world the script runs in *)

(** A decoded JSON document (numbers restricted to integers).  A
    dictionary keeps its insertion order. *)
Inductive Json :=
  | JNull
  | JBool (b : bool)
  | JInt (n : Z)
  | JStr (s : string)
  | JList (l : list Json)
  | JDict (items : list (string * Json)).

(** The text [json.dumps(doc, indent=indent)] produces, for documents
    whose strings are printable ASCII or control characters. *)
Module JsonText.

Definition quote_char : ascii := ascii_of_nat 34.
Definition backslash : ascii := ascii_of_nat 92.
Definition newline : string := String (ascii_of_nat 10) "".

Definition hex_digit (n : nat) : ascii :=
  nth n (list_ascii_of_string "0123456789abcdef") "0"%char.

(** The escape of one character (the default [ensure_ascii=True]). *)
Definition escape (c : ascii) : string :=
  let n := nat_of_ascii c in
  if Ascii.eqb c quote_char then String backslash (String quote_char "")
  else if Ascii.eqb c backslash then String backslash (String backslash "")
  else if (n =? 10)%nat then String backslash "n"
  else if (n =? 13)%nat then String backslash "r"
  else if (n =? 9)%nat then String backslash "t"
  else if (n =? 8)%nat then String backslash "b"
  else if (n =? 12)%nat then String backslash "f"
  else if ((n <? 32) || (126 <? n))%nat then
    String backslash
      ("u00" +:+ String (hex_digit (n / 16)) (String (hex_digit (n mod 16)) ""))
  else String c "".

Fixpoint escape_all (s : string) : string :=
  match s with
  | EmptyString => EmptyString
  | String c r => escape c +:+ escape_all r
  end.

Definition quoted (s : string) : string :=
  String quote_char (escape_all s) +:+ String quote_char "".

Definition decimal (n : Z) : string := NilZero.string_of_int (Z.to_int n).

Fixpoint spaces (n : nat) : string :=
  match n with O => EmptyString | S n' => String " " (spaces n') end.

(** A line break followed by the indentation of nesting depth [level]. *)
Definition break (indent level : nat) : string :=
  newline +:+ spaces (indent * level).

Fixpoint dumps_at (indent level : nat) (doc : Json) : string :=
  match doc with
  | JNull => "null"
  | JBool b => if b then "true" else "false"
  | JInt n => decimal n
  | JStr s => quoted s
  | JList [] => "[]"
  | JList l =>
      "[" +:+ break indent (S level)
      +:+ String.concat ("," +:+ break indent (S level))
            (map (dumps_at indent (S level)) l)
      +:+ break indent level +:+ "]"
  | JDict [] => "{}"
  | JDict items =>
      "{" +:+ break indent (S level)
      +:+ String.concat ("," +:+ break indent (S level))
            (map (fun '(k, v) => quoted k +:+ ": " +:+ dumps_at indent (S level) v)
               items)
      +:+ break indent level +:+ "}"
  end.

Definition dumps (indent : nat) (doc : Json) : string := dumps_at indent 0 doc.

End JsonText.

(** A file is modelled by the view of it the script uses: the lines of a
    header, a decoded JSON document with the indentation it was written
    with, the decoded manifest [bundle.json], or the members of a zip
    archive. *)
Inductive Content :=
  | CText (lines : list string)
  | CJson (doc : Json) (indent : option nat)
  | CManifest (dists : list DistributionConfig)
  | CZip (members : list (string * Content)).

Inductive Node := Dir | File (c : Content).

(** What a URL serves. *)
Inductive Resource :=
  | RIndex (modules : list ModuleDescriptor)
  | RModuleIndex (releases : list Release)
  | RArchive (members : list (string * Content)).

Record World := mkWorld {
  fs : gmap string Node;          (* path -> node; paths compared as written *)
  remote : gmap string Resource;  (* url -> what it serves *)
  requests : list string;         (* urls fetched so far, oldest first *)
  log : list LogRecord            (* records logged so far, oldest first *)
}.

Definition set_fs (f : gmap string Node -> gmap string Node) (w : World) : World :=
  mkWorld (f (fs w)) (remote w) (requests w) (log w).
Definition add_request (u : string) (w : World) : World :=
  mkWorld (fs w) (remote w) (requests w ++ [u]) (log w).
Definition add_log (rs : list LogRecord) (w : World) : World :=
  mkWorld (fs w) (remote w) (requests w) (log w ++ rs).

Inductive Exn :=
  | FileNotFoundError | IsADirectoryError | NotADirectoryError | FileExistsError
  | ValueError | TypeError | AttributeError | KeyError
  | UnicodeDecodeError | JSONDecodeError | BadZipFile | ConnectionError.

(** How a computation ends: normally, by [exit(code)], or by an uncaught
    exception.  The world reached is kept in the three cases. *)
Inductive Outcome (A : Type) :=
  | Ok (a : A) (w : World)
  | Exit (code : Z) (w : World)
  | Raise (e : Exn) (w : World).
Arguments Ok {A} a w.
Arguments Exit {A} code w.
Arguments Raise {A} e w.

Definition M (A : Type) : Type := World -> Outcome A.

Definition ret {A} (a : A) : M A := fun w => Ok a w.

Definition bind {A B} (m : M A) (k : A -> M B) : M B :=
  fun w =>
    match m w with
    | Ok a w' => k a w'
    | Exit code w' => Exit code w'
    | Raise e w' => Raise e w'
    end.

Notation "x <- m ;; k" := (bind m (fun x => k))
  (at level 100, m at next level, right associativity).
Notation "m ;; k" := (bind m (fun _ => k))
  (at level 100, right associativity).

Definition world_of {A} (o : Outcome A) : World :=
  match o with Ok _ w | Exit _ w | Raise _ w => w end.

Definition exit {A} (code : Z) : M A := fun w => Exit code w.
Definition raise {A} (e : Exn) : M A := fun w => Raise e w.

Definition logger (lvl : Level) (msg : Message) : M unit :=
  fun w => Ok tt (add_log [(lvl, msg)] w).

Definition emit (records : list LogRecord) : M unit :=
  fun w => Ok tt (add_log records w).

(** * File system and network primitives *)

(** [path] is [dir] itself or lies below it. *)
Definition under (dir path : string) : bool :=
  String.eqb path dir || Py.startswith path (dir +:+ "/").

(** The directories [os.makedirs(p)] visits: every proper prefix of [p]
    that ends before a slash, then [p] itself. *)
Fixpoint dirs_upto (done p : string) : list string :=
  match p with
  | EmptyString => [String.rev done]
  | String c r =>
      (if Ascii.eqb c "/" then [String.rev done] else []) ++ dirs_upto (String c done) r
  end.

Definition is_file (f : gmap string Node) (p : string) : bool :=
  match f !! p with Some (File _) => true | _ => false end.

(** The root and the current directory always exist and are not part of
    the map. *)
Definition dirs_to_make (p : string) : list string :=
  List.filter (fun d => negb (String.eqb d "" || String.eqb d "."))
    (dirs_upto "" p).

(** [os.makedirs(p, exist_ok=True)]: a file on the way is an error, a
    directory that exists already is not. *)
Definition makedirs (p : string) : M unit :=
  fun w =>
    let ds := dirs_to_make p in
    if existsb (is_file (fs w)) (removelast ds) then Raise NotADirectoryError w
    else if is_file (fs w) p then Raise FileExistsError w
    else Ok tt (set_fs (fun f => foldr (fun d f' => <[d := Dir]> f') f ds) w).

(** [shutil.rmtree(p, ignore_errors=True)]: nothing happens when [p] is
    a file. *)
Definition rmtree (p : string) : M unit :=
  fun w =>
    if is_file (fs w) p then Ok tt w
    else Ok tt (set_fs (filter (fun kv => under p kv.1 = false)) w).

(** [os.path.exists(p)] *)
Definition path_exists (p : string) : M bool :=
  fun w => Ok (bool_decide (is_Some (fs w !! p))) w.

(** [open(p, "r")] / [open(p, "rb")] followed by reading the whole file. *)
Definition read_file (p : string) : M Content :=
  fun w =>
    match fs w !! p with
    | Some (File c) => Ok c w
    | Some Dir => Raise IsADirectoryError w
    | None => Raise FileNotFoundError w
    end.

(** [open(p, "w")] followed by writing the whole file. *)
Definition write_file (p : string) (c : Content) : M unit :=
  fun w =>
    match fs w !! p with
    | Some Dir => Raise IsADirectoryError w
    | _ => Ok tt (set_fs (<[p := File c]>) w)
    end.

(** [f.readlines()] on a text file. *)
Definition readlines (p : string) : M (list string) :=
  c <- read_file p ;;
  match c with
  | CText lines => ret lines
  | _ => raise UnicodeDecodeError
  end.

(** [json.load(f)] *)
Definition json_load (p : string) : M Json :=
  c <- read_file p ;;
  match c with
  | CJson doc _ => ret doc
  | _ => raise JSONDecodeError
  end.

(** [json.dump(doc, f, indent=indent)]: the text of the file is then
    [JsonText.dumps indent doc]. *)
Definition json_dump (doc : Json) (p : string) (indent : nat) : M unit :=
  write_file p (CJson doc (Some indent)).

(** [zipfile.ZipFile(f)] on the content of a file or of a response. *)
Definition ZipFile (c : Content) : M (list (string * Content)) :=
  match c with
  | CZip members => ret members
  | _ => raise BadZipFile
  end.

(** [z.extractall(target)]: every member is written below [target],
    a later member overwriting an earlier one of the same name. *)
Definition extract_into (target : string) (members : list (string * Content))
    (f : gmap string Node) : gmap string Node :=
  fold_left (fun f' m => <[target +:+ "/" +:+ m.1 := File m.2]> f') members f.

Definition extractall (members : list (string * Content)) (target : string) : M unit :=
  fun w => Ok tt (set_fs (extract_into target members) w).

(** [requests.get(url)]: the request is recorded, whatever it returns. *)
Definition requests_get (url : string) : M Resource :=
  fun w =>
    match remote w !! url with
    | Some r => Ok r (add_request url w)
    | None => Raise ConnectionError (add_request url w)
    end.

(** * [parse_version] (lines 97-113) *)

Record VersionVars := mkVars {
  v_major : option Z;
  v_minor : option Z;
  v_patch : option Z
}.

Definition define_of (version_define_prefix component : string) : string :=
  "#define " +:+ version_define_prefix +:+ "_VERSION_" +:+ component.

(** [int(line.split(" ")[-1])] *)
Definition last_int (line : string) : option Z :=
  Py.int (Py.after_last " " line).

(** One iteration of the loop of lines 102-109; [None] is the
    [ValueError] of [int]. *)
Definition scan_line (version_define_prefix : string) (vars : VersionVars)
    (line : string) : option VersionVars :=
  if Py.startswith line (define_of version_define_prefix "MAJOR") then
    n ← last_int line; Some (mkVars (Some n) (v_minor vars) (v_patch vars))
  else if Py.startswith line (define_of version_define_prefix "MINOR") then
    n ← last_int line; Some (mkVars (v_major vars) (Some n) (v_patch vars))
  else if Py.startswith line (define_of version_define_prefix "PATCH") then
    n ← last_int line; Some (mkVars (v_major vars) (v_minor vars) (Some n))
  else Some vars.

Fixpoint scan_lines (version_define_prefix : string) (vars : VersionVars)
    (lines : list string) : option VersionVars :=
  match lines with
  | [] => Some vars
  | line :: rest =>
      match scan_line version_define_prefix vars line with
      | Some vars' => scan_lines version_define_prefix vars' rest
      | None => None
      end
  end.

Definition parse_version (filepath version_define_prefix : string) : M ApiVersion :=
  lines <- readlines filepath ;;
  match scan_lines version_define_prefix (mkVars None None None) lines with
  | None => raise ValueError
  | Some (mkVars (Some major) (Some minor) (Some patch)) =>
      ret (mkApiVersion major minor patch)
  | Some _ =>
      logger ERROR (MsgFailedToParse version_define_prefix) ;;
      exit 1
  end.

(** Lines 183-190. *)
Definition get_plugin_api_version (engine_folder : string) : M ApiVersion :=
  let nos_plugin_api_h :=
    Py.join engine_folder ["SDK"; "include"; "Nodos"; "PluginAPI.h"] in
  parse_version nos_plugin_api_h "NOS_PLUGIN_API".

Definition get_subsystem_api_version (engine_folder : string) : M ApiVersion :=
  let nos_subsystem_api_h :=
    Py.join engine_folder ["SDK"; "include"; "Nodos"; "SubsystemAPI.h"] in
  parse_version nos_subsystem_api_h "NOS_SUBSYSTEM_API".

(** * [download_module_packages] (lines 193-272) *)

(** [set(conf["bundled_modules"] if "bundled_modules" in conf else [])] *)
Definition bundled_set (conf : DistributionConfig) : gset string :=
  list_to_set (default [] (d_bundled_modules conf)).

(** Lines 201-205: the inner loop over [all] for one [include]. *)
Definition add_included (include : string) (all : list DistributionConfig)
    (acc : list LogRecord * gset string) : list LogRecord * gset string :=
  fold_left
    (fun acc other_conf =>
       if String.eqb include (d_key other_conf) then
         let others := bundled_set other_conf in
         (acc.1 ++ [(DEBUG, MsgAddingModulesFrom (d_key other_conf) others)],
          acc.2 ∪ others)
       else acc)
    all acc.

(** Lines 198-205: the records logged and the final [bundled_modules]. *)
Definition effective_bundled_log (distconf : DistributionConfig)
    (all : list DistributionConfig) : list LogRecord * gset string :=
  fold_left
    (fun acc include => add_included include all acc)
    (default [] (d_includes distconf))
    ([], bundled_set distconf).

Definition effective_bundled (distconf : DistributionConfig)
    (all : list DistributionConfig) : gset string :=
  (effective_bundled_log distconf all).2.

(** [requests.get(index_url).json()] used as the list of modules. *)
Definition fetch_index (index_url : string) : M (list ModuleDescriptor) :=
  r <- requests_get index_url ;;
  match r with
  | RIndex modules => ret modules
  | RModuleIndex _ => raise TypeError
  | RArchive _ => raise JSONDecodeError
  end.

(** [requests.get(module['url']).json()] used through ['releases']. *)
Definition fetch_releases (module_url : string) : M (list Release) :=
  r <- requests_get module_url ;;
  match r with
  | RModuleIndex releases => ret releases
  | RIndex _ => raise TypeError
  | RArchive _ => raise JSONDecodeError
  end.

(** [f"{target_dir}/{name}/{version}"] *)
Definition extraction_target (target_dir name version : string) : string :=
  target_dir +:+ "/" +:+ name +:+ "/" +:+ version.

(** Lines 257-262. *)
Definition download_and_extract (module_type : ModuleType)
    (name version zip_url target_dir : string) : M unit :=
  logger INFO (MsgDownloading module_type name version zip_url) ;;
  zip_file <- requests_get zip_url ;;
  z <- match zip_file with
       | RArchive members => ret members
       | _ => raise BadZipFile
       end ;;
  extractall z (extraction_target target_dir name version).

(** Lines 247-262: acquisition of the release chosen for a module. *)
Definition acquire (distconf : DistributionConfig) (module_type : ModuleType)
    (name : string) (suitable_release : Release) (target_dir : string) : M unit :=
  let zip_url := r_url suitable_release in
  let version := r_version suitable_release in
  let zip_file_name := Py.basename zip_url in
  match d_local_modules_folder distconf with
  | Some local_modules_folder =>
      let local_zip := local_modules_folder +:+ "/" +:+ zip_file_name in
      found <- path_exists local_zip ;;
      if found then
        logger INFO (MsgFoundLocal name version local_modules_folder) ;;
        f <- read_file local_zip ;;
        z <- ZipFile f ;;
        extractall z (extraction_target target_dir name version)
      else download_and_extract module_type name version zip_url target_dir
  | None => download_and_extract module_type name version zip_url target_dir
  end.

(** Lines 218-262: one iteration of the loop over [index]; the result is
    [included_modules] after the iteration. *)
Definition process_module (distconf : DistributionConfig)
    (cur_api_ver : ModuleType -> ApiVersion) (target_dir : string)
    (bundled_modules : gset string) (included_modules : list ResolvedModule)
    (module : ModuleDescriptor) : M (list ResolvedModule) :=
  let name := m_name module in
  if bool_decide (name ∉ bundled_modules) then
    logger DEBUG (MsgSkippingModule name (d_key distconf)) ;;
    ret included_modules
  else
    module_index <- fetch_releases (m_url module) ;;
    let module_type := m_type module in
    let '(records, suitable_release) :=
      Resolver.resolve_log module module_index cur_api_ver in
    emit records ;;
    match suitable_release with
    | None =>
        logger WARNING
          (MsgNoSupport module_type name (major (cur_api_ver module_type))) ;;
        ret included_modules
    | Some suitable_release =>
        let included_modules :=
          included_modules ++ [mkResolved name (r_version suitable_release)] in
        acquire distconf module_type name suitable_release target_dir ;;
        ret included_modules
    end.

(** Lines 217-262: the loop over [index]. *)
Fixpoint process_index (distconf : DistributionConfig)
    (cur_api_ver : ModuleType -> ApiVersion) (target_dir : string)
    (bundled_modules : gset string) (included_modules : list ResolvedModule)
    (index : list ModuleDescriptor) : M (list ResolvedModule) :=
  match index with
  | [] => ret included_modules
  | module :: rest =>
      included_modules <-
        process_module distconf cur_api_ver target_dir bundled_modules
          included_modules module ;;
      process_index distconf cur_api_ver target_dir bundled_modules
        included_modules rest
  end.

(** ** Profile writer (lines 263-272) *)

Fixpoint dict_get (k : string) (items : list (string * Json)) : option Json :=
  match items with
  | [] => None
  | (k', v) :: rest => if String.eqb k' k then Some v else dict_get k rest
  end.

(** [d[k] = v]: an existing key keeps its place, a new one goes last. *)
Fixpoint dict_set (k : string) (v : Json) (items : list (string * Json))
  : list (string * Json) :=
  match items with
  | [] => [(k, v)]
  | (k', v') :: rest =>
      if String.eqb k' k then (k, v) :: rest else (k', v') :: dict_set k v rest
  end.

Definition entry_json (e : ResolvedModule) : Json :=
  JDict [("name", JStr (rm_name e)); ("version", JStr (rm_version e))].

(** Lines 268-270 on the decoded profile; a profile that is not a
    dictionary, or whose [loaded_modules] is not a list, raises. *)
Definition extend_loaded_modules (profile : Json)
    (included_modules : list ResolvedModule) : Exn + Json :=
  match profile with
  | JDict items =>
      let items :=
        match dict_get "loaded_modules" items with
        | None => dict_set "loaded_modules" (JList []) items
        | Some _ => items
        end in
      match dict_get "loaded_modules" items with
      | Some (JList loaded) =>
          inr (JDict (dict_set "loaded_modules"
                        (JList (loaded ++ map entry_json included_modules)) items))
      | Some _ => inl AttributeError
      | None => inl KeyError
      end
  | _ => inl TypeError
  end.

(** Lines 264-272. *)
Definition appendToProfile (profile_json_path : string)
    (included_modules : list ResolvedModule) : M unit :=
  found <- path_exists profile_json_path ;;
  profile <- (if found then json_load profile_json_path else ret (JDict [])) ;;
  match extend_loaded_modules profile included_modules with
  | inl e => raise e
  | inr profile => json_dump profile profile_json_path 2
  end.

Definition download_module_packages (engine_folder : string)
    (distconf : DistributionConfig) (all : list DistributionConfig)
    (target_dir profile_json_path : string) : M unit :=
  makedirs target_dir ;;
  let '(records, bundled_modules) := effective_bundled_log distconf all in
  emit records ;;
  logger INFO (MsgDownloadingModules bundled_modules) ;;
  let index_url := d_module_index_url distconf in
  logger INFO (MsgDownloadingDirectory index_url) ;;
  index <- fetch_index index_url ;;
  subsys_api_version <- get_subsystem_api_version engine_folder ;;
  plugin_api_version <- get_plugin_api_version engine_folder ;;
  logger INFO (MsgCurrentPluginApi plugin_api_version) ;;
  logger INFO (MsgCurrentSubsystemApi subsys_api_version) ;;
  let cur_api_ver := fun t =>
    match t with Plugin => plugin_api_version | Subsystem => subsys_api_version end in
  included_modules <-
    process_index distconf cur_api_ver target_dir bundled_modules [] index ;;
  appendToProfile profile_json_path included_modules.

(** * [package] (lines 298-382) *)

Definition ARTIFACTS_FOLDER : string := "./Artifacts".
Definition STAGING_FOLDER : string := ARTIFACTS_FOLDER +:+ "/__staging__".

(** Lines 305-308: the first [dist] with [dist['key'] == dist_key]. *)
Definition find_dist (dist_key : string) (dists : list DistributionConfig)
  : option DistributionConfig :=
  List.find (fun dist => String.eqb (d_key dist) dist_key) dists.

(** [json.load] of [bundle.json]. *)
Definition load_manifest (p : string) : M (list DistributionConfig) :=
  c <- read_file p ;;
  match c with
  | CManifest dists => ret dists
  | _ => raise JSONDecodeError
  end.

Section Package.

(** Lines 315-367: leftover deletion, the nosman build, the copies into
    the staging tree, [nosman init], the SDK archive and the signing.
    The result is [engine_dist_folder]. *)
Variable stage_engine : string -> bool -> M string.

(** Lines 372-382: the engine settings and the final archive. *)
Variable archive_staging :
  string -> DistributionConfig -> string -> bool -> M unit.

Definition package (dist_key engine_folder : string)
    (should_sign_binaries : bool) : M unit :=
  logger INFO MsgPackaging ;;
  rmtree ARTIFACTS_FOLDER ;;
  makedirs STAGING_FOLDER ;;
  dists <- load_manifest "./bundle.json" ;;
  match find_dist dist_key dists with
  | None =>
      logger ERROR (MsgDistKeyNotFound dist_key) ;;
      exit 1
  | Some distconf =>
      let is_bundled :=
        match d_bundled_modules distconf with
        | Some (_ :: _) => true
        | _ => false
        end in
      engine_dist_folder <- stage_engine engine_folder should_sign_binaries ;;
      (if is_bundled then
         download_module_packages engine_folder distconf dists
           (STAGING_FOLDER +:+ "/Module")
           (engine_dist_folder +:+ "/Config/Profile.json")
       else ret tt) ;;
      archive_staging engine_dist_folder distconf dist_key is_bundled
  end.

End Package.

(** * Notions used to state the properties *)

(** [line] starts with [#define <prefix>_VERSION_<component>]. *)
Definition defines (version_define_prefix component line : string) : bool :=
  Py.startswith line (define_of version_define_prefix component).

(** The last line of the file that defines the component. *)
Fixpoint last_define (version_define_prefix component : string)
    (lines : list string) : option string :=
  match lines with
  | [] => None
  | line :: rest =>
      match last_define version_define_prefix component rest with
      | Some l => Some l
      | None =>
          if defines version_define_prefix component line then Some line else None
      end
  end.

(** The value a variable of the loop of [parse_version] holds after the
    lines: the integer of the last defining line, its initial value when
    there is none. *)
Definition value_after (p c : string) (lines : list string) (init : option Z)
  : option Z :=
  match last_define p c lines with
  | Some l => last_int l
  | None => init
  end.

(** [line] defines one of the three components. *)
Definition defines_any (version_define_prefix line : string) : bool :=
  defines version_define_prefix "MAJOR" line
  || defines version_define_prefix "MINOR" line
  || defines version_define_prefix "PATCH" line.

(** The names a distribution lists itself. *)
Definition own_modules (conf : DistributionConfig) : list string :=
  default [] (d_bundled_modules conf).

(** The keys a distribution includes. *)
Definition included_keys (conf : DistributionConfig) : list string :=
  default [] (d_includes conf).

(** Two manifests that differ at most in the [includes] of their
    distributions. *)
Definition same_but_includes (all all' : list DistributionConfig) : Prop :=
  Forall2 (fun a b => d_key a = d_key b /\
                      d_bundled_modules a = d_bundled_modules b) all all'.

(** The module a log record is about, for the records that name one. *)
Definition message_module (msg : Message) : option string :=
  match msg with
  | MsgSkippingModule name _ => Some name
  | MsgProductionSpecified name _ => Some name
  | MsgProductionUnsupported _ _ name _ => Some name
  | MsgNoSupport _ name _ => Some name
  | MsgFoundLocal name _ _ => Some name
  | MsgDownloading _ name _ _ => Some name
  | _ => None
  end.

(** The profile file at [p] is missing ([items] and [old] are then
    empty), or it holds a JSON object with the members [items] whose
    [loaded_modules] is missing ([old] is then empty) or is the list
    [old]. *)
Definition profile_holds (w : World) (p : string)
    (items : list (string * Json)) (old : list Json) : Prop :=
  (fs w !! p = None /\ items = [] /\ old = []) \/
  (exists indent, fs w !! p = Some (File (CJson (JDict items) indent)) /\
     (dict_get "loaded_modules" items = None /\ old = [] \/
      dict_get "loaded_modules" items = Some (JList old))).

(** Whatever the outcome of [m], what it adds to the log are records
    that satisfy [P]. *)
Definition logs_only {A} (P : LogRecord -> Prop) (m : M A) : Prop :=
  forall w, exists records,
    log (world_of (m w)) = log w ++ records /\ Forall P records.

(** Whatever the outcome of [m], the paths that do not satisfy [P] hold
    afterwards what they held before. *)
Definition writes_only {A} (P : string -> Prop) (m : M A) : Prop :=
  forall w p, ~ P p -> fs (world_of (m w)) !! p = fs w !! p.

(** [p] lies below the directory a release [version] of module [name] is
    extracted into. *)
Definition below_target (target_dir name version p : string) : Prop :=
  Py.startswith p (extraction_target target_dir name version +:+ "/") = true.

(** A record that names a module names [name]. *)
Definition about_only (name : string) (r : LogRecord) : Prop :=
  forall n, message_module r.2 = Some n -> n = name.

(** * Sample data

    The scenario of the specification: module [m1] with the releases
    ["2.0"] (plugin API major 2) and ["1.0"] (plugin API major 1), and
    variations of it. *)

Module Sample.

Definition api (n : Z) : ApiVersion := mkApiVersion n 0 0.

Definition rel20 : Release :=
  mkRelease "2.0" "https://modules.example/m1-2.0.zip" (Some (api 2)) None.
Definition rel10 : Release :=
  mkRelease "1.0" "https://modules.example/m1-1.0.zip" (Some (api 1)) None.
(** A release ["1.0"] that declares no plugin API version. *)
Definition rel10_undeclared : Release :=
  mkRelease "1.0" "https://modules.example/m1-1.0.zip" None None.
(** A release ["0.9"] that declares only a plugin API version. *)
Definition rel09 : Release :=
  mkRelease "0.9" "https://modules.example/s1-0.9.zip" (Some (api 2)) None.
Definition rel08 : Release :=
  mkRelease "0.8" "https://modules.example/s1-0.8.zip" None (Some (api 2)).

Definition m1 : ModuleDescriptor := mkModule "m1" Plugin "r1" None.
Definition m1_pinned : ModuleDescriptor := mkModule "m1" Plugin "r1" (Some "1.0").
Definition s1_pinned : ModuleDescriptor := mkModule "s1" Subsystem "r2" (Some "0.9").

Definition cur (n : Z) : ModuleType -> ApiVersion := fun _ => api n.

Definition LF : string := String (ascii_of_nat 10) "".

(** A version header as [readlines] returns it. *)
Definition plugin_header : list string :=
  ["#pragma once" +:+ LF;
   "#define NOS_PLUGIN_API_VERSION_MAJOR 2" +:+ LF;
   "#define NOS_PLUGIN_API_VERSION_MINOR 1" +:+ LF;
   "#define NOS_PLUGIN_API_VERSION_PATCH 0" +:+ LF].

(** The same header without its PATCH line. *)
Definition plugin_header_no_patch : list string :=
  ["#pragma once" +:+ LF;
   "#define NOS_PLUGIN_API_VERSION_MAJOR 2" +:+ LF;
   "#define NOS_PLUGIN_API_VERSION_MINOR 1" +:+ LF].

Definition header_path : string := "Engine/SDK/include/Nodos/PluginAPI.h".

Definition world_with_header (lines : list string) : World :=
  mkWorld {[ header_path := File (CText lines) ]} ∅ [] [].

(** A working directory with the manifest and an archive left by an
    earlier run. *)
Definition world_with_leftover : World :=
  mkWorld {[ "./bundle.json" := File (CManifest []);
             "./Artifacts/Nodos-1.2.0.b1.zip" := File (CZip []) ]} ∅ [] [].

Definition no_stage_engine : string -> bool -> M string :=
  fun _ _ => ret "".
Definition no_archive_staging : string -> DistributionConfig -> string -> bool -> M unit :=
  fun _ _ _ _ => ret tt.

(** A distribution with a local cache that holds the archive of
    release ["2.0"]; the same archive is served remotely. *)
Definition dist_cached : DistributionConfig :=
  mkDist "cached" (Some ["m1"]) None "https://modules.example/index.json"
    (Some "./LocalModules").

Definition m1_archive : list (string * Content) :=
  [("m1.noscfg", CText ["{}"])].

Definition world_with_cache : World :=
  mkWorld {[ "./LocalModules/m1-2.0.zip" := File (CZip m1_archive) ]}
          {[ "https://modules.example/m1-2.0.zip" := RArchive m1_archive ]}
          [] [].

Definition world_without_cache : World :=
  mkWorld ∅ {[ "https://modules.example/m1-2.0.zip" := RArchive m1_archive ]}
          [] [].

(** A profile that already records one module, and a resolved list. *)
Definition profile_path : string := "./Engine/Config/Profile.json".

Definition world_with_profile : World :=
  mkWorld {[ profile_path :=
               File (CJson (JDict [("theme", JStr "dark");
                                   ("loaded_modules",
                                    JList [entry_json (mkResolved "m0" "0.1")])])
                       None) ]} ∅ [] [].

Definition resolved_m1 : list ResolvedModule := [mkResolved "m1" "2.0"].

(** The index lists [m1] (whose only release is for plugin API 1) and
    [m2]; the distribution bundles [m1], [m2] and a module [m9] that the
    index does not list. *)
Definition m2 : ModuleDescriptor := mkModule "m2" Plugin "r2" None.

Definition m2_archive : list (string * Content) :=
  [("m2.noscfg", CText ["{}"])].

Definition rel_m2 : Release :=
  mkRelease "3.1" "https://modules.example/m2-3.1.zip" (Some (api 2)) None.

Definition world_with_index : World :=
  mkWorld ∅
          {[ "r1" := RModuleIndex [rel10];
             "r2" := RModuleIndex [rel_m2];
             "https://modules.example/m2-3.1.zip" := RArchive m2_archive ]}
          [] [].

Definition bundled_m1_m2_m9 : gset string := {[ "m1"; "m2"; "m9" ]}.

(** A whole run: the engine headers, the index and the release lists
    are in place, the profile is not. *)
Definition subsystem_header : list string :=
  ["#define NOS_SUBSYSTEM_API_VERSION_MAJOR 2" +:+ LF;
   "#define NOS_SUBSYSTEM_API_VERSION_MINOR 0" +:+ LF;
   "#define NOS_SUBSYSTEM_API_VERSION_PATCH 3" +:+ LF].

Definition dist_bundle : DistributionConfig :=
  mkDist "bundle" (Some ["m1"; "m2"; "m9"]) None
    "https://modules.example/index.json" None.

Definition world_before_run : World :=
  mkWorld {[ "Engine/SDK/include/Nodos/PluginAPI.h" := File (CText plugin_header);
             "Engine/SDK/include/Nodos/SubsystemAPI.h" := File (CText subsystem_header) ]}
          {[ "https://modules.example/index.json" := RIndex [m1; m2];
             "r1" := RModuleIndex [rel10];
             "r2" := RModuleIndex [rel_m2];
             "https://modules.example/m2-3.1.zip" := RArchive m2_archive ]}
          [] [].

(** Distribution [A] includes [B], and [B] includes [C]. *)
Definition distA : DistributionConfig :=
  mkDist "A" (Some ["m1"]) (Some ["B"]) "https://modules.example/index.json" None.
Definition distB : DistributionConfig :=
  mkDist "B" (Some ["m2"]) (Some ["C"]) "https://modules.example/index.json" None.
Definition distB_flat : DistributionConfig :=
  mkDist "B" (Some ["m2"]) None "https://modules.example/index.json" None.
Definition distC : DistributionConfig :=
  mkDist "C" (Some ["m3"]) None "https://modules.example/index.json" None.

End Sample.

(** * The run of [download_module_packages] around its loop *)

(** The world in which the loop of lines 217-262 starts, [w1] being the
    world once [target_dir] is made: the records of lines 204-214 are
    logged and the index has been requested. *)
Definition world_at_loop (distconf : DistributionConfig)
    (all : list DistributionConfig) (plugin_api_version subsys_api_version : ApiVersion)
    (w1 : World) : World :=
  let '(records, bundled_modules) := effective_bundled_log distconf all in
  let index_url := d_module_index_url distconf in
  add_log [(INFO, MsgCurrentSubsystemApi subsys_api_version)]
    (add_log [(INFO, MsgCurrentPluginApi plugin_api_version)]
       (add_request index_url
          (add_log [(INFO, MsgDownloadingDirectory index_url)]
             (add_log [(INFO, MsgDownloadingModules bundled_modules)]
                (add_log records w1))))).

(** [cur_api_ver] of line 215. *)
Definition cur_api_ver_of (plugin_api_version subsys_api_version : ApiVersion)
  : ModuleType -> ApiVersion :=
  fun t =>
    match t with
    | Plugin => plugin_api_version
    | Subsystem => subsys_api_version
    end.

(** * More sample data *)

Module Extra.

(** A MINOR line that ends in a comment. *)
Definition commented_line : string :=
  "#define NOS_PLUGIN_API_VERSION_MINOR 1 // minor" +:+ Sample.LF.

Definition plugin_header_commented : list string :=
  ["#define NOS_PLUGIN_API_VERSION_MAJOR 2" +:+ Sample.LF;
   commented_line;
   "#define NOS_PLUGIN_API_VERSION_PATCH 0" +:+ Sample.LF].

(** The sample run of [download_module_packages], step by step. *)
Definition run_cur : ModuleType -> ApiVersion :=
  cur_api_ver_of (mkApiVersion 2 1 0) (mkApiVersion 2 0 3).

Definition world_with_target : World :=
  world_of (makedirs "./Module" Sample.world_before_run).

Definition world_after_loop : World :=
  world_of (process_index Sample.dist_bundle run_cur "./Module"
              (effective_bundled Sample.dist_bundle [Sample.dist_bundle]) []
              [Sample.m1; Sample.m2]
              (world_at_loop Sample.dist_bundle [Sample.dist_bundle]
                 (mkApiVersion 2 1 0) (mkApiVersion 2 0 3) world_with_target)).

(** The same world, the archive of [m2] being unreachable. *)
Definition world_without_archive : World :=
  mkWorld (fs Sample.world_before_run)
          {[ "https://modules.example/index.json" := RIndex [Sample.m1; Sample.m2];
             "r1" := RModuleIndex [Sample.rel10];
             "r2" := RModuleIndex [Sample.rel_m2] ]}
          [] [].

Definition world_with_target_without_archive : World :=
  world_of (makedirs "./Module" world_without_archive).

Definition world_after_failed_loop : World :=
  world_of (process_index Sample.dist_bundle run_cur "./Module"
              (effective_bundled Sample.dist_bundle [Sample.dist_bundle]) []
              [Sample.m1; Sample.m2]
              (world_at_loop Sample.dist_bundle [Sample.dist_bundle]
                 (mkApiVersion 2 1 0) (mkApiVersion 2 0 3)
                 world_with_target_without_archive)).

(** The same world, the subsystem header holding the plugin defines. *)
Definition world_with_wrong_header : World :=
  mkWorld {[ "Engine/SDK/include/Nodos/PluginAPI.h" := File (CText Sample.plugin_header);
             "Engine/SDK/include/Nodos/SubsystemAPI.h" := File (CText Sample.plugin_header) ]}
          (remote Sample.world_before_run) [] [].

(** Profiles the writer cannot extend: a JSON list, and an object whose
    [loaded_modules] is a string. *)
Definition world_with_list_profile : World :=
  mkWorld {[ Sample.profile_path := File (CJson (JList []) None) ]} ∅ [] [].

Definition world_with_odd_profile : World :=
  mkWorld {[ Sample.profile_path :=
               File (CJson (JDict [("loaded_modules", JStr "none")]) None) ]}
          ∅ [] [].

(** Engine settings that already name a remote index. *)
Definition world_with_settings : World :=
  mkWorld {[ "dist/Config/EngineSettings.json" :=
               File (CJson (JDict [("remote_modules", JList [JStr "old"]);
                                   ("log_level", JStr "info")])
                       None) ]} ∅ [] [].

(** A manifest whose distribution [D] lists no module itself and
    includes [B]. *)
Definition distD : DistributionConfig :=
  mkDist "D" None (Some ["B"]) "https://modules.example/index.json" None.

Definition world_with_manifest : World :=
  mkWorld {[ "./bundle.json" := File (CManifest [distD; Sample.distB]) ]} ∅ [] [].

End Extra.

(** The world [package] has reached when it reads the manifest: the
    first record is logged, the artifacts folder removed and the staging
    folder made. *)
Definition world_after_cleanup (w : World) : World :=
  set_fs (fun f => foldr (fun d f' => <[d := Dir]> f') f
                     (dirs_to_make STAGING_FOLDER))
    (set_fs (filter (fun kv => under ARTIFACTS_FOLDER kv.1 = false))
       (add_log [(INFO, MsgPackaging)] w)).

(** The keys of a dictionary, in order. *)
Definition dict_keys (items : list (string * Json)) : list string :=
  map fst items.

(** * The engine settings (lines 372-379 of [package]) *)

(** [doc[key] = value]: only a dictionary supports it. *)
Definition setitem (key : string) (value : Json) (doc : Json) : M Json :=
  match doc with
  | JDict items => ret (JDict (dict_set key value items))
  | _ => raise TypeError
  end.

(** Lines 372-379.  [engine_index_url] is what the distribution holds
    under that key, [None] when it has no such key. *)
Definition write_engine_settings (engine_dist_folder : string)
    (distconf : DistributionConfig) (engine_index_url : option string) : M unit :=
  let engine_settings_path :=
    engine_dist_folder +:+ "/Config/EngineSettings.json" in
  engine_settings <- json_load engine_settings_path ;;
  engine_settings <-
    setitem "remote_modules"
      (JList [JDict [("url", JStr (d_module_index_url distconf))]])
      engine_settings ;;
  url <- match engine_index_url with
         | Some url => ret url
         | None => raise KeyError
         end ;;
  engine_settings <- setitem "engine_index_url" (JStr url) engine_settings ;;
  json_dump engine_settings engine_settings_path 2.

(** * More Python string primitives *)

Module PyStr.

(** [c.lower()] for an ASCII character. *)
Definition lower_char (c : ascii) : ascii :=
  let n := nat_of_ascii c in
  if ((65 <=? n) && (n <=? 90))%nat then ascii_of_nat (n + 32) else c.

(** [s.lower()] for an ASCII string. *)
Fixpoint lower (s : string) : string :=
  match s with
  | EmptyString => EmptyString
  | String c r => String (lower_char c) (lower r)
  end.

(** [sub in s] *)
Fixpoint contains (sub s : string) : bool :=
  String.prefix sub s
  || match s with
     | EmptyString => false
     | String _ r => contains sub r
     end.

(** [s[n:]] *)
Fixpoint drop (n : nat) (s : string) : string :=
  match n, s with
  | O, _ => s
  | S n', String _ r => drop n' r
  | S _, EmptyString => EmptyString
  end.

(** [s.split(sep, 1)] at the first occurrence of [sep]: what stands
    before it and what follows it; [None] when [sep] does not occur. *)
Fixpoint cut (sep s : string) : option (string * string) :=
  if String.prefix sep s then Some (EmptyString, drop (String.length sep) s)
  else
    match s with
    | EmptyString => None
    | String c r =>
        match cut sep r with
        | Some (a, b) => Some (String c a, b)
        | None => None
        end
    end.

(** [s.split(sep)[0]] *)
Definition split_0 (sep s : string) : string :=
  match cut sep s with
  | Some (a, _) => a
  | None => s
  end.

(** [s.split(sep)[1]]; [None] is [IndexError]. *)
Definition split_1 (sep s : string) : option string :=
  match cut sep s with
  | Some (_, b) => Some (split_0 sep b)
  | None => None
  end.

(** [s.rpartition(sep)] for a one-character [sep] that occurs in [s]:
    what stands before the last [sep] and what follows it. *)
Fixpoint rcut (sep : ascii) (s : string) : option (string * string) :=
  match s with
  | EmptyString => None
  | String c r =>
      match rcut sep r with
      | Some (a, b) => Some (String c a, b)
      | None => if Ascii.eqb c sep then Some (EmptyString, r) else None
      end
  end.

(** [pathlib.PurePath.suffix] of a path whose last component is [name]:
    what starts at the last dot, when that dot is neither the first nor
    the last character of [name]. *)
Definition suffix (name : string) : string :=
  match rcut "." name with
  | Some (String _ _, String c b) => String "." (String c b)
  | _ => EmptyString
  end.

End PyStr.

(** * [should_exclude_from_install] (lines 19-33) *)

(** The elements of the set of line 20.  There is no comma between the
    last two literals of the source, which Python joins into one. *)
Definition INSTALLER_EXCLUDE : list string :=
  ["flatc"; "curl"; "gen_hpack_tables"; "protoc"; "grpc_cpp_plugin"; "Test";
   "vkClient" +:+ "zlib"].

(** Whether the loop of lines 29-32 returns [True]: some element of the
    set, lowered, occurs in the lowered target. *)
Definition excluded (target : string) : bool :=
  existsb (fun exclude => PyStr.contains (PyStr.lower exclude) (PyStr.lower target))
    INSTALLER_EXCLUDE.

(** * The command-line side of the script: environment and processes

    The functions that read the environment, run external tools and
    publish the release are embedded over a read-only host (environment
    variables, outcome of commands, listings) and a trace of what the
    script has done (records logged, commands run, text printed,
    directory changes), oldest first.  A command is taken to start and a
    directory to exist: the exceptions Python raises otherwise are not
    part of the model. *)

Module Cli.

(** One constructor per [logger] call site. *)
Inductive Message :=
  | MsgExcluding (target : string)                     (* line 31 *)
  | MsgEnvNotSet (var_name : string)                   (* line 39 *)
  | MsgSigning (files : list string)                   (* line 52 *)
  | MsgSigntoolReturned (retcode : Z)                  (* line 64 *)
  | MsgSigningInside (folder : string)                 (* line 68 *)
  | MsgDryRun (args : list string)                     (* line 81 *)
  | MsgMissingVersionInfo                              (* line 92 *)
  | MsgReleaseArtifact (path : string)                 (* line 120 *)
  | MsgUsingTargetBranch (target_branch : string)      (* line 126 *)
  | MsgUsingDefaultBranch                              (* line 129 *)
  | MsgUsingRepo (release_repo : string)               (* line 131 *)
  | MsgUsingCurrentRepo                                (* line 134 *)
  | MsgPushing (release_repo : string)                 (* line 136 *)
  | MsgGhReturned (returncode : Z)                     (* line 140 *)
  | MsgGhSuccessful                                    (* line 142 *)
  | MsgRunningPublish                                  (* line 164 *)
  | MsgPublishArgs (nosman_args : list string)         (* line 170 *)
  | MsgPublishReturned (returncode : Z)                (* line 173 *)
  | MsgBuildingNosman                                  (* line 276 *)
  | MsgBuildFailed                                     (* line 281 *)
  | MsgUpxFailed.                                      (* line 286 *)

Inductive Effect :=
  | Logged (lvl : Level) (msg : Message)
  | Called (args : list string)     (* [call(args)] or [run(args, ...)] *)
  | Printed (text : string)         (* [print(text)] *)
  | Chdir (dir : string).           (* [os.chdir(dir)] *)

(** What the script reads from its surroundings. *)
Record Host := mkHost {
  environ : gmap string string;             (* [os.environ] *)
  completes : list string -> Z * string;    (* return code and stderr of a command *)
  walk : string -> list (string * list string);  (* [os.walk]: roots and their files *)
  glob : string -> list string;             (* [glob.glob] *)
  abspath : string -> string;               (* [os.path.abspath] *)
  getcwd : string;                          (* [os.getcwd()] when the function is entered *)
  as_posix : string -> string;              (* [pathlib.Path(p).as_posix()] *)
  windows : bool                            (* [platform.system() == 'Windows'] *)
}.

Inductive Outcome (A : Type) :=
  | Done (a : A) (t : list Effect)
  | Exited (code : Z) (t : list Effect).
Arguments Done {A} a t.
Arguments Exited {A} code t.

Definition C (A : Type) : Type := Host -> list Effect -> Outcome A.

Definition ret {A} (a : A) : C A := fun _ t => Done a t.

Definition bind {A B} (m : C A) (k : A -> C B) : C B :=
  fun h t =>
    match m h t with
    | Done a t' => k a h t'
    | Exited code t' => Exited code t'
    end.

Declare Scope cli_scope.
Delimit Scope cli_scope with cli.
Notation "x <- m ;; k" := (bind m (fun x => k))
  (at level 100, m at next level, right associativity) : cli_scope.
Notation "m ;; k" := (bind m (fun _ => k))
  (at level 100, right associativity) : cli_scope.
Local Open Scope cli_scope.

Definition trace_of {A} (o : Outcome A) : list Effect :=
  match o with Done _ t | Exited _ t => t end.

Definition exit {A} (code : Z) : C A := fun _ t => Exited code t.
Definition effect (e : Effect) : C unit := fun _ t => Done tt (t ++ [e]).
Definition logger (lvl : Level) (msg : Message) : C unit := effect (Logged lvl msg).
Definition host {A} (f : Host -> A) : C A := fun h t => Done (f h) t.

(** [call(args)] and [run(args, ...)]: the command is run and its return
    code and stderr come back. *)
Definition run (args : list string) : C (Z * string) :=
  effect (Called args) ;;
  host (fun h => completes h args).

(** Lines 19-33. *)
Definition should_exclude_from_install (target : string) : C bool :=
  if excluded target then
    logger DEBUG (MsgExcluding target) ;;
    ret true
  else ret false.

(** Lines 36-41. *)
Definition getenv (var_name : string) : C string :=
  val <- host (fun h => environ h !! var_name) ;;
  match val with
  | None =>
      logger ERROR (MsgEnvNotSet var_name) ;;
      exit 1
  | Some val => ret val
  end.

(** Lines 44-64. *)
Definition sign_files (files : list string) : C unit :=
  url <- getenv "ZD_CODE_SIGN_AZURE_KEY_VAULT_URL" ;;
  client_id <- getenv "ZD_CODE_SIGN_AZURE_KEY_VAULT_CLIENT_ID" ;;
  client_secret <- getenv "ZD_CODE_SIGN_AZURE_KEY_VAULT_CLIENT_SECRET" ;;
  tenant_id <- getenv "ZD_CODE_SIGN_AZURE_TENANT_ID" ;;
  cert_name <- getenv "ZD_CODE_SIGN_AZURE_KEY_VAULT_CERT_NAME" ;;
  logger INFO (MsgSigning files) ;;
  let args := ["AzureSignTool"; "sign";
               "-kvu"; url;
               "-kvi"; client_id;
               "-kvs"; client_secret;
               "-kvt"; tenant_id;
               "-kvc"; cert_name;
               "-tr"; "http://timestamp.digicert.com";
               "-v"] ++ files in
  result <- run args ;;
  let retcode := result.1 in
  if negb (Z.eqb retcode 0) then logger ERROR (MsgSigntoolReturned retcode)
  else ret tt.

(** Lines 72-75, for one file of one root: the file is taken when its
    suffix is one of the two and it is not excluded; the exclusion is
    only asked about files with such a suffix. *)
Definition collect_file (root filename : string)
    (files_to_be_signed : list string) : C (list string) :=
  let path := root +:+ "/" +:+ filename in
  if bool_decide (PyStr.suffix (Py.basename path) ∈ [".exe"; ".dll"]) then
    skip <- should_exclude_from_install filename ;;
    if negb skip then
      posix <- host (fun h => as_posix h path) ;;
      ret (files_to_be_signed ++ [posix])
    else ret files_to_be_signed
  else ret files_to_be_signed.

Fixpoint collect_files (root : string) (files : list string)
    (files_to_be_signed : list string) : C (list string) :=
  match files with
  | [] => ret files_to_be_signed
  | filename :: rest =>
      files_to_be_signed <- collect_file root filename files_to_be_signed ;;
      collect_files root rest files_to_be_signed
  end.

Fixpoint collect_roots (roots : list (string * list string))
    (files_to_be_signed : list string) : C (list string) :=
  match roots with
  | [] => ret files_to_be_signed
  | (root, files) :: rest =>
      files_to_be_signed <- collect_files root files files_to_be_signed ;;
      collect_roots rest files_to_be_signed
  end.

(** Lines 67-76. *)
Definition sign_binaries (folder : string) : C unit :=
  logger INFO (MsgSigningInside folder) ;;
  roots <- host (fun h => walk h folder) ;;
  files_to_be_signed <- collect_roots roots [] ;;
  sign_files files_to_be_signed.

(** Lines 79-83: the result is the return code and stderr. *)
Definition run_dry_runnable (args : list string) (dry_run : bool) : C (Z * string) :=
  if dry_run then
    logger INFO (MsgDryRun args) ;;
    ret (0, "")
  else run args.

(** [not v] for the result of [os.getenv]: unset or empty. *)
Definition unset_or_empty (v : option string) : bool :=
  match v with
  | None => true
  | Some s => String.eqb s ""
  end.

(** Lines 86-94. *)
Definition get_version_info_from_env : C (string * string * string * string) :=
  major <- host (fun h => environ h !! "VERSION_MAJOR") ;;
  minor <- host (fun h => environ h !! "VERSION_MINOR") ;;
  patch <- host (fun h => environ h !! "VERSION_PATCH") ;;
  build_number <- host (fun h => environ h !! "BUILD_NUMBER") ;;
  if unset_or_empty major || unset_or_empty minor || unset_or_empty patch
     || unset_or_empty build_number then
    logger ERROR MsgMissingVersionInfo ;;
    exit 1
  else
    ret (default "" major, default "" minor, default "" patch,
         default "" build_number).

(** Lines 178-180. *)
Definition get_release_artifacts (dir : string) : C (list string) :=
  host (fun h => glob h (dir +:+ "/*.zip")).

Fixpoint log_artifacts (artifacts : list string) : C unit :=
  match artifacts with
  | [] => ret tt
  | path :: rest => logger INFO (MsgReleaseArtifact path) ;; log_artifacts rest
  end.

(** [f"{major}.{minor}.{patch}.b{build_number}"] (lines 122, 146, 325) *)
Definition version_string (major minor patch build_number : string) : string :=
  major +:+ "." +:+ minor +:+ "." +:+ patch +:+ ".b" +:+ build_number.

(** Lines 124-135: the arguments of [gh], and what is logged on the
    way. *)
Definition gh_arguments (tag : string) (artifacts : list string)
    (release_notes title target_branch release_repo : string) : C (list string) :=
  let ghargs := ["gh"; "release"; "create"; tag] ++ artifacts
                ++ ["--notes"; release_notes; "--title"; title] in
  ghargs <-
    (if negb (String.eqb target_branch "") then
       logger INFO (MsgUsingTargetBranch target_branch) ;;
       ret (ghargs ++ ["--target"; target_branch])
     else
       logger INFO MsgUsingDefaultBranch ;;
       ret ghargs) ;;
  if negb (String.eqb release_repo "") then
    logger INFO (MsgUsingRepo release_repo) ;;
    ret (ghargs ++ ["--repo"; release_repo])
  else
    logger INFO MsgUsingCurrentRepo ;;
    ret (ghargs ++ ["--generate-notes"]).

(** Lines 160-162: the key of a bundled distribution read back from the
    name of its archive; [None] is the [IndexError] that the test of
    line 161 excludes. *)
Definition dist_key_of (nodos_zip_prefix file_name : string) : option string :=
  if Py.startswith file_name (nodos_zip_prefix +:+ "-bundle-") then
    PyStr.split_0 ".zip" <$> PyStr.split_1 "-bundle-" file_name
  else None.

(** Lines 165-169. *)
Definition nosman_arguments (path : string) (dist_key : option string)
    (major minor patch build_number : string) (dry_run_release : bool)
  : list string :=
  let nodos_package_name :=
    "nodos" +:+ match dist_key with
                | Some dist_key => ".bundle." +:+ dist_key
                | None => ""
                end in
  ["nosman"; "publish"; "--path"; path; "--name"; nodos_package_name;
   "--version"; major +:+ "." +:+ minor +:+ "." +:+ patch;
   "--version-suffix"; ".b" +:+ build_number;
   "--type"; "nodos"; "--vendor"; "Nodos";
   "--publisher-name"; "nosman"; "--publisher-email"; "bot@nodos.dev"]
  ++ (if dry_run_release then ["--dry-run"] else []).

(** Lines 154-174: the loop over the absolute paths of the artifacts
    (line 155 computes a value that is not used). *)
Fixpoint publish_artifacts (artifacts_abspath : list string)
    (major minor patch build_number : string) (dry_run_release : bool) : C unit :=
  match artifacts_abspath with
  | [] => ret tt
  | path :: rest =>
      let nodos_zip_prefix :=
        "Nodos-" +:+ version_string major minor patch build_number in
      let file_name := Py.basename path in
      if negb (Py.startswith file_name nodos_zip_prefix) then
        publish_artifacts rest major minor patch build_number dry_run_release
      else
        let dist_key := dist_key_of nodos_zip_prefix file_name in
        logger INFO MsgRunningPublish ;;
        let nosman_args :=
          nosman_arguments path dist_key major minor patch build_number
            dry_run_release in
        logger INFO (MsgPublishArgs nosman_args) ;;
        result <- run nosman_args ;;
        if negb (Z.eqb result.1 0) then
          logger ERROR (MsgPublishReturned result.1) ;;
          exit result.1
        else
          publish_artifacts rest major minor patch build_number dry_run_release
  end.

(** Lines 116-175. *)
Definition create_nodos_release
    (gh_release_repo gh_release_notes gh_release_title_postfix
       gh_release_target_branch : string)
    (dry_run_release skip_nosman_publish : bool) : C unit :=
  artifacts <- get_release_artifacts ARTIFACTS_FOLDER ;;
  log_artifacts artifacts ;;
  version <- get_version_info_from_env ;;
  let '(major, minor, patch, build_number) := version in
  let tag := "v" +:+ version_string major minor patch build_number in
  let title := tag +:+ gh_release_title_postfix in
  ghargs <- gh_arguments tag artifacts gh_release_notes title
              gh_release_target_branch gh_release_repo ;;
  logger INFO (MsgPushing gh_release_repo) ;;
  result <- run_dry_runnable ghargs dry_run_release ;;
  if negb (Z.eqb result.1 0) then
    effect (Printed result.2) ;;
    logger ERROR (MsgGhReturned result.1) ;;
    exit result.1
  else
    logger INFO MsgGhSuccessful ;;
    if skip_nosman_publish then ret tt
    else
      artifacts_abspath <- host (fun h => map (abspath h) artifacts) ;;
      cwd <- host getcwd ;;
      effect (Chdir STAGING_FOLDER) ;;
      publish_artifacts artifacts_abspath major minor patch build_number
        dry_run_release ;;
      effect (Chdir cwd).

(** Lines 275-288. *)
Definition build_nosman (nosman_src_dir : string) (is_release : bool) : C string :=
  logger INFO MsgBuildingNosman ;;
  cwd <- host getcwd ;;
  effect (Chdir nosman_src_dir) ;;
  result <- run ["cargo"; "build"; if is_release then "--release" else "--debug"] ;;
  if negb (Z.eqb result.1 0) then
    logger ERROR MsgBuildFailed ;;
    exit result.1
  else
    ext <- host (fun h => if windows h then ".exe" else "") ;;
    let profile := if is_release then "release" else "debug" in
    result <- run ["upx"; "--best"; "target/" +:+ profile +:+ "/nosman" +:+ ext] ;;
    (if negb (Z.eqb result.1 0) then logger WARNING MsgUpxFailed else ret tt) ;;
    effect (Chdir cwd) ;;
    ret (nosman_src_dir +:+ "/target/" +:+ profile +:+ "/nosman" +:+ ext).

End Cli.

(** * Notions used to state the properties of the command-line side *)

(** The commands of a trace, in order. *)
Definition calls_of (t : list Cli.Effect) : list (list string) :=
  omap (fun e => match e with Cli.Called args => Some args | _ => None end) t.

(** The directory changes of a trace, in order. *)
Definition chdirs_of (t : list Cli.Effect) : list string :=
  omap (fun e => match e with Cli.Chdir d => Some d | _ => None end) t.

(** Whatever the outcome of [m], what it adds to the trace are effects
    that satisfy [P]. *)
Definition adds_only {A} (P : Cli.Effect -> Prop) (m : Cli.C A) : Prop :=
  forall h t, exists es,
    Cli.trace_of (m h t) = t ++ es /\ Forall P es.

(** The command line of [gh] that lines 124-135 build. *)
Definition gh_command (tag : string) (artifacts : list string)
    (release_notes title target_branch release_repo : string) : list string :=
  ["gh"; "release"; "create"; tag] ++ artifacts
  ++ ["--notes"; release_notes; "--title"; title]
  ++ (if String.eqb target_branch "" then [] else ["--target"; target_branch])
  ++ (if String.eqb release_repo "" then ["--generate-notes"]
      else ["--repo"; release_repo]).

(** The five variables [sign_files] reads, in the order it reads them. *)
Definition SIGNING_VARIABLES : list string :=
  ["ZD_CODE_SIGN_AZURE_KEY_VAULT_URL";
   "ZD_CODE_SIGN_AZURE_KEY_VAULT_CLIENT_ID";
   "ZD_CODE_SIGN_AZURE_KEY_VAULT_CLIENT_SECRET";
   "ZD_CODE_SIGN_AZURE_TENANT_ID";
   "ZD_CODE_SIGN_AZURE_KEY_VAULT_CERT_NAME"].

(** The command line of the signing tool for the values of the five
    variables and the files. *)
Definition signtool_command (values files : list string) : list string :=
  ["AzureSignTool"; "sign";
   "-kvu"; nth 0 values "";
   "-kvi"; nth 1 values "";
   "-kvs"; nth 2 values "";
   "-kvt"; nth 3 values "";
   "-kvc"; nth 4 values "";
   "-tr"; "http://timestamp.digicert.com";
   "-v"] ++ files.

(** The names of the archives [package] makes (lines 357-358 and 382,
    [shutil.make_archive] adding the extension). *)
Definition sdk_archive_name (major minor patch build_number : string) : string :=
  "Nodos-SDK-" +:+ Cli.version_string major minor patch build_number +:+ ".zip".

Definition engine_archive_name (major minor patch build_number dist_key : string)
    (is_bundled : bool) : string :=
  "Nodos-" +:+ Cli.version_string major minor patch build_number
  +:+ (if is_bundled then "-bundle-" +:+ dist_key else "") +:+ ".zip".

(** A command of [nosman publish] made for a dry run. *)
Definition dry_publish (args : list string) : Prop :=
  exists path dist_key major minor patch build_number,
    args = Cli.nosman_arguments path dist_key major minor patch build_number true.

(** The four variables of the version hold non-empty values. *)
Definition version_in_env (h : Cli.Host) (major minor patch build_number : string)
  : Prop :=
  Cli.environ h !! "VERSION_MAJOR" = Some major /\
  Cli.environ h !! "VERSION_MINOR" = Some minor /\
  Cli.environ h !! "VERSION_PATCH" = Some patch /\
  Cli.environ h !! "BUILD_NUMBER" = Some build_number /\
  major <> "" /\ minor <> "" /\ patch <> "" /\ build_number <> "".

(** The five variables of the signing tool hold [values], in order. *)
Definition signing_in_env (h : Cli.Host) (values : list string) : Prop :=
  (fun n => Cli.environ h !! n) <$> SIGNING_VARIABLES = Some <$> values.

(** The binaries under the roots of a walk that are to be signed: the
    files with one of the two suffixes whose name is not excluded, as
    posix paths, in the order of the walk. *)
Definition is_binary (root filename : string) : bool :=
  bool_decide (PyStr.suffix (Py.basename (root +:+ "/" +:+ filename))
               ∈ [".exe"; ".dll"]).

Definition binaries_of (h : Cli.Host) (roots : list (string * list string))
  : list string :=
  flat_map (fun '(root, files) =>
              map (fun filename => Cli.as_posix h (root +:+ "/" +:+ filename))
                (List.filter (fun filename =>
                           is_binary root filename && negb (excluded filename))
                   files))
    roots.

(** The commands of [nosman publish] for a list of paths: one for each
    path whose base name starts with the prefix of the engine
    archives. *)
Definition publish_commands (paths : list string)
    (major minor patch build_number : string) (dry_run_release : bool)
  : list (list string) :=
  let nodos_zip_prefix :=
    "Nodos-" +:+ Cli.version_string major minor patch build_number in
  map (fun path =>
         Cli.nosman_arguments path
           (Cli.dist_key_of nodos_zip_prefix (Py.basename path))
           major minor patch build_number dry_run_release)
    (List.filter (fun path => Py.startswith (Py.basename path) nodos_zip_prefix)
       paths).

Module CliSample.

Definition version_env : gmap string string :=
  <["VERSION_MAJOR" := "1"]> (<["VERSION_MINOR" := "3"]>
    (<["VERSION_PATCH" := "0"]> (<["BUILD_NUMBER" := "42"]> ∅))).

Definition signing_values : list string :=
  ["https://vault"; "client"; "secret"; "tenant"; "cert"].

Definition signing_env : gmap string string :=
  <["ZD_CODE_SIGN_AZURE_KEY_VAULT_URL" := "https://vault"]>
    (<["ZD_CODE_SIGN_AZURE_KEY_VAULT_CLIENT_ID" := "client"]>
      (<["ZD_CODE_SIGN_AZURE_KEY_VAULT_CLIENT_SECRET" := "secret"]>
        (<["ZD_CODE_SIGN_AZURE_TENANT_ID" := "tenant"]>
          (<["ZD_CODE_SIGN_AZURE_KEY_VAULT_CERT_NAME" := "cert"]> ∅)))).

(** Every command succeeds. *)
Definition all_succeed (args : list string) : Z * string := (0, "").

(** Every command fails with code 2. *)
Definition all_fail (args : list string) : Z * string := (2, "denied").

(** The commands of [tool] succeed, every other command fails with
    code 2. *)
Definition only (tool : string) (args : list string) : Z * string :=
  if bool_decide (head args = Some tool) then (0, "") else (2, "denied").

Definition artifacts : list string :=
  ["./Artifacts/Nodos-1.3.0.b42-bundle-all.zip";
   "./Artifacts/Nodos-1.3.0.b42.zip";
   "./Artifacts/Nodos-SDK-1.3.0.b42.zip"].

Definition binaries : list (string * list string) :=
  [("Binaries", ["nosLauncher.exe"; "protoc.exe"; "readme.txt"]);
   ("Binaries/x64", ["nosEngine.dll"; "UnitTests.dll"])].

Definition host (env : gmap string string)
    (completes : list string -> Z * string) : Cli.Host :=
  {| Cli.environ := env;
     Cli.completes := completes;
     Cli.walk := fun _ => binaries;
     Cli.glob := fun _ => artifacts;
     Cli.abspath := fun p => "/work/" +:+ p;
     Cli.getcwd := "/work";
     Cli.as_posix := fun p => p;
     Cli.windows := true |}.

End CliSample.

(** The effects of [es] are records of the log. *)
Definition records_only (es : list Cli.Effect) : Prop :=
  Forall (fun e => exists lvl msg, e = Cli.Logged lvl msg) es.

(** An effect of a dry run: any command it runs is a dry [nosman publish]. *)
Definition dry_run_effect (e : Cli.Effect) : Prop :=
  match e with
  | Cli.Called args => dry_publish args
  | _ => True
  end.

(** What [create_nodos_release] works on: the archives found in the
    artifacts folder (line 118), the command of [gh] for them (lines
    122-135) and the commands of [nosman publish] for their absolute
    paths (lines 150-169). *)
Definition found_artifacts (h : Cli.Host) : list string :=
  Cli.glob h (ARTIFACTS_FOLDER +:+ "/*.zip").

Definition release_command (h : Cli.Host)
    (release_repo release_notes title_postfix target_branch : string)
    (major minor patch build_number : string) : list string :=
  let tag := "v" +:+ Cli.version_string major minor patch build_number in
  gh_command tag (found_artifacts h) release_notes (tag +:+ title_postfix)
    target_branch release_repo.

Definition published (h : Cli.Host) (major minor patch build_number : string)
    (dry_run_release : bool) : list (list string) :=
  publish_commands (map (Cli.abspath h) (found_artifacts h))
    major minor patch build_number dry_run_release.

(** * Running computations *)

Section Run.
Context {A B : Type}.

Lemma bind_Ok (m : M A) (k : A -> M B) w a w' :
  m w = Ok a w' -> (x <- m ;; k x) w = k a w'.
Proof. unfold bind. by intros ->. Qed.

Lemma bind_Exit (m : M A) (k : A -> M B) w code w' :
  m w = Exit code w' -> (x <- m ;; k x) w = Exit code w'.
Proof. unfold bind. by intros ->. Qed.

Lemma bind_Raise (m : M A) (k : A -> M B) w e w' :
  m w = Raise e w' -> (x <- m ;; k x) w = Raise e w'.
Proof. unfold bind. by intros ->. Qed.

End Run.

Lemma logger_Ok lvl msg w :
  logger lvl msg w = Ok tt (add_log [(lvl, msg)] w).
Proof. reflexivity. Qed.

Lemma emit_Ok records w : emit records w = Ok tt (add_log records w).
Proof. reflexivity. Qed.

Lemma ret_Ok {A} (a : A) w : ret a w = Ok a w.
Proof. reflexivity. Qed.

Lemma extractall_Ok members target w :
  extractall members target w = Ok tt (set_fs (extract_into target members) w).
Proof. reflexivity. Qed.

Lemma rmtree_Ok p w :
  is_file (fs w) p = false ->
  rmtree p w = Ok tt (set_fs (filter (fun kv => under p kv.1 = false)) w).
Proof. unfold rmtree. by intros ->. Qed.

Lemma makedirs_Ok p w :
  existsb (is_file (fs w)) (removelast (dirs_to_make p)) = false ->
  is_file (fs w) p = false ->
  makedirs p w
  = Ok tt (set_fs (fun f => foldr (fun d f' => <[d := Dir]> f') f (dirs_to_make p)) w).
Proof. unfold makedirs. by intros -> ->. Qed.

Lemma read_file_Ok p c w :
  fs w !! p = Some (File c) -> read_file p w = Ok c w.
Proof. unfold read_file. by intros ->. Qed.

Lemma read_file_Dir p w :
  fs w !! p = Some Dir -> read_file p w = Raise IsADirectoryError w.
Proof. unfold read_file. by intros ->. Qed.

Lemma path_exists_Ok p w :
  path_exists p w = Ok (bool_decide (is_Some (fs w !! p))) w.
Proof. reflexivity. Qed.

Lemma requests_get_Ok url r w :
  remote w !! url = Some r -> requests_get url w = Ok r (add_request url w).
Proof. unfold requests_get. by intros ->. Qed.

(** One step of a computation whose first action is known to succeed. *)
Ltac run_with H := rewrite (bind_Ok _ _ _ _ _ H).
Ltac run_logger := rewrite (bind_Ok _ _ _ _ _ (logger_Ok _ _ _)).
Ltac run_emit := rewrite (bind_Ok _ _ _ _ _ (emit_Ok _ _)).
Ltac run_ret := rewrite (bind_Ok _ _ _ _ _ (ret_Ok _ _)).
Ltac run_exists := rewrite (bind_Ok _ _ _ _ _ (path_exists_Ok _ _)).

(** * Facts about the resolver *)

Section ResolverFacts.
Import Resolver.

Lemma find_first {A} (f : A -> bool) (l1 l2 : list A) (x : A) :
  Forall (fun y => f y = false) l1 -> f x = true ->
  List.find f (l1 ++ x :: l2) = Some x.
Proof.
  induction 1 as [|y l1 Hy _ IH]; intros Hx; simpl.
  - by rewrite Hx.
  - rewrite Hy. by apply IH.
Qed.

Lemma find_split {A} (f : A -> bool) (l : list A) :
  match List.find f l with
  | Some x => exists l1 l2,
      l = l1 ++ x :: l2 /\ Forall (fun y => f y = false) l1 /\ f x = true
  | None => Forall (fun y => f y = false) l
  end.
Proof.
  induction l as [|y l IH]; simpl; [constructor|].
  destruct (f y) eqn:Hy.
  - exists [], l. repeat split; [constructor | done].
  - destruct (List.find f l) as [x|].
    + destruct IH as (l1 & l2 & -> & H1 & Hx).
      exists (y :: l1), l2. repeat split; [by constructor | done].
    + by constructor.
Qed.

Lemma scan_accepts_compatible t c r :
  scan_accepts t c r = true <-> compatible t c r.
Proof.
  unfold scan_accepts, compatible.
  destruct (api_version_of t r) as [v|].
  - rewrite Z.eqb_eq. split.
    + intros H. right. by exists v.
    + by intros [H | (v' & [= <-] & H)].
  - split; [by left | done].
Qed.

Lemma scan_rejects_incompatible t c r :
  scan_accepts t c r = false <-> ~ compatible t c r.
Proof.
  rewrite <- scan_accepts_compatible. by destruct (scan_accepts t c r).
Qed.

Lemma find_version_first pv l1 l2 r :
  Forall (fun r' => r_version r' <> pv) l1 -> r_version r = pv ->
  find_version pv (l1 ++ r :: l2) = Some r.
Proof.
  intros H1 Hr. apply find_first.
  - eapply Forall_impl; [exact H1|]. intros r' Hne. by apply String.eqb_neq.
  - by apply String.eqb_eq.
Qed.

Lemma find_version_none pv l :
  Forall (fun r' => r_version r' <> pv) l -> find_version pv l = None.
Proof.
  induction 1 as [|r' l Hne _ IH]; [done|]. unfold find_version. simpl.
  apply String.eqb_neq in Hne. rewrite Hne. exact IH.
Qed.

(** What the scan of lines 239-242 returns. *)
Lemma scan_first_compatible t c releases :
  match List.find (scan_accepts t c) releases with
  | Some r => first_such (compatible t c) releases r
  | None => Forall (fun r => ~ compatible t c r) releases
  end.
Proof.
  pose proof (find_split (scan_accepts t c) releases) as H.
  destruct (List.find (scan_accepts t c) releases) as [r|].
  - destruct H as (l1 & l2 & -> & H1 & Hr). exists l1, l2.
    split; [done|]. split; [|by apply scan_accepts_compatible].
    eapply Forall_impl; [exact H1|]. intros ?. apply scan_rejects_incompatible.
  - eapply Forall_impl; [exact H|]. intros ?. apply scan_rejects_incompatible.
Qed.

End ResolverFacts.

(** * The resolver: production pin and latest-compatible scan *)

Section ResolverClaims.
Import Resolver.

(** C1, the code at the failing input: module [m1] is pinned to ["1.0"];
    the release ["1.0"] declares no plugin API version, so it is
    compatible in the sense of the claim, and the scan of line 240
    accepts it; the release ["2.0"] of the current major is listed
    before it.  The check of the pin on line 234 rejects the pinned
    release all the same, and the resolver returns ["2.0"] where the
    claim says ["1.0"]. *)
Lemma pinned_undeclared_release_not_returned :
  let releases := [Sample.rel20; Sample.rel10_undeclared] in
  m_production_version Sample.m1_pinned = Some "1.0" /\
  Sample.rel10_undeclared ∈ releases /\
  r_version Sample.rel10_undeclared = "1.0" /\
  compatible Plugin 2 Sample.rel10_undeclared /\
  scan_accepts Plugin 2 Sample.rel10_undeclared = true /\
  pin_rejected Plugin 2 Sample.rel10_undeclared = true /\
  resolve Sample.m1_pinned releases (Sample.cur 2) = Some Sample.rel20 /\
  resolve Sample.m1_pinned releases (Sample.cur 2) <> Some Sample.rel10_undeclared.
Proof.
  cbv zeta. split; [reflexivity|]. split.
  { apply list_elem_of_In. simpl. auto. }
  split; [reflexivity|]. split; [by left|].
  split; [reflexivity|]. split; [reflexivity|].
  split; [reflexivity | discriminate].
Qed.



(** C2: when [production_version] is absent, or no release carries
    that version string, or the first release carrying it declares an
    API version for the module's type with another major, the resolver
    returns the first release, in list order, that declares no API
    version for the module's type or one with the current major; it
    returns [None] when no release does. *)
Theorem resolve_falls_back_to_first_compatible (module : ModuleDescriptor)
    (releases : list Release) (cur_api_ver : ModuleType -> ApiVersion) :
  let t := m_type module in
  let c := major (cur_api_ver t) in
  (m_production_version module = None \/
   (exists pv, m_production_version module = Some pv /\
      Forall (fun r => r_version r <> pv) releases) \/
   (exists pv l1 r l2 v, m_production_version module = Some pv /\
      releases = l1 ++ r :: l2 /\
      Forall (fun r' => r_version r' <> pv) l1 /\ r_version r = pv /\
      api_version_of t r = Some v /\ major v <> c)) ->
  match resolve module releases cur_api_ver with
  | Some r => first_such (compatible t c) releases r
  | None => Forall (fun r => ~ compatible t c r) releases
  end.
Proof.
  intros t c H.
  assert (resolve module releases cur_api_ver
          = List.find (scan_accepts t c) releases) as ->;
    [|apply scan_first_compatible].
  unfold resolve, resolve_log, production_release. fold t c.
  destruct H as [-> | [(pv & -> & Hnone) | (pv & l1 & r & l2 & v & -> & -> & Hl1 & Hr & Hv & Hne)]].
  - done.
  - by rewrite (find_version_none pv releases Hnone).
  - rewrite (find_version_first pv l1 l2 r Hl1 Hr).
    unfold pin_rejected. rewrite Hv.
    apply Z.eqb_neq in Hne. by rewrite Hne.
Qed.

Lemma resolve_falls_back_witness :
  first_such (compatible Plugin 2) [Sample.rel20; Sample.rel10] Sample.rel20.
Proof.
  apply (resolve_falls_back_to_first_compatible Sample.m1_pinned
           [Sample.rel20; Sample.rel10] (Sample.cur 2)).
  right; right.
  exists "1.0", [Sample.rel20], Sample.rel10, [], (Sample.api 1).
  repeat split; [repeat constructor; discriminate | discriminate].
Defined.

(** C5, the code at the failing input: subsystem [s1] is pinned to
    ["0.9"], a release that declares no subsystem API version.  The
    scan of line 240 takes that release as compatible, the check of the
    pin on line 234 does not: the warning of line 235 is logged and the
    scan returns the release ["0.8"] listed before it.  When ["0.9"] is
    the only release, it is reported as not supporting the current API
    and then returned by the scan. *)
Lemma pinned_undeclared_release_rejected :
  let releases := [Sample.rel08; Sample.rel09] in
  api_version_of Subsystem Sample.rel09 = None /\
  find_version "0.9" releases = Some Sample.rel09 /\
  scan_accepts Subsystem 2 Sample.rel09 = true /\
  pin_rejected Subsystem 2 Sample.rel09 = true /\
  resolve_log Sample.s1_pinned releases (Sample.cur 2)
  = ([(DEBUG, MsgProductionSpecified "s1" "0.9");
      (WARNING, MsgProductionUnsupported "0.9" Subsystem "s1" 2);
      (DEBUG, MsgUsingLatest Subsystem 2)],
     Some Sample.rel08) /\
  resolve_log Sample.s1_pinned [Sample.rel09] (Sample.cur 2)
  = ([(DEBUG, MsgProductionSpecified "s1" "0.9");
      (WARNING, MsgProductionUnsupported "0.9" Subsystem "s1" 2);
      (DEBUG, MsgUsingLatest Subsystem 2)],
     Some Sample.rel09).
Proof. by repeat split. Qed.

(** What the resolver does with a pinned release (the first one carrying
    the pinned version string) that declares no API version for the
    module's type: the warning of line 235 is logged and the result is
    the one of the scan, in which the pinned release is itself
    eligible. *)
Lemma pinned_undeclared_release_falls_back (module : ModuleDescriptor)
    (l1 l2 : list Release) (r : Release) (pv : string)
    (cur_api_ver : ModuleType -> ApiVersion) :
  let t := m_type module in
  let c := major (cur_api_ver t) in
  let releases := l1 ++ r :: l2 in
  api_version_of t r = None ->
  m_production_version module = Some pv ->
  Forall (fun r' => r_version r' <> pv) l1 ->
  r_version r = pv ->
  resolve_log module releases cur_api_ver
  = ([(DEBUG, MsgProductionSpecified (m_name module) pv);
      (WARNING, MsgProductionUnsupported pv t (m_name module) c);
      (DEBUG, MsgUsingLatest t c)],
     List.find (scan_accepts t c) releases).
Proof.
  intros t c releases Hnone Hpv Hl1 Hr.
  unfold resolve_log, production_release. rewrite Hpv. fold t c.
  unfold releases. rewrite (find_version_first pv l1 l2 r Hl1 Hr).
  unfold pin_rejected. by rewrite Hnone.
Qed.




End ResolverClaims.

(** * The effective set of bundled modules *)

Section BundledSet.

Lemma elem_of_bundled_set m conf :
  m ∈ bundled_set conf <-> m ∈ own_modules conf.
Proof. unfold bundled_set, own_modules. apply elem_of_list_to_set. Qed.

Lemma add_included_elem include all acc m :
  m ∈ (add_included include all acc).2 <->
  m ∈ acc.2 \/
  exists other, other ∈ all /\ d_key other = include /\ m ∈ own_modules other.
Proof.
  unfold add_included. revert acc.
  induction all as [|o all IH]; intros acc; simpl.
  - split; [by left|]. intros [H | (o & Ho & _)]; [done|].
    by apply elem_of_nil in Ho.
  - rewrite IH. clear IH.
    destruct (String.eqb include (d_key o)) eqn:E; simpl.
    + apply String.eqb_eq in E. rewrite elem_of_union, elem_of_bundled_set.
      split.
      * intros [[H | H] | (o' & Hin & Hk & Hm)].
        -- by left.
        -- right. exists o. split; [by left | done].
        -- right. exists o'. split; [by right | done].
      * intros [H | (o' & Hin & Hk & Hm)]; [by left; left|].
        apply elem_of_cons in Hin as [-> | Hin]; [left; by right|].
        right. by exists o'.
    + apply String.eqb_neq in E. split.
      * intros [H | (o' & Hin & Hk & Hm)]; [by left|].
        right. exists o'. split; [by right | done].
      * intros [H | (o' & Hin & Hk & Hm)]; [by left|].
        apply elem_of_cons in Hin as [-> | Hin]; [by subst include|].
        right. by exists o'.
Qed.

Lemma add_included_same_but_includes include all all' acc :
  same_but_includes all all' ->
  add_included include all acc = add_included include all' acc.
Proof.
  unfold add_included. intros H. revert acc.
  induction H as [|a b all all' [Hk Hb] _ IH]; intros acc; simpl; [done|].
  unfold bundled_set. rewrite Hk, Hb. apply IH.
Qed.

(** C4: a name is in the effective set exactly when the distribution
    lists it itself or a distribution of the manifest whose key is in
    its [includes] lists it; the [includes] of the other distributions
    play no role, so nothing is expanded beyond one level. *)
Theorem effective_bundled_one_level (distconf : DistributionConfig)
    (all : list DistributionConfig) :
  (forall m, m ∈ effective_bundled distconf all <->
     m ∈ own_modules distconf \/
     exists other, other ∈ all /\ d_key other ∈ included_keys distconf /\
                   m ∈ own_modules other) /\
  (forall all', same_but_includes all all' ->
     effective_bundled_log distconf all = effective_bundled_log distconf all').
Proof.
  unfold effective_bundled, effective_bundled_log, included_keys. split.
  - intros m. rewrite <- (elem_of_bundled_set m distconf).
    change (bundled_set distconf)
      with ((@nil LogRecord, bundled_set distconf).2) at 2.
    generalize (@nil LogRecord, bundled_set distconf).
    induction (default [] (d_includes distconf)) as [|inc incs IH];
      intros acc; simpl.
    + split; [by left|]. intros [H | (o & _ & Ho & _)]; [done|].
      by apply elem_of_nil in Ho.
    + rewrite IH, add_included_elem. split.
      * intros [[H | (o & Hin & Hk & Hm)] | (o & Hin & Hk & Hm)].
        -- by left.
        -- right. exists o. rewrite Hk. repeat split; [done | by left | done].
        -- right. exists o. repeat split; [done | by right | done].
      * intros [H | (o & Hin & Hk & Hm)]; [by left; left|].
        apply elem_of_cons in Hk as [Hk | Hk].
        -- left. right. by exists o.
        -- right. by exists o.
  - intros all' H.
    generalize (@nil LogRecord, bundled_set distconf).
    induction (default [] (d_includes distconf)) as [|inc incs IH];
      intros acc; simpl; [done|].
    by rewrite (add_included_same_but_includes inc all all' acc H), IH.
Qed.

Lemma effective_bundled_one_level_witness :
  effective_bundled_log Sample.distA [Sample.distA; Sample.distB; Sample.distC]
  = effective_bundled_log Sample.distA
      [Sample.distA; Sample.distB_flat; Sample.distC].
Proof.
  apply (proj2 (effective_bundled_one_level Sample.distA
                  [Sample.distA; Sample.distB; Sample.distC])).
  repeat constructor.
Defined.

(** The module of [C], included by [B] only, is not bundled with [A]. *)
Example effective_bundled_not_transitive :
  effective_bundled Sample.distA [Sample.distA; Sample.distB; Sample.distC]
  = {["m1"; "m2"]}.
Proof. by vm_compute. Qed.

End BundledSet.

(** * The version parser *)

Section ParseVersion.

Lemma prefix_app_both a x y s :
  String.prefix (a +:+ x) s = true -> String.prefix (a +:+ y) s = true ->
  exists s', String.prefix x s' = true /\ String.prefix y s' = true.
Proof.
  revert s. induction a as [|c a IH]; intros s Hx Hy.
  - by exists s.
  - change (String c a +:+ x) with (String c (a +:+ x)) in Hx.
    change (String c a +:+ y) with (String c (a +:+ y)) in Hy.
    destruct s as [|b s]; [done|]. simpl in Hx, Hy.
    destruct (ascii_dec c b); [|done]. by apply (IH s).
Qed.

Lemma prefix_cons_inv a x b s :
  String.prefix (String a x) (String b s) = true ->
  a = b /\ String.prefix x s = true.
Proof. simpl. by destruct (ascii_dec a b). Qed.

(** A line starts with at most one of the three defines. *)
Lemma defines_exclusive p c1 c2 line :
  c1 ∈ ["MAJOR"; "MINOR"; "PATCH"] -> c2 ∈ ["MAJOR"; "MINOR"; "PATCH"] ->
  defines p c1 line = true -> defines p c2 line = true -> c1 = c2.
Proof.
  unfold defines, Py.startswith, define_of. intros Hc1 Hc2 H1 H2.
  destruct (prefix_app_both _ _ _ _ H1 H2) as (s1 & H1' & H2').
  destruct (prefix_app_both _ _ _ _ H1' H2') as (s2 & H1'' & H2'').
  destruct (prefix_app_both _ _ _ _ H1'' H2'') as (s3 & Ha & Hb).
  clear -Hc1 Hc2 Ha Hb.
  set_unfold; destruct Hc1 as [-> | [-> | [-> | []]]];
    destruct Hc2 as [-> | [-> | [-> | []]]]; try done;
    (destruct s3 as [|x1 s3]; [done|]);
    apply prefix_cons_inv in Ha as [? Ha]; apply prefix_cons_inv in Hb as [? Hb];
    try congruence;
    (destruct s3 as [|x2 s3]; [done|]);
    apply prefix_cons_inv in Ha as [? Ha]; apply prefix_cons_inv in Hb as [? Hb];
    congruence.
Qed.

Lemma last_define_elem p c lines l :
  last_define p c lines = Some l -> l ∈ lines /\ defines p c l = true.
Proof.
  induction lines as [|x lines IH]; simpl; [done|].
  destruct (last_define p c lines) as [l'|].
  - intros [= ->]. destruct (IH eq_refl). split; [by right | done].
  - destruct (defines p c x) eqn:E; [|done]. intros [= ->].
    split; [by left | done].
Qed.

Lemma scan_line_value p vars line vars' :
  scan_line p vars line = Some vars' ->
  v_major vars' = (if defines p "MAJOR" line then last_int line else v_major vars) /\
  v_minor vars' = (if defines p "MINOR" line then last_int line else v_minor vars) /\
  v_patch vars' = (if defines p "PATCH" line then last_int line else v_patch vars).
Proof.
  unfold scan_line. fold (defines p "MAJOR" line) (defines p "MINOR" line)
    (defines p "PATCH" line).
  destruct (defines p "MAJOR" line) eqn:EM.
  { destruct (defines p "MINOR" line) eqn:Em;
      [by pose proof (defines_exclusive p "MAJOR" "MINOR" line
                        ltac:(set_solver) ltac:(set_solver) EM Em)|].
    destruct (defines p "PATCH" line) eqn:Ep;
      [by pose proof (defines_exclusive p "MAJOR" "PATCH" line
                        ltac:(set_solver) ltac:(set_solver) EM Ep)|].
    destruct (last_int line); [|done]. by intros [= <-]. }
  destruct (defines p "MINOR" line) eqn:Em.
  { destruct (defines p "PATCH" line) eqn:Ep;
      [by pose proof (defines_exclusive p "MINOR" "PATCH" line
                        ltac:(set_solver) ltac:(set_solver) Em Ep)|].
    destruct (last_int line); [|done]. by intros [= <-]. }
  destruct (defines p "PATCH" line) eqn:Ep.
  { destruct (last_int line); [|done]. by intros [= <-]. }
  by intros [= <-].
Qed.

Lemma scan_lines_value p lines : forall vars vars',
  scan_lines p vars lines = Some vars' ->
  v_major vars' = value_after p "MAJOR" lines (v_major vars) /\
  v_minor vars' = value_after p "MINOR" lines (v_minor vars) /\
  v_patch vars' = value_after p "PATCH" lines (v_patch vars).
Proof.
  unfold value_after.
  induction lines as [|line lines IH]; intros vars vars'; simpl.
  - by intros [= <-].
  - destruct (scan_line p vars line) as [vars1|] eqn:E1; [|done].
    intros H. apply IH in H as (HM & Hm & Hp).
    apply scan_line_value in E1 as (EM & Em & Ep).
    rewrite HM, Hm, Hp, EM, Em, Ep. clear.
    split; [|split].
    + destruct (last_define p "MAJOR" lines); [done|].
      by destruct (defines p "MAJOR" line).
    + destruct (last_define p "MINOR" lines); [done|].
      by destruct (defines p "MINOR" line).
    + destruct (last_define p "PATCH" lines); [done|].
      by destruct (defines p "PATCH" line).
Qed.

Lemma scan_line_total p vars line :
  (defines_any p line = true -> is_Some (last_int line)) ->
  is_Some (scan_line p vars line).
Proof.
  unfold defines_any, scan_line.
  fold (defines p "MAJOR" line) (defines p "MINOR" line) (defines p "PATCH" line).
  intros H.
  destruct (defines p "MAJOR" line); [destruct H as [n ->]; by eauto|].
  destruct (defines p "MINOR" line); [destruct H as [n ->]; by eauto|].
  destruct (defines p "PATCH" line); [destruct H as [n ->]; by eauto|].
  by eauto.
Qed.

Lemma scan_lines_total p lines : forall vars,
  Forall (fun line => defines_any p line = true -> is_Some (last_int line)) lines ->
  is_Some (scan_lines p vars lines).
Proof.
  induction lines as [|line lines IH]; intros vars H; simpl; [by eauto|].
  apply Forall_cons in H as [H1 H2].
  destruct (scan_line_total p vars line H1) as [vars1 ->]. by apply IH.
Qed.

Lemma value_after_present p c lines :
  is_Some (last_define p c lines) ->
  Forall (fun line => defines_any p line = true -> is_Some (last_int line))
    lines ->
  c ∈ ["MAJOR"; "MINOR"; "PATCH"] ->
  is_Some (value_after p c lines None).
Proof.
  intros [l Hl] Hwf Hc. unfold value_after. rewrite Hl.
  apply last_define_elem in Hl as [Hin Hdef].
  rewrite Forall_forall in Hwf. apply (Hwf l Hin).
  unfold defines_any. set_unfold.
  destruct Hc as [-> | [-> | [-> | []]]]; rewrite Hdef;
    by rewrite ?orb_true_r.
Qed.

(** C9: on a text file, [parse_version] ends fatally ([exit(1)] after
    the error record, or the [ValueError] of a malformed defining line)
    as soon as one of MAJOR, MINOR, PATCH has no defining line; a
    result it returns carries, for each component, the integer of the
    last line defining it, none being defaulted; and it does return
    when the three are defined and every defining line ends in an
    integer. *)
Theorem parse_version_all_or_fatal (filepath p : string)
    (lines : list string) (w : World) :
  fs w !! filepath = Some (File (CText lines)) ->
  let present c := is_Some (last_define p c lines) in
  (~ (present "MAJOR" /\ present "MINOR" /\ present "PATCH") ->
     parse_version filepath p w
     = Exit 1 (add_log [(ERROR, MsgFailedToParse p)] w) \/
     parse_version filepath p w = Raise ValueError w) /\
  (forall v w', parse_version filepath p w = Ok v w' ->
     w' = w /\
     value_after p "MAJOR" lines None = Some (major v) /\
     value_after p "MINOR" lines None = Some (minor v) /\
     value_after p "PATCH" lines None = Some (patch v)) /\
  (present "MAJOR" /\ present "MINOR" /\ present "PATCH" ->
   Forall (fun line => defines_any p line = true -> is_Some (last_int line))
     lines ->
   exists v, parse_version filepath p w = Ok v w).
Proof.
  intros Hfile present.
  assert (forall c n, Some n = value_after p c lines None -> present c) as Hpres.
  { intros c n. unfold value_after, present.
    destruct (last_define p c lines); [by eauto | done]. }
  unfold parse_version, readlines, read_file, bind, logger, exit, ret.
  rewrite Hfile.
  destruct (scan_lines p (mkVars None None None) lines) as [vars|] eqn:E.
  2:{ split; [by right|]. split; [done|]. intros _ Hwf.
      destruct (scan_lines_total p lines (mkVars None None None) Hwf) as [? E'].
      congruence. }
  pose proof (scan_lines_value p lines _ _ E) as (HM & Hm & Hp).
  destruct vars as [vM vm vp]. simpl in HM, Hm, Hp.
  split; [|split].
  - intros Habs. destruct vM as [a|], vm as [b|], vp as [c|]; try (by left).
    exfalso. apply Habs. repeat split; eapply Hpres; eassumption.
  - intros v w' Hok. destruct vM as [a|], vm as [b|], vp as [c|]; try done.
    injection Hok as <- <-. by rewrite <- HM, <- Hm, <- Hp.
  - intros (HpM & Hpm & Hpp) Hwf.
    destruct (value_after_present p "MAJOR" lines HpM Hwf) as [a Ha];
      [set_solver|].
    destruct (value_after_present p "MINOR" lines Hpm Hwf) as [b Hb];
      [set_solver|].
    destruct (value_after_present p "PATCH" lines Hpp Hwf) as [c Hc];
      [set_solver|].
    rewrite Ha in HM. rewrite Hb in Hm. rewrite Hc in Hp. subst vM vm vp.
    by eauto.
Qed.

Lemma parse_version_all_or_fatal_witness :
  parse_version Sample.header_path "NOS_PLUGIN_API"
    (Sample.world_with_header Sample.plugin_header_no_patch)
  = Exit 1 (add_log [(ERROR, MsgFailedToParse "NOS_PLUGIN_API")]
              (Sample.world_with_header Sample.plugin_header_no_patch)) \/
  parse_version Sample.header_path "NOS_PLUGIN_API"
    (Sample.world_with_header Sample.plugin_header_no_patch)
  = Raise ValueError (Sample.world_with_header Sample.plugin_header_no_patch).
Proof.
  apply (proj1 (parse_version_all_or_fatal Sample.header_path "NOS_PLUGIN_API"
                  Sample.plugin_header_no_patch
                  (Sample.world_with_header Sample.plugin_header_no_patch)
                  eq_refl)).
  intros (_ & _ & [l Hl]). vm_compute in Hl. discriminate Hl.
Defined.

Example parse_version_sample :
  parse_version Sample.header_path "NOS_PLUGIN_API"
    (Sample.world_with_header Sample.plugin_header)
  = Ok (mkApiVersion 2 1 0) (Sample.world_with_header Sample.plugin_header).
Proof. reflexivity. Qed.

End ParseVersion.

(** * The head of [package] *)

Section PackageClaims.

Variable stage_engine : string -> bool -> M string.
Variable archive_staging :
  string -> DistributionConfig -> string -> bool -> M unit.

Lemma find_dist_none dist_key dists :
  Forall (fun d => d_key d <> dist_key) dists -> find_dist dist_key dists = None.
Proof.
  induction 1 as [|d dists Hne _ IH]; [done|]. unfold find_dist. simpl.
  apply String.eqb_neq in Hne. rewrite Hne. exact IH.
Qed.

Lemma dirs_to_make_staging :
  dirs_to_make STAGING_FOLDER = [ARTIFACTS_FOLDER; STAGING_FOLDER].
Proof. reflexivity. Qed.

(** What the file system is once [package] has removed the artifacts
    folder and made the staging folder. *)
Lemma lookup_after_cleanup (f : gmap string Node) (p : string) :
  foldr (fun d f' => <[d := Dir]> f')
    (filter (fun kv => under ARTIFACTS_FOLDER kv.1 = false) f)
    [ARTIFACTS_FOLDER; STAGING_FOLDER] !! p
  = if bool_decide (p = ARTIFACTS_FOLDER \/ p = STAGING_FOLDER) then Some Dir
    else if under ARTIFACTS_FOLDER p then None else f !! p.
Proof.
  simpl. case_bool_decide as Hp.
  - destruct Hp as [-> | ->]; [by rewrite lookup_insert_eq|].
    rewrite lookup_insert_ne by done. by rewrite lookup_insert_eq.
  - rewrite !lookup_insert_ne by (intros <-; apply Hp; by eauto).
    destruct (under ARTIFACTS_FOLDER p) eqn:E.
    + apply map_lookup_filter_None. right. intros x _. simpl. by rewrite E.
    + destruct (f !! p) as [x|] eqn:Ef.
      * by apply map_lookup_filter_Some.
      * apply map_lookup_filter_None. by left.
Qed.

(** C3, as stated, fails: in a working directory that holds the
    manifest and an archive of an earlier run, [package] called with a
    key the manifest does not have exits with status 1, but by then
    the old archive is gone and the staging folder exists. *)
Lemma unknown_key_after_cleanup :
  let w := Sample.world_with_leftover in
  let o := package Sample.no_stage_engine Sample.no_archive_staging
             "missing" "Engine" false w in
  find_dist "missing" [] = None /\
  (exists w', o = Exit 1 w') /\
  fs w !! "./Artifacts/Nodos-1.2.0.b1.zip" = Some (File (CZip [])) /\
  fs (world_of o) !! "./Artifacts/Nodos-1.2.0.b1.zip" = None /\
  fs w !! STAGING_FOLDER = None /\
  fs (world_of o) !! STAGING_FOLDER = Some Dir /\
  fs (world_of o) <> fs w.
Proof.
  cbv zeta.
  assert (fs (world_of (package Sample.no_stage_engine Sample.no_archive_staging
                          "missing" "Engine" false Sample.world_with_leftover))
            !! STAGING_FOLDER = Some Dir) as Hstaging
    by (vm_compute; reflexivity).
  assert (fs Sample.world_with_leftover !! STAGING_FOLDER = None) as Hbefore
    by (vm_compute; reflexivity).
  split; [reflexivity|]. split; [eexists; vm_compute; reflexivity|].
  split; [vm_compute; reflexivity|]. split; [vm_compute; reflexivity|].
  split; [exact Hbefore|]. split; [exact Hstaging|].
  intros Heq. rewrite Heq, Hbefore in Hstaging. discriminate Hstaging.
Qed.

(** C3, amended: when no distribution of the manifest has the requested
    key, [package] exits with status 1 right after the error record:
    nothing placed after the key check runs (no staging, no download,
    no request, no archive).  The two file-system effects placed before
    the manifest is read have happened: everything under the artifacts
    folder is removed and the artifacts and staging folders exist;
    every other path is untouched. *)
Theorem package_unknown_key_exits_after_cleanup
    (dist_key engine_folder : string) (should_sign_binaries : bool)
    (dists : list DistributionConfig) (w : World) :
  fs w !! "./bundle.json" = Some (File (CManifest dists)) ->
  is_file (fs w) ARTIFACTS_FOLDER = false ->
  Forall (fun d => d_key d <> dist_key) dists ->
  exists w',
    package stage_engine archive_staging dist_key engine_folder
      should_sign_binaries w = Exit 1 w' /\
    log w' = log w ++ [(INFO, MsgPackaging); (ERROR, MsgDistKeyNotFound dist_key)] /\
    requests w' = requests w /\
    forall p, fs w' !! p =
      if bool_decide (p = ARTIFACTS_FOLDER \/ p = STAGING_FOLDER) then Some Dir
      else if under ARTIFACTS_FOLDER p then None else fs w !! p.
Proof.
  intros Hmanifest Hart Hkeys.
  set (w1 := add_log [(INFO, MsgPackaging)] w).
  set (w2 := set_fs (filter (fun kv => under ARTIFACTS_FOLDER kv.1 = false)) w1).
  set (w3 := set_fs (fun f => foldr (fun d f' => <[d := Dir]> f') f
                                (dirs_to_make STAGING_FOLDER)) w2).
  assert (forall p, fs w3 !! p =
            if bool_decide (p = ARTIFACTS_FOLDER \/ p = STAGING_FOLDER)
            then Some Dir
            else if under ARTIFACTS_FOLDER p then None else fs w !! p) as Hfs.
  { intros p. apply (lookup_after_cleanup (fs w) p). }
  exists (add_log [(ERROR, MsgDistKeyNotFound dist_key)] w3).
  split; [|split; [|split]].
  - unfold package.
    rewrite (bind_Ok _ _ w tt w1) by reflexivity.
    rewrite (bind_Ok _ _ w1 tt w2) by (by apply rmtree_Ok).
    rewrite (bind_Ok _ _ w2 tt w3).
    2:{ apply makedirs_Ok; rewrite ?dirs_to_make_staging;
          unfold removelast, existsb, is_file, w2, set_fs, fs;
          (rewrite map_lookup_filter_None_2; [done|]);
          right; intros x _; by vm_compute. }
    rewrite (bind_Ok _ _ w3 dists w3).
    2:{ unfold load_manifest. rewrite (bind_Ok _ _ w3 (CManifest dists) w3); [done|].
        apply read_file_Ok. by rewrite Hfs. }
    rewrite (find_dist_none dist_key dists Hkeys).
    by rewrite (bind_Ok _ _ w3 tt (add_log [(ERROR, MsgDistKeyNotFound dist_key)] w3)).
  - simpl. by rewrite <- app_assoc.
  - done.
  - exact Hfs.
Qed.

End PackageClaims.

Lemma package_unknown_key_witness :
  exists w',
    package Sample.no_stage_engine Sample.no_archive_staging
      "missing" "Engine" false Sample.world_with_leftover = Exit 1 w' /\
    log w' = [(INFO, MsgPackaging); (ERROR, MsgDistKeyNotFound "missing")] /\
    requests w' = [] /\
    forall p, fs w' !! p =
      if bool_decide (p = ARTIFACTS_FOLDER \/ p = STAGING_FOLDER) then Some Dir
      else if under ARTIFACTS_FOLDER p then None
      else fs Sample.world_with_leftover !! p.
Proof.
  apply (package_unknown_key_exits_after_cleanup Sample.no_stage_engine
           Sample.no_archive_staging "missing" "Engine" false []
           Sample.world_with_leftover).
  - reflexivity.
  - reflexivity.
  - constructor.
Defined.

(** * Acquisition *)

Section Acquire.

(** C6: when [local_modules_folder] is set and the folder holds an
    entry named as the base name of the release's archive URL, no
    request is issued by the acquisition; when that entry is an
    archive, it is extracted into [target_dir/name/version].  When
    there is no cache entry, the archive served at the URL is
    extracted into the same place. *)
Theorem acquire_prefers_local_cache (distconf : DistributionConfig)
    (module_type : ModuleType) (name : string) (release : Release)
    (target_dir : string) (w : World) :
  let zip_url := r_url release in
  let version := r_version release in
  let target := target_dir +:+ "/" +:+ name +:+ "/" +:+ version in
  let cached folder := folder +:+ "/" +:+ Py.basename zip_url in
  (forall folder,
     d_local_modules_folder distconf = Some folder ->
     is_Some (fs w !! cached folder) ->
     requests (world_of (acquire distconf module_type name release target_dir w))
     = requests w) /\
  (forall folder members,
     d_local_modules_folder distconf = Some folder ->
     fs w !! cached folder = Some (File (CZip members)) ->
     acquire distconf module_type name release target_dir w
     = Ok tt (set_fs (extract_into target members)
                (add_log [(INFO, MsgFoundLocal name version folder)] w))) /\
  (forall members,
     (d_local_modules_folder distconf = None \/
      exists folder, d_local_modules_folder distconf = Some folder /\
                     fs w !! cached folder = None) ->
     remote w !! zip_url = Some (RArchive members) ->
     acquire distconf module_type name release target_dir w
     = Ok tt (set_fs (extract_into target members)
                (add_request zip_url
                   (add_log [(INFO, MsgDownloading module_type name version zip_url)]
                      w)))).
Proof.
  intros zip_url version target cached.
  assert (forall members,
            remote w !! zip_url = Some (RArchive members) ->
            download_and_extract module_type name version zip_url target_dir w
            = Ok tt (set_fs (extract_into target members)
                       (add_request zip_url
                          (add_log [(INFO, MsgDownloading module_type name
                                             version zip_url)] w)))) as Hdl.
  { intros members Hr. unfold download_and_extract.
    run_logger. set (w1 := add_log _ w).
    run_with (requests_get_Ok zip_url (RArchive members) w1 Hr).
    run_ret. apply extractall_Ok. }
  split; [|split].
  - intros folder Hfolder Hsome. unfold cached in Hsome.
    unfold acquire. rewrite Hfolder. fold zip_url version.
    run_exists. rewrite bool_decide_eq_true_2 by done.
    run_logger. set (w1 := add_log _ w).
    destruct Hsome as [[|c] Hc].
    + by rewrite (bind_Raise _ _ w1 IsADirectoryError w1
                    (read_file_Dir _ w1 Hc)).
    + run_with (read_file_Ok _ c w1 Hc).
      destruct c as [lines|doc indent|dists|members].
      * by rewrite (bind_Raise _ _ w1 BadZipFile w1).
      * by rewrite (bind_Raise _ _ w1 BadZipFile w1).
      * by rewrite (bind_Raise _ _ w1 BadZipFile w1).
      * by rewrite (bind_Ok _ _ w1 members w1).
  - intros folder members Hfolder Hzip. unfold cached in Hzip.
    unfold acquire. rewrite Hfolder. fold zip_url version.
    run_exists. rewrite bool_decide_eq_true_2 by (by rewrite Hzip).
    run_logger. set (w1 := add_log _ w).
    run_with (read_file_Ok _ (CZip members) w1 Hzip).
    by rewrite (bind_Ok _ _ w1 members w1).
  - intros members [Hnone | (folder & Hfolder & Hmiss)] Hr;
      unfold acquire.
    + rewrite Hnone. by apply Hdl.
    + unfold cached in Hmiss. rewrite Hfolder. fold zip_url version.
      run_exists.
      rewrite bool_decide_eq_false_2 by (rewrite Hmiss; by intros [? ?]).
      by apply Hdl.
Qed.

Lemma acquire_prefers_local_cache_witness :
  acquire Sample.dist_cached Plugin "m1" Sample.rel20 "./Module"
    Sample.world_with_cache
  = Ok tt (set_fs (extract_into "./Module/m1/2.0" Sample.m1_archive)
             (add_log [(INFO, MsgFoundLocal "m1" "2.0" "./LocalModules")]
                Sample.world_with_cache)).
Proof.
  apply (proj1 (proj2 (acquire_prefers_local_cache Sample.dist_cached Plugin
                         "m1" Sample.rel20 "./Module" Sample.world_with_cache))
           "./LocalModules" Sample.m1_archive).
  - reflexivity.
  - reflexivity.
Defined.

(** Without the cache entry the same release is downloaded. *)
Example acquire_downloads_without_cache :
  requests (world_of (acquire Sample.dist_cached Plugin "m1" Sample.rel20
                        "./Module" Sample.world_without_cache))
  = ["https://modules.example/m1-2.0.zip"] /\
  requests (world_of (acquire Sample.dist_cached Plugin "m1" Sample.rel20
                        "./Module" Sample.world_with_cache))
  = [].
Proof. split; vm_compute; reflexivity. Qed.

End Acquire.

(** * The profile writer *)

Section Profile.

Lemma dict_get_set_eq k v items : dict_get k (dict_set k v items) = Some v.
Proof.
  induction items as [|[k' v'] items IH]; simpl.
  - by rewrite String.eqb_refl.
  - destruct (String.eqb k' k) eqn:E; simpl.
    + by rewrite String.eqb_refl.
    + by rewrite E.
Qed.

Lemma dict_get_set_ne k k' v items :
  k <> k' -> dict_get k' (dict_set k v items) = dict_get k' items.
Proof.
  intros Hne. induction items as [|[k0 v0] items IH]; simpl.
  - apply String.eqb_neq in Hne. by rewrite Hne.
  - destruct (String.eqb k0 k) eqn:E; simpl.
    + apply String.eqb_eq in E. subst k0.
      apply String.eqb_neq in Hne. by rewrite Hne.
    + by rewrite IH.
Qed.

Lemma dict_set_set k v v' items :
  dict_set k v' (dict_set k v items) = dict_set k v' items.
Proof.
  induction items as [|[k0 v0] items IH]; simpl.
  - by rewrite String.eqb_refl.
  - destruct (String.eqb k0 k) eqn:E; simpl.
    + by rewrite String.eqb_refl.
    + by rewrite E, IH.
Qed.

Lemma extend_loaded_modules_absent items included_modules :
  dict_get "loaded_modules" items = None ->
  extend_loaded_modules (JDict items) included_modules
  = inr (JDict (dict_set "loaded_modules"
                  (JList (map entry_json included_modules)) items)).
Proof.
  intros H. unfold extend_loaded_modules. rewrite H. cbv beta iota zeta.
  by rewrite dict_get_set_eq, dict_set_set.
Qed.

Lemma extend_loaded_modules_present items old included_modules :
  dict_get "loaded_modules" items = Some (JList old) ->
  extend_loaded_modules (JDict items) included_modules
  = inr (JDict (dict_set "loaded_modules"
                  (JList (old ++ map entry_json included_modules)) items)).
Proof.
  intros H. unfold extend_loaded_modules. rewrite H. cbv beta iota zeta.
  by rewrite H.
Qed.

(** One call of the profile writer. *)
Lemma appendToProfile_Ok path included_modules w items old :
  profile_holds w path items old ->
  appendToProfile path included_modules w
  = Ok tt (set_fs (<[path := File (CJson
                       (JDict (dict_set "loaded_modules"
                                 (JList (old ++ map entry_json included_modules))
                                 items))
                       (Some 2%nat))]>) w).
Proof.
  intros [(Hnone & -> & ->) | (indent & Hfile & Hloaded)]; unfold appendToProfile.
  - run_exists. rewrite Hnone.
    rewrite bool_decide_eq_false_2 by (by intros [? ?]).
    run_ret. rewrite extend_loaded_modules_absent by done.
    unfold json_dump, write_file. by rewrite Hnone.
  - run_exists. rewrite Hfile.
    rewrite bool_decide_eq_true_2 by (by eexists).
    rewrite (bind_Ok _ _ w (JDict items) w).
    2:{ unfold json_load. by run_with (read_file_Ok _ _ w Hfile). }
    destruct Hloaded as [[Habsent ->] | Hpresent].
    + rewrite extend_loaded_modules_absent by done.
      unfold json_dump, write_file. by rewrite Hfile.
    + rewrite (extend_loaded_modules_present _ old) by done.
      unfold json_dump, write_file. by rewrite Hfile.
Qed.

(** C7: two calls with the same list leave [loaded_modules] with the
    former entries followed by two copies of the list, in order: nothing
    is deduplicated or replaced.  A missing file counts as the empty
    object, the other members of the profile and the other files are
    kept, the file is written with [indent=2], and for a non-empty list
    the second call changes the file again. *)
Theorem appendToProfile_twice_duplicates (path : string)
    (included_modules : list ResolvedModule) (w : World)
    (items : list (string * Json)) (old : list Json) :
  profile_holds w path items old ->
  let new := map entry_json included_modules in
  exists w1 w2 items1 items2,
    appendToProfile path included_modules w = Ok tt w1 /\
    appendToProfile path included_modules w1 = Ok tt w2 /\
    fs w1 !! path = Some (File (CJson (JDict items1) (Some 2%nat))) /\
    fs w2 !! path = Some (File (CJson (JDict items2) (Some 2%nat))) /\
    dict_get "loaded_modules" items1 = Some (JList (old ++ new)) /\
    dict_get "loaded_modules" items2 = Some (JList (old ++ new ++ new)) /\
    (forall k, k <> "loaded_modules" ->
       dict_get k items1 = dict_get k items /\
       dict_get k items2 = dict_get k items) /\
    (forall p, p <> path -> fs w1 !! p = fs w !! p /\ fs w2 !! p = fs w !! p) /\
    (included_modules <> [] -> fs w2 <> fs w1).
Proof.
  intros Hw new.
  set (items1 := dict_set "loaded_modules" (JList (old ++ new)) items).
  set (items2 := dict_set "loaded_modules" (JList (old ++ new ++ new)) items).
  set (w1 := set_fs (<[path := File (CJson (JDict items1) (Some 2%nat))]>) w).
  set (w2 := set_fs (<[path := File (CJson (JDict items2) (Some 2%nat))]>) w1).
  assert (profile_holds w1 path items1 (old ++ new)) as Hw1.
  { right. exists (Some 2%nat). split.
    - apply lookup_insert_eq.
    - right. apply dict_get_set_eq. }
  exists w1, w2, items1, items2.
  split; [by apply appendToProfile_Ok|].
  split.
  { rewrite (appendToProfile_Ok path included_modules w1 items1 (old ++ new) Hw1).
    unfold w2, items2, items1. fold new.
    by rewrite dict_set_set, <- app_assoc. }
  split; [apply lookup_insert_eq|].
  split; [apply lookup_insert_eq|].
  split; [apply dict_get_set_eq|].
  split; [apply dict_get_set_eq|].
  split.
  { intros k Hk. split; by apply dict_get_set_ne. }
  split.
  { intros p Hp. unfold w2, w1, set_fs, fs.
    by rewrite !lookup_insert_ne by done. }
  intros Hne Heq.
  assert (fs w2 !! path = fs w1 !! path) as Hlook by by rewrite Heq.
  unfold w2, w1, set_fs, fs in Hlook.
  rewrite !lookup_insert_eq in Hlook.
  assert (dict_get "loaded_modules" items2 = dict_get "loaded_modules" items1)
    as Hget by congruence.
  unfold items1, items2 in Hget. rewrite !dict_get_set_eq in Hget.
  injection Hget as Hget. apply app_inv_head in Hget.
  apply (f_equal length) in Hget. rewrite length_app in Hget.
  unfold new in Hget. rewrite length_map in Hget.
  destruct included_modules; [done | simpl in Hget; lia].
Qed.

Lemma appendToProfile_twice_witness :
  exists w1 w2 items1 items2,
    appendToProfile Sample.profile_path Sample.resolved_m1
      Sample.world_with_profile = Ok tt w1 /\
    appendToProfile Sample.profile_path Sample.resolved_m1 w1 = Ok tt w2 /\
    fs w1 !! Sample.profile_path
    = Some (File (CJson (JDict items1) (Some 2%nat))) /\
    fs w2 !! Sample.profile_path
    = Some (File (CJson (JDict items2) (Some 2%nat))) /\
    dict_get "loaded_modules" items1
    = Some (JList [entry_json (mkResolved "m0" "0.1");
                   entry_json (mkResolved "m1" "2.0")]) /\
    dict_get "loaded_modules" items2
    = Some (JList [entry_json (mkResolved "m0" "0.1");
                   entry_json (mkResolved "m1" "2.0");
                   entry_json (mkResolved "m1" "2.0")]) /\
    (forall k, k <> "loaded_modules" ->
       dict_get k items1
       = dict_get k [("theme", JStr "dark");
                     ("loaded_modules", JList [entry_json (mkResolved "m0" "0.1")])] /\
       dict_get k items2
       = dict_get k [("theme", JStr "dark");
                     ("loaded_modules", JList [entry_json (mkResolved "m0" "0.1")])]) /\
    (forall p, p <> Sample.profile_path ->
       fs w1 !! p = fs Sample.world_with_profile !! p /\
       fs w2 !! p = fs Sample.world_with_profile !! p) /\
    (Sample.resolved_m1 <> [] -> fs w2 <> fs w1).
Proof.
  apply (appendToProfile_twice_duplicates Sample.profile_path
           Sample.resolved_m1 Sample.world_with_profile
           [("theme", JStr "dark");
            ("loaded_modules", JList [entry_json (mkResolved "m0" "0.1")])]
           [entry_json (mkResolved "m0" "0.1")]).
  right. exists None. split; [reflexivity|]. right. reflexivity.
Defined.

(** On a missing file the profile written is the object with the single
    member [loaded_modules]. *)
Example appendToProfile_missing_file :
  fs (world_of (appendToProfile Sample.profile_path Sample.resolved_m1
                  (mkWorld ∅ ∅ [] []))) !! Sample.profile_path
  = Some (File (CJson
                  (JDict [("loaded_modules",
                           JList [entry_json (mkResolved "m1" "2.0")])])
                  (Some 2%nat))).
Proof. vm_compute. reflexivity. Qed.

(** The text of a profile written with [indent=2]: one member or element
    per line, two spaces per nesting level. *)
Example profile_text_indent_2 :
  JsonText.dumps 2
    (JDict [("loaded_modules", JList [entry_json (mkResolved "m1" "2.0")])])
  = String.concat JsonText.newline
      ["{";
       "  " +:+ JsonText.quoted "loaded_modules" +:+ ": [";
       "    {";
       "      " +:+ JsonText.quoted "name" +:+ ": " +:+ JsonText.quoted "m1" +:+ ",";
       "      " +:+ JsonText.quoted "version" +:+ ": " +:+ JsonText.quoted "2.0";
       "    }";
       "  ]";
       "}"].
Proof. reflexivity. Qed.

End Profile.

(** * The loop over the index *)

Section Loop.

Variable distconf : DistributionConfig.
Variable cur_api_ver : ModuleType -> ApiVersion.
Variable target_dir : string.

Lemma fetch_releases_Ok url releases w :
  remote w !! url = Some (RModuleIndex releases) ->
  fetch_releases url w = Ok releases (add_request url w).
Proof.
  intros H. unfold fetch_releases.
  by run_with (requests_get_Ok url _ w H).
Qed.

(** A module that is not bundled is passed over. *)
Lemma process_module_not_bundled bundled included module w :
  m_name module ∉ bundled ->
  process_module distconf cur_api_ver target_dir bundled included module w
  = Ok included
      (add_log [(DEBUG, MsgSkippingModule (m_name module) (d_key distconf))] w).
Proof.
  intros H. unfold process_module.
  rewrite bool_decide_eq_true_2 by done. by run_logger.
Qed.

(** A bundled module for which the resolver finds no release. *)
Lemma process_module_unresolved bundled included module releases w :
  m_name module ∈ bundled ->
  remote w !! m_url module = Some (RModuleIndex releases) ->
  Resolver.resolve module releases cur_api_ver = None ->
  process_module distconf cur_api_ver target_dir bundled included module w
  = Ok included
      (add_log [(WARNING, MsgNoSupport (m_type module) (m_name module)
                            (major (cur_api_ver (m_type module))))]
         (add_log (Resolver.resolve_log module releases cur_api_ver).1
            (add_request (m_url module) w))).
Proof.
  intros Hin Hremote Hnone. unfold process_module.
  rewrite bool_decide_eq_false_2 by (intros Hnot; by apply Hnot).
  run_with (fetch_releases_Ok _ _ w Hremote).
  unfold Resolver.resolve in Hnone.
  destruct (Resolver.resolve_log module releases cur_api_ver)
    as [records suitable] eqn:E.
  simpl in Hnone. subst suitable. run_emit. by run_logger.
Qed.

Lemma process_index_app bundled included l1 l2 w :
  process_index distconf cur_api_ver target_dir bundled included (l1 ++ l2) w
  = (included' <-
       process_index distconf cur_api_ver target_dir bundled included l1 ;;
     process_index distconf cur_api_ver target_dir bundled included' l2) w.
Proof.
  revert included w. induction l1 as [|m l1 IH]; intros included w; [done|].
  simpl. unfold bind in *.
  destruct (process_module _ _ _ _ _ _ _) as [inc' w'| |]; [|done..].
  apply IH.
Qed.

(** What one iteration adds to [included_modules]: nothing, or one
    entry that bears the name of the module. *)
Lemma process_module_included bundled included module w included' w' :
  process_module distconf cur_api_ver target_dir bundled included module w
  = Ok included' w' ->
  included' = included \/
  exists r, included' = included ++ [mkResolved (m_name module) (r_version r)].
Proof.
  unfold process_module. case_bool_decide as Hin.
  { run_logger. intros [= <- _]. by left. }
  unfold bind at 1.
  destruct (fetch_releases _ _) as [releases w1| |]; [|done..].
  destruct (Resolver.resolve_log module releases cur_api_ver)
    as [records [r|]].
  - run_emit. unfold bind.
    destruct (acquire _ _ _ _ _ _) as [[] w2| |]; [|done..].
    intros [= <- _]. right. by exists r.
  - run_emit. run_logger. intros [= <- _]. by left.
Qed.

(** ** What the loop logs *)

Lemma logs_only_silent {A} P (m : M A) :
  (forall w, log (world_of (m w)) = log w) -> logs_only P m.
Proof. intros H w. exists []. by rewrite H, app_nil_r. Qed.

Lemma logs_only_bind {A B} P (m : M A) (k : A -> M B) :
  logs_only P m -> (forall a, logs_only P (k a)) ->
  logs_only P (x <- m ;; k x).
Proof.
  intros Hm Hk w. destruct (Hm w) as (r1 & E1 & H1). unfold bind.
  destruct (m w) as [a w1| |]; simpl in E1; [|by exists r1..].
  destruct (Hk a w1) as (r2 & E2 & H2).
  exists (r1 ++ r2). split; [|by apply Forall_app].
  by rewrite E2, E1, app_assoc.
Qed.

Lemma logs_only_emit P records :
  Forall P records -> logs_only P (emit records).
Proof. intros H w. by exists records. Qed.

Lemma logs_only_logger P lvl msg :
  P (lvl, msg) -> logs_only P (logger lvl msg).
Proof. intros H w. exists [(lvl, msg)]. split; [done | by constructor]. Qed.

Lemma logs_only_ret {A} P (a : A) : logs_only P (ret a).
Proof. by apply logs_only_silent. Qed.

Lemma logs_only_requests_get P url : logs_only P (requests_get url).
Proof.
  apply logs_only_silent. intros w. unfold requests_get.
  by destruct (remote w !! url).
Qed.

Lemma logs_only_read_file P p : logs_only P (read_file p).
Proof.
  apply logs_only_silent. intros w. unfold read_file.
  by destruct (fs w !! p) as [[|c]|].
Qed.

Lemma logs_only_acquire module_type name release :
  logs_only (about_only name)
    (acquire distconf module_type name release target_dir).
Proof.
  assert (forall zip_url version,
            logs_only (about_only name)
              (download_and_extract module_type name version zip_url target_dir))
    as Hdl.
  { intros zip_url version. unfold download_and_extract.
    apply logs_only_bind; [apply logs_only_logger; by intros n [= <-]|].
    intros _. apply logs_only_bind; [apply logs_only_requests_get|].
    intros r. apply logs_only_bind; [|intros z; by apply logs_only_silent].
    destruct r; by apply logs_only_silent. }
  unfold acquire. destruct (d_local_modules_folder distconf) as [folder|];
    [|apply Hdl].
  apply logs_only_bind; [by apply logs_only_silent|].
  intros [|]; [|apply Hdl].
  apply logs_only_bind; [apply logs_only_logger; by intros n [= <-]|].
  intros _. apply logs_only_bind; [apply logs_only_read_file|].
  intros c. apply logs_only_bind; [|intros z; by apply logs_only_silent].
  destruct c; by apply logs_only_silent.
Qed.

Lemma resolve_log_about module releases :
  Forall (about_only (m_name module))
    (Resolver.resolve_log module releases cur_api_ver).1.
Proof.
  unfold Resolver.resolve_log, Resolver.production_release,
    Resolver.latest_release.
  destruct (m_production_version module) as [pv|]; simpl.
  - destruct (Resolver.find_version pv releases) as [r|]; simpl.
    + destruct (Resolver.pin_rejected _ _ r); simpl;
        repeat constructor; by intros n [= <-].
    + repeat constructor; by intros n [= <-].
  - repeat constructor. by intros n.
Qed.

Lemma logs_only_process_module bundled included module :
  logs_only (about_only (m_name module))
    (process_module distconf cur_api_ver target_dir bundled included module).
Proof.
  unfold process_module. case_bool_decide.
  { apply logs_only_bind; [|intros; apply logs_only_ret].
    apply logs_only_logger. by intros n [= <-]. }
  apply logs_only_bind.
  { unfold fetch_releases.
    apply logs_only_bind; [apply logs_only_requests_get|].
    intros r. destruct r; by apply logs_only_silent. }
  intros releases. pose proof (resolve_log_about module releases) as Hlog.
  destruct (Resolver.resolve_log module releases cur_api_ver)
    as [records [r|]]; simpl in Hlog.
  - apply logs_only_bind; [by apply logs_only_emit|]. intros _.
    apply logs_only_bind; [apply logs_only_acquire|].
    intros; apply logs_only_ret.
  - apply logs_only_bind; [by apply logs_only_emit|]. intros _.
    apply logs_only_bind; [|intros; apply logs_only_ret].
    apply logs_only_logger. by intros n [= <-].
Qed.

Lemma logs_only_weaken {A} (P Q : LogRecord -> Prop) (m : M A) :
  (forall r, P r -> Q r) -> logs_only P m -> logs_only Q m.
Proof.
  intros HPQ Hm w. destruct (Hm w) as (rs & E & H). exists rs.
  split; [done|]. by eapply Forall_impl.
Qed.

(** The loop logs about modules of the index only. *)
Lemma logs_only_process_index bundled index : forall included,
  logs_only (fun r => forall n, message_module r.2 = Some n ->
                                n ∈ map m_name index)
    (process_index distconf cur_api_ver target_dir bundled included index).
Proof.
  induction index as [|module index IH]; intros included; simpl.
  - apply logs_only_ret.
  - apply logs_only_bind.
    + eapply logs_only_weaken; [|apply logs_only_process_module].
      intros r Hr n Hn. rewrite (Hr n Hn). by left.
    + intros included'. eapply logs_only_weaken; [|apply IH].
      intros r Hr n Hn. right. by apply Hr.
Qed.

(** The loop adds entries that bear names of modules of the index. *)
Lemma process_index_included bundled index : forall included w included' w',
  process_index distconf cur_api_ver target_dir bundled included index w
  = Ok included' w' ->
  exists added, included' = included ++ added /\
                Forall (fun e => rm_name e ∈ map m_name index) added.
Proof.
  induction index as [|module index IH]; intros included w included' w'; simpl.
  - intros [= <- _]. exists []. by rewrite app_nil_r.
  - unfold bind.
    destruct (process_module _ _ _ _ _ _ _) as [inc1 w1| |] eqn:E1; [|done..].
    intros H. apply IH in H as (added & -> & Hadded).
    assert (Forall (fun e => rm_name e ∈ map m_name (module :: index)) added)
      as Hadded'.
    { eapply Forall_impl; [exact Hadded|]. intros e He. by right. }
    apply process_module_included in E1 as [-> | (r & ->)].
    + by exists added.
    + exists (mkResolved (m_name module) (r_version r) :: added).
      split; [by rewrite <- app_assoc|].
      constructor; [by left | done].
Qed.

(** ** What the loop writes *)

Lemma prefix_slash_app target x :
  String.prefix (target +:+ "/") (target +:+ "/" +:+ x) = true.
Proof.
  induction target as [|c target IH]; [by destruct x|].
  change (String.prefix (String c (target +:+ "/"))
            (String c (target +:+ "/" +:+ x)) = true).
  simpl. by destruct (ascii_dec c c).
Qed.

Lemma extract_into_frame target members : forall f p,
  String.prefix (target +:+ "/") p <> true ->
  extract_into target members f !! p = f !! p.
Proof.
  unfold extract_into.
  induction members as [|m members IH]; intros f p Hp; simpl; [done|].
  rewrite IH by done. apply lookup_insert_ne.
  intros <-. apply Hp, prefix_slash_app.
Qed.

Lemma writes_only_silent {A} P (m : M A) :
  (forall w, fs (world_of (m w)) = fs w) -> writes_only P m.
Proof. intros H w p _. by rewrite H. Qed.

Lemma writes_only_bind {A B} P (m : M A) (k : A -> M B) :
  writes_only P m -> (forall a, writes_only P (k a)) ->
  writes_only P (x <- m ;; k x).
Proof.
  intros Hm Hk w p Hp. specialize (Hm w p Hp). unfold bind.
  destruct (m w) as [a w1| |]; simpl in Hm; [|done..].
  by rewrite (Hk a w1 p Hp).
Qed.

Lemma writes_only_weaken {A} (P Q : string -> Prop) (m : M A) :
  (forall p, P p -> Q p) -> writes_only P m -> writes_only Q m.
Proof. intros HPQ Hm w p Hp. apply Hm. intros HP. by apply Hp, HPQ. Qed.

Lemma writes_only_requests_get P url : writes_only P (requests_get url).
Proof.
  apply writes_only_silent. intros w. unfold requests_get.
  by destruct (remote w !! url).
Qed.

Lemma writes_only_read_file P p : writes_only P (read_file p).
Proof.
  apply writes_only_silent. intros w. unfold read_file.
  by destruct (fs w !! p) as [[|c]|].
Qed.

Lemma writes_only_extractall name version members :
  writes_only (below_target target_dir name version)
    (extractall members (extraction_target target_dir name version)).
Proof. intros w p Hp. simpl. by apply extract_into_frame. Qed.

(** The acquisition writes below its extraction target only. *)
Lemma writes_only_acquire module_type name release :
  writes_only (below_target target_dir name (r_version release))
    (acquire distconf module_type name release target_dir).
Proof.
  assert (writes_only (below_target target_dir name (r_version release))
            (download_and_extract module_type name (r_version release)
               (r_url release) target_dir)) as Hdl.
  { unfold download_and_extract.
    apply writes_only_bind; [by apply writes_only_silent|].
    intros _. apply writes_only_bind; [apply writes_only_requests_get|].
    intros r. apply writes_only_bind;
      [|intros z; apply writes_only_extractall].
    destruct r; by apply writes_only_silent. }
  unfold acquire. destruct (d_local_modules_folder distconf) as [folder|];
    [|apply Hdl].
  apply writes_only_bind; [by apply writes_only_silent|].
  intros [|]; [|apply Hdl].
  apply writes_only_bind; [by apply writes_only_silent|].
  intros _. apply writes_only_bind; [apply writes_only_read_file|].
  intros c. apply writes_only_bind; [|intros z; apply writes_only_extractall].
  destruct c; by apply writes_only_silent.
Qed.

Lemma writes_only_process_module bundled included module :
  writes_only (fun p => exists version,
                   below_target target_dir (m_name module) version p)
    (process_module distconf cur_api_ver target_dir bundled included module).
Proof.
  unfold process_module. case_bool_decide.
  { by apply writes_only_silent. }
  apply writes_only_bind.
  { unfold fetch_releases.
    apply writes_only_bind; [apply writes_only_requests_get|].
    intros r. destruct r; by apply writes_only_silent. }
  intros releases.
  destruct (Resolver.resolve_log module releases cur_api_ver)
    as [records [r|]].
  - apply writes_only_bind; [by apply writes_only_silent|]. intros _.
    apply writes_only_bind; [|intros; by apply writes_only_silent].
    eapply writes_only_weaken; [|apply writes_only_acquire].
    intros p Hp. by exists (r_version r).
  - by apply writes_only_silent.
Qed.

(** The loop writes below the extraction targets of modules of the index
    only. *)
Lemma writes_only_process_index bundled index : forall included,
  writes_only (fun p => exists module version,
                   module ∈ index /\
                   below_target target_dir (m_name module) version p)
    (process_index distconf cur_api_ver target_dir bundled included index).
Proof.
  induction index as [|module index IH]; intros included; simpl.
  - by apply writes_only_silent.
  - apply writes_only_bind.
    + eapply writes_only_weaken; [|apply writes_only_process_module].
      intros p [version Hp]. exists module, version. split; [by left | done].
    + intros included'. eapply writes_only_weaken; [|apply IH].
      intros p (m & version & Hm & Hp). exists m, version.
      split; [by right | done].
Qed.

(** C8: a bundled module for which the resolver returns [None] is
    passed over with a warning: the iteration fetches its release list
    and nothing else, leaves [included_modules] and the file system as
    they were, and the loop goes on with the modules that follow.  In
    any iteration [included_modules] grows by at most one entry, which
    bears the name of the module of that iteration. *)
Theorem unresolved_module_is_skipped (bundled : gset string)
    (before rest : list ModuleDescriptor) (module : ModuleDescriptor)
    (releases : list Release) (included0 included : list ResolvedModule)
    (w0 w : World) :
  process_index distconf cur_api_ver target_dir bundled included0 before w0
  = Ok included w ->
  m_name module ∈ bundled ->
  remote w !! m_url module = Some (RModuleIndex releases) ->
  Resolver.resolve module releases cur_api_ver = None ->
  exists w',
    process_module distconf cur_api_ver target_dir bundled included module w
    = Ok included w' /\
    fs w' = fs w /\
    requests w' = requests w ++ [m_url module] /\
    log w' = log w ++ (Resolver.resolve_log module releases cur_api_ver).1
               ++ [(WARNING, MsgNoSupport (m_type module) (m_name module)
                               (major (cur_api_ver (m_type module))))] /\
    process_index distconf cur_api_ver target_dir bundled included0
      (before ++ module :: rest) w0
    = process_index distconf cur_api_ver target_dir bundled included rest w' /\
    (forall inc m inc' w1 w1',
       process_module distconf cur_api_ver target_dir bundled inc m w1
       = Ok inc' w1' ->
       inc' = inc \/
       exists r, inc' = inc ++ [mkResolved (m_name m) (r_version r)]).
Proof.
  intros Hbefore Hin Hremote Hnone.
  pose proof (process_module_unresolved bundled included module releases w
                Hin Hremote Hnone) as Hstep.
  eexists. split; [exact Hstep|].
  split; [done|]. split; [done|].
  split; [simpl; by rewrite <- app_assoc|].
  split.
  - rewrite process_index_app. run_with Hbefore. simpl. by run_with Hstep.
  - intros inc m inc' w1 w1'. apply process_module_included.
Qed.

Lemma process_module_drop_name bundled n included module w :
  m_name module <> n ->
  process_module distconf cur_api_ver target_dir bundled included module w
  = process_module distconf cur_api_ver target_dir (bundled ∖ {[n]})
      included module w.
Proof.
  intros Hne. unfold process_module.
  rewrite (bool_decide_ext (m_name module ∉ bundled)
             (m_name module ∉ bundled ∖ {[n]})); [done|].
  rewrite elem_of_difference, elem_of_singleton. by intuition.
Qed.

(** C10: for a name of the bundled set that no descriptor of the index
    bears, the loop does what it does when the name is not in the set
    at all, whatever its outcome: it logs no record about that name, at
    any level, it adds no entry with that name to [included_modules],
    and what it writes lies below the extraction targets of modules of
    the index. *)
Theorem unlisted_bundled_module_is_ignored (bundled : gset string)
    (index : list ModuleDescriptor) (n : string)
    (included : list ResolvedModule) (w : World) :
  n ∈ bundled ->
  Forall (fun m => m_name m <> n) index ->
  let o := process_index distconf cur_api_ver target_dir bundled included
             index w in
  o = process_index distconf cur_api_ver target_dir (bundled ∖ {[n]})
        included index w /\
  (exists records, log (world_of o) = log w ++ records /\
     Forall (fun r => message_module r.2 <> Some n) records) /\
  (forall included' w', o = Ok included' w' ->
     exists added, included' = included ++ added /\
                   Forall (fun e => rm_name e <> n) added) /\
  (forall p,
     (forall module version,
        module ∈ index -> ~ below_target target_dir (m_name module) version p) ->
     fs (world_of o) !! p = fs w !! p).
Proof.
  intros _ Hindex o.
  assert (n ∉ map m_name index) as Hn.
  { intros (m & Heq & Hm)%list_elem_of_fmap.
    rewrite Forall_forall in Hindex. by apply (Hindex m Hm). }
  split; [|split; [|split]].
  - unfold o. clear o Hn. revert included w.
    induction Hindex as [|m index Hm _ IH]; intros included w; [done|].
    simpl. unfold bind. rewrite (process_module_drop_name bundled n) by done.
    destruct (process_module _ _ _ _ _ _ _) as [inc1 w1| |]; [|done..].
    apply IH.
  - destruct (logs_only_process_index bundled index included w)
      as (records & E & Hrec).
    exists records. split; [exact E|].
    eapply Forall_impl; [exact Hrec|]. intros r Hr Heq. by apply Hn, Hr.
  - intros included' w' Hok.
    destruct (process_index_included bundled index _ _ _ _ Hok)
      as (added & -> & Hadded).
    exists added. split; [done|].
    eapply Forall_impl; [exact Hadded|]. intros e He Heq.
    apply Hn. rewrite <- Heq. exact He.
  - intros p Hp. apply (writes_only_process_index bundled index included w p).
    intros (module & version & Hm & Hbelow). by apply (Hp module version).
Qed.

End Loop.

Section LoopWitnesses.

Lemma unresolved_module_is_skipped_witness :
  exists w',
    process_module Sample.distA (Sample.cur 2) "./Module"
      Sample.bundled_m1_m2_m9 [] Sample.m1 Sample.world_with_index
    = Ok [] w' /\
    fs w' = fs Sample.world_with_index /\
    requests w' = requests Sample.world_with_index ++ [m_url Sample.m1] /\
    log w' = log Sample.world_with_index
               ++ (Resolver.resolve_log Sample.m1 [Sample.rel10] (Sample.cur 2)).1
               ++ [(WARNING, MsgNoSupport Plugin "m1" 2)] /\
    process_index Sample.distA (Sample.cur 2) "./Module"
      Sample.bundled_m1_m2_m9 [] ([] ++ Sample.m1 :: [Sample.m2])
      Sample.world_with_index
    = process_index Sample.distA (Sample.cur 2) "./Module"
        Sample.bundled_m1_m2_m9 [] [Sample.m2] w' /\
    (forall inc m inc' w1 w1',
       process_module Sample.distA (Sample.cur 2) "./Module"
         Sample.bundled_m1_m2_m9 inc m w1 = Ok inc' w1' ->
       inc' = inc \/
       exists r, inc' = inc ++ [mkResolved (m_name m) (r_version r)]).
Proof.
  apply (unresolved_module_is_skipped Sample.distA (Sample.cur 2) "./Module"
           Sample.bundled_m1_m2_m9 [] [Sample.m2] Sample.m1 [Sample.rel10]
           [] [] Sample.world_with_index Sample.world_with_index).
  - reflexivity.
  - vm_compute. reflexivity.
  - reflexivity.
  - reflexivity.
Defined.

(** The run of the sample: [m1] is passed over, [m2] is still resolved
    and downloaded. *)
Example sample_run_continues :
  exists w',
    process_index Sample.distA (Sample.cur 2) "./Module"
      Sample.bundled_m1_m2_m9 [] [Sample.m1; Sample.m2]
      Sample.world_with_index
    = Ok [mkResolved "m2" "3.1"] w' /\
    requests w' = ["r1"; "r2"; "https://modules.example/m2-3.1.zip"] /\
    fs w' !! "./Module/m2/3.1/m2.noscfg" = Some (File (CText ["{}"])).
Proof. eexists. repeat split; vm_compute; reflexivity. Qed.

Lemma unlisted_bundled_module_witness :
  process_index Sample.distA (Sample.cur 2) "./Module"
    Sample.bundled_m1_m2_m9 [] [Sample.m1; Sample.m2] Sample.world_with_index
  = process_index Sample.distA (Sample.cur 2) "./Module"
      (Sample.bundled_m1_m2_m9 ∖ {["m9"]}) [] [Sample.m1; Sample.m2]
      Sample.world_with_index.
Proof.
  apply (unlisted_bundled_module_is_ignored Sample.distA (Sample.cur 2)
           "./Module" Sample.bundled_m1_m2_m9 [Sample.m1; Sample.m2] "m9"
           [] Sample.world_with_index).
  - vm_compute. reflexivity.
  - repeat constructor; discriminate.
Defined.

(** A whole run of [download_module_packages] on the sample: [m1] has no
    release for plugin API 2 and is passed over with a warning, [m9] is
    not in the index, [m2] is downloaded, extracted and recorded. *)
Example sample_download_module_packages :
  let o := download_module_packages "Engine" Sample.dist_bundle
             [Sample.dist_bundle] "./Module" Sample.profile_path
             Sample.world_before_run in
  (exists w', o = Ok tt w') /\
  requests (world_of o)
  = ["https://modules.example/index.json"; "r1"; "r2";
     "https://modules.example/m2-3.1.zip"] /\
  fs (world_of o) !! "./Module/m2/3.1/m2.noscfg" = Some (File (CText ["{}"])) /\
  fs (world_of o) !! Sample.profile_path
  = Some (File (CJson (JDict [("loaded_modules",
                               JList [entry_json (mkResolved "m2" "3.1")])])
                  (Some 2%nat))) /\
  List.filter (fun r => bool_decide (r.1 = WARNING \/ r.1 = ERROR))
    (log (world_of o))
  = [(WARNING, MsgNoSupport Plugin "m1" 2)].
Proof.
  cbv zeta. split; [eexists; vm_compute; reflexivity|].
  repeat split; vm_compute; reflexivity.
Qed.

End LoopWitnesses.

(** * Further properties of the resolver *)

Section ResolverMore.
Import Resolver.

Lemma find_elem {A} (f : A -> bool) (l : list A) (x : A) :
  List.find f l = Some x -> x ∈ l /\ f x = true.
Proof.
  intros H. pose proof (find_split f l) as Hs. rewrite H in Hs.
  destruct Hs as (l1 & l2 & -> & _ & Hx). split; [|done].
  apply elem_of_app. right. by left.
Qed.

(** X1: a release the resolver returns is one of the list and never
    declares, for the module's type, a major other than the current one:
    it declares none, or the current one. *)
Theorem resolve_sound (module : ModuleDescriptor) (releases : list Release)
    (cur_api_ver : ModuleType -> ApiVersion) (r : Release) :
  resolve module releases cur_api_ver = Some r ->
  r ∈ releases /\
  compatible (m_type module) (major (cur_api_ver (m_type module))) r.
Proof.
  unfold resolve, resolve_log, production_release, latest_release.
  set (t := m_type module). set (c := major (cur_api_ver t)).
  assert (List.find (scan_accepts t c) releases = Some r ->
          r ∈ releases /\ compatible t c r) as Hscan.
  { intros [Hin Hacc]%find_elem. split; [done|].
    by apply scan_accepts_compatible. }
  destruct (m_production_version module) as [pv|]; simpl; [|exact Hscan].
  destruct (find_version pv releases) as [r0|] eqn:Hfind; simpl; [|exact Hscan].
  destruct (pin_rejected t c r0) eqn:Hrej; simpl; [exact Hscan|].
  intros [= <-]. apply find_elem in Hfind as [Hin _]. split; [done|].
  unfold pin_rejected in Hrej. unfold compatible.
  destruct (api_version_of t r0) as [v|]; [|done].
  right. exists v. split; [done|]. apply Z.eqb_eq.
  by destruct (Z.eqb (major v) c).
Qed.

Lemma resolve_sound_witness :
  Sample.rel20 ∈ [Sample.rel20; Sample.rel10] /\
  compatible Plugin 2 Sample.rel20.
Proof.
  apply (resolve_sound Sample.m1_pinned [Sample.rel20; Sample.rel10]
           (Sample.cur 2) Sample.rel20).
  reflexivity.
Defined.

End ResolverMore.

(** * Further properties of the version parser *)

Section ParseVersionMore.

Lemma scan_line_malformed p vars line :
  defines_any p line = true -> last_int line = None ->
  scan_line p vars line = None.
Proof.
  unfold defines_any, scan_line.
  fold (defines p "MAJOR" line) (defines p "MINOR" line) (defines p "PATCH" line).
  intros Hdef Hint. rewrite Hint.
  destruct (defines p "MAJOR" line); [done|].
  destruct (defines p "MINOR" line); [done|].
  by destruct (defines p "PATCH" line).
Qed.

Lemma scan_lines_malformed p lines line : forall vars,
  line ∈ lines -> defines_any p line = true -> last_int line = None ->
  scan_lines p vars lines = None.
Proof.
  induction lines as [|l lines IH]; intros vars Hin Hdef Hint.
  - by apply elem_of_nil in Hin.
  - simpl. apply elem_of_cons in Hin as [<- | Hin].
    + by rewrite scan_line_malformed.
    + destruct (scan_line p vars l); [by apply IH | done].
Qed.

(** X2: a line that starts with one of the three defines and whose last
    space-separated field is not an integer makes [parse_version] raise
    [ValueError], whatever the other lines are: such a file never yields
    a version and is never reported as a missing component. *)
Theorem parse_version_malformed_line (filepath p : string)
    (lines : list string) (line : string) (w : World) :
  fs w !! filepath = Some (File (CText lines)) ->
  line ∈ lines -> defines_any p line = true -> last_int line = None ->
  parse_version filepath p w = Raise ValueError w.
Proof.
  intros Hfile Hin Hdef Hint. unfold parse_version.
  rewrite (bind_Ok _ _ w lines w).
  2:{ unfold readlines. by run_with (read_file_Ok _ _ w Hfile). }
  by rewrite (scan_lines_malformed p lines line _ Hin Hdef Hint).
Qed.

Lemma parse_version_fs_only filepath p w w' v :
  fs w' = fs w ->
  parse_version filepath p w = Ok v w ->
  parse_version filepath p w' = Ok v w'.
Proof.
  unfold parse_version, readlines, read_file, bind, ret, raise, logger, exit.
  intros ->. destruct (fs w !! filepath) as [[|[lines| | |]]|]; try done.
  destruct (scan_lines p _ lines) as [[[a|] [b|] [c|]]|]; try done.
  by intros [= <-].
Qed.

(** What [parse_version] does on a header that lacks a component. *)
Lemma parse_version_missing filepath p lines w :
  fs w !! filepath = Some (File (CText lines)) ->
  ~ (is_Some (last_define p "MAJOR" lines) /\
     is_Some (last_define p "MINOR" lines) /\
     is_Some (last_define p "PATCH" lines)) ->
  parse_version filepath p w
  = Exit 1 (add_log [(ERROR, MsgFailedToParse p)] w) \/
  parse_version filepath p w = Raise ValueError w.
Proof.
  intros Hfile Habs.
  assert (forall c n, Some n = value_after p c lines None ->
                      is_Some (last_define p c lines)) as Hpres.
  { intros c n. unfold value_after.
    destruct (last_define p c lines); [by eauto | done]. }
  unfold parse_version, readlines, read_file, bind, logger, exit, ret.
  rewrite Hfile.
  destruct (scan_lines p (mkVars None None None) lines) as [vars|] eqn:E;
    [|by right].
  pose proof (scan_lines_value p lines _ _ E) as (HM & Hm & Hp).
  destruct vars as [vM vm vp]. simpl in HM, Hm, Hp.
  destruct vM as [a|], vm as [b|], vp as [c|]; try (by left).
  exfalso. apply Habs. repeat split; eapply Hpres; eassumption.
Qed.

End ParseVersionMore.

Lemma parse_version_malformed_line_witness :
  parse_version Sample.header_path "NOS_PLUGIN_API"
    (Sample.world_with_header Extra.plugin_header_commented)
  = Raise ValueError (Sample.world_with_header Extra.plugin_header_commented).
Proof.
  apply (parse_version_malformed_line Sample.header_path "NOS_PLUGIN_API"
           Extra.plugin_header_commented Extra.commented_line).
  - reflexivity.
  - apply list_elem_of_In. simpl. right. left. reflexivity.
  - reflexivity.
  - reflexivity.
Defined.

(** * The run of [download_module_packages] as a whole *)

Section WholeRun.

Variable engine_folder : string.
Variable distconf : DistributionConfig.
Variable all : list DistributionConfig.
Variable target_dir profile_json_path : string.

Lemma makedirs_inv p w w1 :
  makedirs p w = Ok tt w1 ->
  remote w1 = remote w /\ requests w1 = requests w /\ log w1 = log w.
Proof.
  unfold makedirs. destruct (existsb _ _); [done|].
  destruct (is_file _ _); [done|]. by intros [= <-].
Qed.

Lemma fs_world_at_loop pv sv w1 :
  fs (world_at_loop distconf all pv sv w1) = fs w1 /\
  remote (world_at_loop distconf all pv sv w1) = remote w1 /\
  requests (world_at_loop distconf all pv sv w1)
  = requests w1 ++ [d_module_index_url distconf].
Proof.
  unfold world_at_loop. by destruct (effective_bundled_log distconf all).
Qed.

(** Up to the loop: once [target_dir] is made, the index fetched and the
    two headers parsed, what remains is the loop and the profile
    writer. *)
Lemma download_module_packages_from_loop index sv pv w w1 :
  makedirs target_dir w = Ok tt w1 ->
  remote w !! d_module_index_url distconf = Some (RIndex index) ->
  get_subsystem_api_version engine_folder w1 = Ok sv w1 ->
  get_plugin_api_version engine_folder w1 = Ok pv w1 ->
  download_module_packages engine_folder distconf all target_dir
    profile_json_path w
  = (included_modules <-
       process_index distconf (cur_api_ver_of pv sv) target_dir
         (effective_bundled distconf all) [] index ;;
     appendToProfile profile_json_path included_modules)
      (world_at_loop distconf all pv sv w1).
Proof.
  intros Hmk Hindex Hsub Hplug.
  destruct (makedirs_inv _ _ _ Hmk) as (Hremote & _ & _).
  unfold download_module_packages, world_at_loop, effective_bundled.
  run_with Hmk.
  destruct (effective_bundled_log distconf all) as [records bundled].
  run_emit. run_logger. run_logger.
  set (w2 := add_log [(INFO, MsgDownloadingDirectory _)] _).
  rewrite (bind_Ok _ _ w2 index (add_request (d_module_index_url distconf) w2)).
  2:{ unfold fetch_index.
      rewrite (bind_Ok _ _ w2 (RIndex index)
                 (add_request (d_module_index_url distconf) w2)); [done|].
      apply requests_get_Ok. unfold w2. simpl. by rewrite Hremote. }
  set (w3 := add_request _ w2).
  rewrite (bind_Ok _ _ w3 sv w3)
    by (by apply (parse_version_fs_only _ _ w1 w3 sv)).
  rewrite (bind_Ok _ _ w3 pv w3)
    by (by apply (parse_version_fs_only _ _ w1 w3 pv)).
  run_logger. run_logger. reflexivity.
Qed.

(** X3: the contract of a run in which nothing fails: the profile ends
    with its former entries followed by the entries the loop has
    collected, and apart from the profile file the world is the one the
    loop has left. *)
Theorem download_module_packages_records_loop (index : list ModuleDescriptor)
    (sv pv : ApiVersion) (w w1 w3 : World)
    (included : list ResolvedModule)
    (items : list (string * Json)) (old : list Json) :
  makedirs target_dir w = Ok tt w1 ->
  remote w !! d_module_index_url distconf = Some (RIndex index) ->
  get_subsystem_api_version engine_folder w1 = Ok sv w1 ->
  get_plugin_api_version engine_folder w1 = Ok pv w1 ->
  process_index distconf (cur_api_ver_of pv sv) target_dir
    (effective_bundled distconf all) [] index
    (world_at_loop distconf all pv sv w1) = Ok included w3 ->
  profile_holds w3 profile_json_path items old ->
  download_module_packages engine_folder distconf all target_dir
    profile_json_path w
  = Ok tt (set_fs (<[profile_json_path :=
                       File (CJson
                               (JDict (dict_set "loaded_modules"
                                         (JList (old ++ map entry_json included))
                                         items))
                               (Some 2%nat))]>) w3).
Proof.
  intros Hmk Hindex Hsub Hplug Hloop Hprofile.
  rewrite (download_module_packages_from_loop index sv pv w w1) by done.
  run_with Hloop. by apply appendToProfile_Ok.
Qed.

(** X4: when an iteration of the loop raises (a release list or an
    archive that cannot be fetched or decoded), the run raises the same
    exception and the profile writer does not run: every path that is
    not below the extraction target of a module of the index, the
    profile among them, holds what it held once [target_dir] was made,
    even if modules listed earlier were resolved and extracted. *)
Theorem download_module_packages_loop_failure (index : list ModuleDescriptor)
    (sv pv : ApiVersion) (w w1 w3 : World) (e : Exn) :
  makedirs target_dir w = Ok tt w1 ->
  remote w !! d_module_index_url distconf = Some (RIndex index) ->
  get_subsystem_api_version engine_folder w1 = Ok sv w1 ->
  get_plugin_api_version engine_folder w1 = Ok pv w1 ->
  process_index distconf (cur_api_ver_of pv sv) target_dir
    (effective_bundled distconf all) [] index
    (world_at_loop distconf all pv sv w1) = Raise e w3 ->
  download_module_packages engine_folder distconf all target_dir
    profile_json_path w = Raise e w3 /\
  (forall p,
     (forall module version,
        module ∈ index -> ~ below_target target_dir (m_name module) version p) ->
     fs w3 !! p = fs w1 !! p).
Proof.
  intros Hmk Hindex Hsub Hplug Hloop. split.
  - rewrite (download_module_packages_from_loop index sv pv w w1) by done.
    by rewrite (bind_Raise _ _ _ e w3 Hloop).
  - intros p Hp.
    pose proof (writes_only_process_index distconf (cur_api_ver_of pv sv)
                  target_dir (effective_bundled distconf all) index []
                  (world_at_loop distconf all pv sv w1) p) as Hframe.
    rewrite Hloop in Hframe. simpl in Hframe.
    rewrite Hframe; [by rewrite (proj1 (fs_world_at_loop pv sv w1))|].
    intros (module & version & Hm & Hbelow). by apply (Hp module version).
Qed.

(** X5: a version header that lacks one of its three components stops
    the run after [target_dir] was made and the index requested: the run
    exits with status 1 (or raises [ValueError] on a malformed line)
    without any other request and without any other change of the file
    system, so no module is resolved and the profile is not written.
    The subsystem header is read first, the plugin header only when the
    subsystem header has parsed. *)
Theorem download_module_packages_bad_header (index : list ModuleDescriptor)
    (lines : list string) (w w1 : World) :
  let sub_h := Py.join engine_folder ["SDK"; "include"; "Nodos"; "SubsystemAPI.h"] in
  let plug_h := Py.join engine_folder ["SDK"; "include"; "Nodos"; "PluginAPI.h"] in
  let lacks p :=
    ~ (is_Some (last_define p "MAJOR" lines) /\
       is_Some (last_define p "MINOR" lines) /\
       is_Some (last_define p "PATCH" lines)) in
  makedirs target_dir w = Ok tt w1 ->
  remote w !! d_module_index_url distconf = Some (RIndex index) ->
  (fs w1 !! sub_h = Some (File (CText lines)) /\ lacks "NOS_SUBSYSTEM_API") \/
  ((exists sv, get_subsystem_api_version engine_folder w1 = Ok sv w1) /\
   fs w1 !! plug_h = Some (File (CText lines)) /\ lacks "NOS_PLUGIN_API") ->
  exists w',
    (download_module_packages engine_folder distconf all target_dir
       profile_json_path w = Exit 1 w' \/
     download_module_packages engine_folder distconf all target_dir
       profile_json_path w = Raise ValueError w') /\
    fs w' = fs w1 /\
    requests w' = requests w ++ [d_module_index_url distconf].
Proof.
  intros sub_h plug_h lacks Hmk Hindex Hbad.
  destruct (makedirs_inv _ _ _ Hmk) as (Hremote & Hreq & _).
  unfold download_module_packages.
  run_with Hmk.
  destruct (effective_bundled_log distconf all) as [records bundled].
  run_emit. run_logger. run_logger.
  set (w2 := add_log [(INFO, MsgDownloadingDirectory _)] _).
  rewrite (bind_Ok _ _ w2 index (add_request (d_module_index_url distconf) w2)).
  2:{ unfold fetch_index.
      rewrite (bind_Ok _ _ w2 (RIndex index)
                 (add_request (d_module_index_url distconf) w2)); [done|].
      apply requests_get_Ok. unfold w2. simpl. by rewrite Hremote. }
  set (w3 := add_request _ w2).
  assert (fs w3 = fs w1) as Hfs by done.
  assert (requests w3 = requests w ++ [d_module_index_url distconf]) as Hrq
    by (simpl; by rewrite Hreq).
  destruct Hbad as [[Hfile Hlacks] | ([sv Hsv] & Hfile & Hlacks)].
  - destruct (parse_version_missing sub_h "NOS_SUBSYSTEM_API" lines w3)
      as [H | H]; [by rewrite Hfs | done | |].
    + eexists. split; [left; by apply bind_Exit|]. done.
    + eexists. split; [right; by apply bind_Raise|]. done.
  - rewrite (bind_Ok _ _ w3 sv w3)
      by (by apply (parse_version_fs_only _ _ w1 w3 sv)).
    destruct (parse_version_missing plug_h "NOS_PLUGIN_API" lines w3)
      as [H | H]; [by rewrite Hfs | done | |].
    + eexists. split; [left; by apply bind_Exit|]. done.
    + eexists. split; [right; by apply bind_Raise|]. done.
Qed.

End WholeRun.

Section WholeRunWitnesses.

Lemma download_module_packages_records_loop_witness :
  download_module_packages "Engine" Sample.dist_bundle [Sample.dist_bundle]
    "./Module" Sample.profile_path Sample.world_before_run
  = Ok tt (set_fs (<[Sample.profile_path :=
                       File (CJson
                               (JDict (dict_set "loaded_modules"
                                         (JList ([] ++ map entry_json
                                                         [mkResolved "m2" "3.1"]))
                                         []))
                               (Some 2%nat))]>) Extra.world_after_loop).
Proof.
  apply (download_module_packages_records_loop "Engine" Sample.dist_bundle
           [Sample.dist_bundle] "./Module" Sample.profile_path
           [Sample.m1; Sample.m2] (mkApiVersion 2 0 3) (mkApiVersion 2 1 0)
           Sample.world_before_run Extra.world_with_target
           Extra.world_after_loop [mkResolved "m2" "3.1"] [] []).
  - vm_compute. reflexivity.
  - vm_compute. reflexivity.
  - vm_compute. reflexivity.
  - vm_compute. reflexivity.
  - vm_compute. reflexivity.
  - left. split; [vm_compute; reflexivity | split; reflexivity].
Defined.

Lemma download_module_packages_loop_failure_witness :
  download_module_packages "Engine" Sample.dist_bundle [Sample.dist_bundle]
    "./Module" Sample.profile_path Extra.world_without_archive
  = Raise ConnectionError Extra.world_after_failed_loop /\
  (forall p,
     (forall module version,
        module ∈ [Sample.m1; Sample.m2] ->
        ~ below_target "./Module" (m_name module) version p) ->
     fs Extra.world_after_failed_loop !! p
     = fs Extra.world_with_target_without_archive !! p).
Proof.
  apply (download_module_packages_loop_failure "Engine" Sample.dist_bundle
           [Sample.dist_bundle] "./Module" Sample.profile_path
           [Sample.m1; Sample.m2] (mkApiVersion 2 0 3) (mkApiVersion 2 1 0)
           Extra.world_without_archive Extra.world_with_target_without_archive
           Extra.world_after_failed_loop ConnectionError).
  - vm_compute. reflexivity.
  - vm_compute. reflexivity.
  - vm_compute. reflexivity.
  - vm_compute. reflexivity.
  - vm_compute. reflexivity.
Defined.

Lemma download_module_packages_bad_header_witness :
  exists w',
    (download_module_packages "Engine" Sample.dist_bundle [Sample.dist_bundle]
       "./Module" Sample.profile_path Extra.world_with_wrong_header
     = Exit 1 w' \/
     download_module_packages "Engine" Sample.dist_bundle [Sample.dist_bundle]
       "./Module" Sample.profile_path Extra.world_with_wrong_header
     = Raise ValueError w') /\
    fs w' = fs (world_of (makedirs "./Module" Extra.world_with_wrong_header)) /\
    requests w' = requests Extra.world_with_wrong_header
                    ++ [d_module_index_url Sample.dist_bundle].
Proof.
  apply (download_module_packages_bad_header "Engine" Sample.dist_bundle
           [Sample.dist_bundle] "./Module" Sample.profile_path
           [Sample.m1; Sample.m2] Sample.plugin_header
           Extra.world_with_wrong_header
           (world_of (makedirs "./Module" Extra.world_with_wrong_header))).
  - vm_compute. reflexivity.
  - vm_compute. reflexivity.
  - left. split; [vm_compute; reflexivity|].
    intros ([l Hl] & _). vm_compute in Hl. discriminate Hl.
Defined.

End WholeRunWitnesses.

(** * Further properties of the loop *)

Section LoopMore.

Variable distconf : DistributionConfig.
Variable cur_api_ver : ModuleType -> ApiVersion.
Variable target_dir : string.

Lemma download_and_extract_Ok module_type name version zip_url members w :
  remote w !! zip_url = Some (RArchive members) ->
  download_and_extract module_type name version zip_url target_dir w
  = Ok tt (set_fs (extract_into (extraction_target target_dir name version) members)
             (add_request zip_url
                (add_log [(INFO, MsgDownloading module_type name version zip_url)]
                   w))).
Proof.
  intros Hr. unfold download_and_extract.
  run_logger. set (w1 := add_log _ w).
  run_with (requests_get_Ok zip_url (RArchive members) w1 Hr).
  run_ret. apply extractall_Ok.
Qed.

(** X6: a bundled module for which the resolver returns a release, in a
    distribution without local cache: the release list is requested,
    then the archive of that release; the archive is extracted below
    [target_dir/name/version] and the entry appended to
    [included_modules] carries the version of that very release. *)
Theorem process_module_resolved_downloads (bundled : gset string)
    (included : list ResolvedModule) (module : ModuleDescriptor)
    (releases : list Release) (r : Release)
    (members : list (string * Content)) (w : World) :
  m_name module ∈ bundled ->
  remote w !! m_url module = Some (RModuleIndex releases) ->
  Resolver.resolve module releases cur_api_ver = Some r ->
  d_local_modules_folder distconf = None ->
  remote w !! r_url r = Some (RArchive members) ->
  exists w',
    process_module distconf cur_api_ver target_dir bundled included module w
    = Ok (included ++ [mkResolved (m_name module) (r_version r)]) w' /\
    requests w' = requests w ++ [m_url module; r_url r] /\
    fs w' = extract_into
              (extraction_target target_dir (m_name module) (r_version r))
              members (fs w) /\
    log w' = log w ++ (Resolver.resolve_log module releases cur_api_ver).1
               ++ [(INFO, MsgDownloading (m_type module) (m_name module)
                             (r_version r) (r_url r))].
Proof.
  intros Hin Hlist Hres Hcache Harchive.
  unfold process_module.
  rewrite bool_decide_eq_false_2 by (intros Hnot; by apply Hnot).
  run_with (fetch_releases_Ok _ _ w Hlist).
  unfold Resolver.resolve in Hres.
  destruct (Resolver.resolve_log module releases cur_api_ver)
    as [records suitable] eqn:E.
  simpl in Hres. subst suitable. run_emit.
  set (w2 := add_log records _).
  unfold acquire. rewrite Hcache.
  rewrite (bind_Ok _ _ w2 tt _
             (download_and_extract_Ok (m_type module) (m_name module)
                (r_version r) (r_url r) members w2 Harchive)).
  eexists. split; [reflexivity|]. simpl.
  split; [by rewrite <- app_assoc|]. split; [done|].
  by rewrite <- app_assoc.
Qed.

Lemma process_module_included_bundled bundled included module w included' w' :
  process_module distconf cur_api_ver target_dir bundled included module w
  = Ok included' w' ->
  included' = included \/
  (m_name module ∈ bundled /\
   exists r, included' = included ++ [mkResolved (m_name module) (r_version r)]).
Proof.
  intros H. destruct (decide (m_name module ∈ bundled)) as [Hin | Hnot].
  - apply process_module_included in H as [-> | Hr]; [by left | by right].
  - rewrite process_module_not_bundled in H by done.
    injection H as <- _. by left.
Qed.

(** X7: what a loop that ends normally has appended to
    [included_modules] follows the index: the names of the new entries,
    in order, are a subsequence of the names of the bundled modules of
    the index, so that a descriptor gives at most one entry, entries
    keep the order of the index, and a module that is not bundled gives
    none. *)
Theorem included_modules_follow_index (bundled : gset string)
    (index : list ModuleDescriptor) (included included' : list ResolvedModule)
    (w w' : World) :
  process_index distconf cur_api_ver target_dir bundled included index w
  = Ok included' w' ->
  exists added,
    included' = included ++ added /\
    sublist (map rm_name added)
      (filter (fun n => n ∈ bundled) (map m_name index)).
Proof.
  revert included w. induction index as [|module index IH]; intros included w.
  - simpl. intros [= <- _]. exists []. split; [by rewrite app_nil_r | done].
  - simpl. unfold bind.
    destruct (process_module _ _ _ _ _ _ _) as [inc1 w1| |] eqn:E1; [|done..].
    intros H. apply IH in H as (added & -> & Hsub).
    apply process_module_included_bundled in E1
      as [-> | (Hin & r & ->)].
    + exists added. split; [done|]. rewrite filter_cons.
      case_decide; [by apply sublist_cons | done].
    + exists (mkResolved (m_name module) (r_version r) :: added).
      split; [by rewrite <- app_assoc|].
      rewrite filter_cons. rewrite decide_True by done.
      simpl. by apply sublist_skip.
Qed.

End LoopMore.

Lemma process_module_resolved_downloads_witness :
  exists w',
    process_module Sample.dist_bundle (Sample.cur 2) "./Module"
      Sample.bundled_m1_m2_m9 [] Sample.m2 Sample.world_with_index
    = Ok ([] ++ [mkResolved "m2" "3.1"]) w' /\
    requests w' = requests Sample.world_with_index
                    ++ ["r2"; "https://modules.example/m2-3.1.zip"] /\
    fs w' = extract_into (extraction_target "./Module" "m2" "3.1")
              Sample.m2_archive (fs Sample.world_with_index) /\
    log w' = log Sample.world_with_index
               ++ (Resolver.resolve_log Sample.m2 [Sample.rel_m2] (Sample.cur 2)).1
               ++ [(INFO, MsgDownloading Plugin "m2" "3.1"
                             "https://modules.example/m2-3.1.zip")].
Proof.
  apply (process_module_resolved_downloads Sample.dist_bundle (Sample.cur 2)
           "./Module" Sample.bundled_m1_m2_m9 [] Sample.m2 [Sample.rel_m2]
           Sample.rel_m2 Sample.m2_archive Sample.world_with_index).
  - vm_compute. reflexivity.
  - reflexivity.
  - reflexivity.
  - reflexivity.
  - reflexivity.
Defined.

Lemma included_modules_follow_index_witness :
  exists added,
    [mkResolved "m2" "3.1"] = [] ++ added /\
    sublist (map rm_name added)
      (filter (fun n => n ∈ Sample.bundled_m1_m2_m9)
         (map m_name [Sample.m1; Sample.m2])).
Proof.
  apply (included_modules_follow_index Sample.dist_bundle (Sample.cur 2)
           "./Module" Sample.bundled_m1_m2_m9 [Sample.m1; Sample.m2] []
           [mkResolved "m2" "3.1"] Sample.world_with_index
           (world_of (process_index Sample.dist_bundle (Sample.cur 2) "./Module"
                        Sample.bundled_m1_m2_m9 [] [Sample.m1; Sample.m2]
                        Sample.world_with_index))).
  vm_compute. reflexivity.
Defined.

(** * Further properties of the effective set of bundled modules *)

Section BundledSetMore.

Lemma effective_bundled_elem distconf all m :
  m ∈ effective_bundled distconf all <->
  m ∈ own_modules distconf \/
  exists other, other ∈ all /\ d_key other ∈ included_keys distconf /\
                m ∈ own_modules other.
Proof.
  unfold effective_bundled, effective_bundled_log, included_keys.
  rewrite <- (elem_of_bundled_set m distconf).
  change (bundled_set distconf)
    with ((@nil LogRecord, bundled_set distconf).2) at 2.
  generalize (@nil LogRecord, bundled_set distconf).
  induction (default [] (d_includes distconf)) as [|inc incs IH];
    intros acc; simpl.
  - split; [by left|]. intros [H | (o & _ & Ho & _)]; [done|].
    by apply elem_of_nil in Ho.
  - rewrite IH, add_included_elem. split.
    + intros [[H | (o & Hin & Hk & Hm)] | (o & Hin & Hk & Hm)].
      * by left.
      * right. exists o. rewrite Hk. repeat split; [done | by left | done].
      * right. exists o. repeat split; [done | by right | done].
    + intros [H | (o & Hin & Hk & Hm)]; [by left; left|].
      apply elem_of_cons in Hk as [Hk | Hk].
      * left. right. by exists o.
      * right. by exists o.
Qed.

(** X8: the effective set depends on the manifest, on the includes and
    on the own list of the distribution only as sets: order and
    repetitions of the distributions in the manifest, of the keys in
    [includes] and of the names in [bundled_modules] do not change it;
    and it grows with the manifest. *)
Theorem effective_bundled_set_like (distconf distconf' : DistributionConfig)
    (all all' : list DistributionConfig) :
  (forall m, m ∈ own_modules distconf <-> m ∈ own_modules distconf') ->
  (forall k, k ∈ included_keys distconf <-> k ∈ included_keys distconf') ->
  ((forall d, d ∈ all <-> d ∈ all') ->
   effective_bundled distconf all = effective_bundled distconf' all') /\
  ((forall d, d ∈ all -> d ∈ all') ->
   effective_bundled distconf all ⊆ effective_bundled distconf' all').
Proof.
  intros Hown Hkeys. split.
  - intros Hall. apply set_eq. intros m. rewrite !effective_bundled_elem.
    rewrite Hown. split.
    + intros [H | (o & Hin & Hk & Hm)]; [by left|].
      right. exists o. by rewrite <- Hall, <- Hkeys.
    + intros [H | (o & Hin & Hk & Hm)]; [by left|].
      right. exists o. by rewrite Hall, Hkeys.
  - intros Hall m. rewrite !effective_bundled_elem. rewrite Hown.
    intros [H | (o & Hin & Hk & Hm)]; [by left|].
    right. exists o. rewrite <- Hkeys. split; [by apply Hall | done].
Qed.

Lemma add_included_no_match include all acc :
  Forall (fun other => d_key other <> include) all ->
  add_included include all acc = acc.
Proof.
  unfold add_included. intros H. revert acc.
  induction H as [|o all Hne _ IH]; intros acc; simpl; [done|].
  assert (String.eqb include (d_key o) = false) as ->
    by (apply String.eqb_neq; congruence).
  apply IH.
Qed.

(** X9: keys of [includes] that no distribution of the manifest bears
    are passed over without error and without record: when none of the
    included keys is a key of the manifest, the effective set is the own
    set of the distribution and nothing is logged. *)
Theorem includes_of_unknown_keys_ignored (distconf : DistributionConfig)
    (all : list DistributionConfig) :
  (forall other, other ∈ all -> d_key other ∉ included_keys distconf) ->
  effective_bundled_log distconf all = ([], bundled_set distconf).
Proof.
  unfold effective_bundled_log, included_keys. intros H.
  generalize (@nil LogRecord, bundled_set distconf).
  induction (default [] (d_includes distconf)) as [|inc incs IH];
    intros acc; simpl; [done|].
  rewrite add_included_no_match.
  - apply IH. intros o Ho Hk. apply (H o Ho). by right.
  - apply Forall_forall. intros o Ho Heq. apply (H o Ho). rewrite Heq. by left.
Qed.

End BundledSetMore.

Lemma effective_bundled_set_like_witness :
  effective_bundled Sample.distA [Sample.distA; Sample.distB; Sample.distC]
  = effective_bundled Sample.distA
      [Sample.distC; Sample.distB; Sample.distA; Sample.distB].
Proof.
  apply (proj1 (effective_bundled_set_like Sample.distA Sample.distA
                  [Sample.distA; Sample.distB; Sample.distC]
                  [Sample.distC; Sample.distB; Sample.distA; Sample.distB]
                  (fun m => conj (fun H => H) (fun H => H))
                  (fun k => conj (fun H => H) (fun H => H)))).
  intros d. rewrite !elem_of_cons, !elem_of_nil. tauto.
Defined.

Lemma includes_of_unknown_keys_ignored_witness :
  effective_bundled_log Sample.distB [Sample.distA; Sample.distB]
  = ([], bundled_set Sample.distB).
Proof.
  apply (includes_of_unknown_keys_ignored Sample.distB
           [Sample.distA; Sample.distB]).
  intros other Hin Hk.
  apply elem_of_cons in Hin as [-> | Hin];
    [|apply elem_of_cons in Hin as [-> | Hin]; [|by apply elem_of_nil in Hin]];
    vm_compute in Hk; apply elem_of_cons in Hk as [Hk | Hk];
    try discriminate Hk; by apply elem_of_nil in Hk.
Defined.

(** * Further properties of the profile writer *)

Section ProfileMore.

Lemma dict_keys_set k v items :
  dict_keys (dict_set k v items)
  = match dict_get k items with
    | Some _ => dict_keys items
    | None => dict_keys items ++ [k]
    end.
Proof.
  unfold dict_keys. induction items as [|[k0 v0] items IH]; simpl; [done|].
  destruct (String.eqb k0 k) eqn:E; simpl.
  - apply String.eqb_eq in E. by subst k0.
  - rewrite IH. by destruct (dict_get k items).
Qed.

(** X10: the writer either writes the profile file, with [indent=2], or
    leaves the world exactly as it found it.  In particular a profile
    that is not a JSON object makes it raise [TypeError], and an object
    whose [loaded_modules] is not a list makes it raise
    [AttributeError], the file being kept as it was in both cases. *)
Theorem appendToProfile_all_or_nothing (path : string)
    (included_modules : list ResolvedModule) (w : World) :
  ((exists doc,
      appendToProfile path included_modules w
      = Ok tt (set_fs (<[path := File (CJson doc (Some 2%nat))]>) w)) \/
   (exists e, appendToProfile path included_modules w = Raise e w)) /\
  (forall doc indent,
     fs w !! path = Some (File (CJson doc indent)) ->
     (forall items, doc <> JDict items) ->
     appendToProfile path included_modules w = Raise TypeError w) /\
  (forall items indent v,
     fs w !! path = Some (File (CJson (JDict items) indent)) ->
     dict_get "loaded_modules" items = Some v ->
     (forall l, v <> JList l) ->
     appendToProfile path included_modules w = Raise AttributeError w).
Proof.
  unfold appendToProfile.
  rewrite (bind_Ok _ _ w _ w (path_exists_Ok path w)).
  split; [|split].
  - destruct (fs w !! path) as [[|c]|] eqn:Hfile.
    + rewrite bool_decide_eq_true_2 by (by eexists). right.
      exists IsADirectoryError. apply bind_Raise. unfold json_load.
      by rewrite (bind_Raise _ _ w IsADirectoryError w (read_file_Dir path w Hfile)).
    + rewrite bool_decide_eq_true_2 by (by eexists).
      assert (forall e, json_load path w = Raise e w ->
                (exists doc, (profile <- json_load path ;;
                              match extend_loaded_modules profile included_modules with
                              | inl e => raise e
                              | inr profile => json_dump profile path 2
                              end) w
                             = Ok tt (set_fs (<[path := File (CJson doc (Some 2%nat))]>) w)) \/
                (exists e, (profile <- json_load path ;;
                            match extend_loaded_modules profile included_modules with
                            | inl e => raise e
                            | inr profile => json_dump profile path 2
                            end) w = Raise e w)) as Hraise.
      { intros e He. right. exists e. by apply bind_Raise. }
      destruct c as [lines|doc indent|dists|members];
        try (apply (Hraise JSONDecodeError); unfold json_load;
             by run_with (read_file_Ok _ _ w Hfile)).
      rewrite (bind_Ok _ _ w doc w).
      2:{ unfold json_load. by run_with (read_file_Ok _ _ w Hfile). }
      destruct (extend_loaded_modules doc included_modules) as [e|doc'];
        [right; by exists e|].
      left. exists doc'. unfold json_dump, write_file. by rewrite Hfile.
    + rewrite bool_decide_eq_false_2 by (by intros [? ?]). run_ret.
      simpl. left. eexists. unfold json_dump, write_file. by rewrite Hfile.
  - intros doc indent Hfile Hnot.
    rewrite bool_decide_eq_true_2 by (by eexists).
    rewrite (bind_Ok _ _ w doc w).
    2:{ unfold json_load. by run_with (read_file_Ok _ _ w Hfile). }
    destruct doc as [| | | | |items]; try done. by destruct (Hnot items).
  - intros items indent v Hfile Hget Hnot.
    rewrite bool_decide_eq_true_2 by (by eexists).
    rewrite (bind_Ok _ _ w (JDict items) w).
    2:{ unfold json_load. by run_with (read_file_Ok _ _ w Hfile). }
    unfold extend_loaded_modules. rewrite Hget. cbv beta iota zeta.
    rewrite Hget. destruct v as [| | | | l|]; try done. by destruct (Hnot l).
Qed.

(** X11: in the profile it writes, the writer keeps the members of the
    former object in their order: [loaded_modules] stays where it was,
    and comes last when the object had none. *)
Theorem appendToProfile_keeps_key_order (path : string)
    (included_modules : list ResolvedModule) (w : World)
    (items : list (string * Json)) (old : list Json) :
  profile_holds w path items old ->
  exists items',
    appendToProfile path included_modules w
    = Ok tt (set_fs (<[path := File (CJson (JDict items') (Some 2%nat))]>) w) /\
    dict_keys items'
    = match dict_get "loaded_modules" items with
      | Some _ => dict_keys items
      | None => dict_keys items ++ ["loaded_modules"]
      end.
Proof.
  intros H. eexists. split; [by apply (appendToProfile_Ok _ _ _ items old)|].
  apply dict_keys_set.
Qed.

End ProfileMore.

Lemma appendToProfile_all_or_nothing_witness :
  appendToProfile Sample.profile_path Sample.resolved_m1
    Extra.world_with_list_profile
  = Raise TypeError Extra.world_with_list_profile /\
  appendToProfile Sample.profile_path Sample.resolved_m1
    Extra.world_with_odd_profile
  = Raise AttributeError Extra.world_with_odd_profile.
Proof.
  split.
  - apply (proj1 (proj2 (appendToProfile_all_or_nothing Sample.profile_path
                           Sample.resolved_m1 Extra.world_with_list_profile))
             (JList []) None).
    + reflexivity.
    + discriminate.
  - apply (proj2 (proj2 (appendToProfile_all_or_nothing Sample.profile_path
                           Sample.resolved_m1 Extra.world_with_odd_profile))
             [("loaded_modules", JStr "none")] None (JStr "none")).
    + reflexivity.
    + reflexivity.
    + discriminate.
Defined.

Lemma appendToProfile_keeps_key_order_witness :
  exists items',
    appendToProfile Sample.profile_path Sample.resolved_m1
      Sample.world_with_profile
    = Ok tt (set_fs (<[Sample.profile_path :=
                         File (CJson (JDict items') (Some 2%nat))]>)
               Sample.world_with_profile) /\
    dict_keys items' = ["theme"; "loaded_modules"].
Proof.
  apply (appendToProfile_keeps_key_order Sample.profile_path Sample.resolved_m1
           Sample.world_with_profile
           [("theme", JStr "dark");
            ("loaded_modules", JList [entry_json (mkResolved "m0" "0.1")])]
           [entry_json (mkResolved "m0" "0.1")]).
  right. exists None. split; [reflexivity|]. right. reflexivity.
Defined.

(** * Further properties of [package] *)

Section PackageMore.

Variable stage_engine : string -> bool -> M string.
Variable archive_staging :
  string -> DistributionConfig -> string -> bool -> M unit.

(** Up to the key check: with a manifest in place, [package] reaches the
    lookup of the key in the world [world_after_cleanup]. *)
Lemma package_from_lookup dist_key engine_folder should_sign_binaries dists w :
  fs w !! "./bundle.json" = Some (File (CManifest dists)) ->
  is_file (fs w) ARTIFACTS_FOLDER = false ->
  package stage_engine archive_staging dist_key engine_folder
    should_sign_binaries w
  = match find_dist dist_key dists with
    | None =>
        logger ERROR (MsgDistKeyNotFound dist_key) ;;
        exit 1
    | Some distconf =>
        let is_bundled :=
          match d_bundled_modules distconf with
          | Some (_ :: _) => true
          | _ => false
          end in
        engine_dist_folder <- stage_engine engine_folder should_sign_binaries ;;
        (if is_bundled then
           download_module_packages engine_folder distconf dists
             (STAGING_FOLDER +:+ "/Module")
             (engine_dist_folder +:+ "/Config/Profile.json")
         else ret tt) ;;
        archive_staging engine_dist_folder distconf dist_key is_bundled
    end (world_after_cleanup w).
Proof.
  intros Hmanifest Hart. unfold world_after_cleanup.
  set (w1 := add_log [(INFO, MsgPackaging)] w).
  set (w2 := set_fs (filter (fun kv => under ARTIFACTS_FOLDER kv.1 = false)) w1).
  set (w3 := set_fs _ w2).
  unfold package.
  rewrite (bind_Ok _ _ w tt w1) by reflexivity.
  rewrite (bind_Ok _ _ w1 tt w2) by (by apply rmtree_Ok).
  rewrite (bind_Ok _ _ w2 tt w3).
  2:{ apply makedirs_Ok; rewrite ?dirs_to_make_staging;
        unfold removelast, existsb, is_file, w2, set_fs, fs;
        (rewrite map_lookup_filter_None_2; [done|]);
        right; intros x _; by vm_compute. }
  rewrite (bind_Ok _ _ w3 dists w3); [done|].
  unfold load_manifest. rewrite (bind_Ok _ _ w3 (CManifest dists) w3); [done|].
  apply read_file_Ok.
  pose proof (lookup_after_cleanup (fs w) "./bundle.json") as Hlook.
  unfold w3, w2, w1, set_fs, fs, add_log. rewrite dirs_to_make_staging.
  etrans; [exact Hlook|]. exact Hmanifest.
Qed.

(** X12: whether modules are bundled is decided by the own
    [bundled_modules] of the selected distribution alone.  A
    distribution that lists no module itself goes from staging straight
    to the final archive, which is made as an unbundled one:
    [download_module_packages] is not run, whatever its [includes] would
    bring.  A distribution that lists a module runs it in between, on
    the [Module] folder of the staging tree and the profile of the
    staged engine. *)
Theorem package_bundles_own_modules_only (dist_key engine_folder : string)
    (should_sign_binaries : bool) (dists : list DistributionConfig)
    (distconf : DistributionConfig) (w : World) :
  fs w !! "./bundle.json" = Some (File (CManifest dists)) ->
  is_file (fs w) ARTIFACTS_FOLDER = false ->
  find_dist dist_key dists = Some distconf ->
  (own_modules distconf = [] ->
   package stage_engine archive_staging dist_key engine_folder
     should_sign_binaries w
   = (engine_dist_folder <- stage_engine engine_folder should_sign_binaries ;;
      archive_staging engine_dist_folder distconf dist_key false)
       (world_after_cleanup w)) /\
  (own_modules distconf <> [] ->
   package stage_engine archive_staging dist_key engine_folder
     should_sign_binaries w
   = (engine_dist_folder <- stage_engine engine_folder should_sign_binaries ;;
      download_module_packages engine_folder distconf dists
        (STAGING_FOLDER +:+ "/Module")
        (engine_dist_folder +:+ "/Config/Profile.json") ;;
      archive_staging engine_dist_folder distconf dist_key true)
       (world_after_cleanup w)).
Proof.
  intros Hmanifest Hart Hfind.
  rewrite (package_from_lookup _ _ _ dists w Hmanifest Hart), Hfind.
  unfold own_modules.
  destruct (d_bundled_modules distconf) as [[|m ms]|]; simpl.
  - split; [|done]. intros _. unfold bind.
    by destruct (stage_engine engine_folder should_sign_binaries _).
  - split; [done|]. by intros _.
  - split; [|done]. intros _. unfold bind.
    by destruct (stage_engine engine_folder should_sign_binaries _).
Qed.

End PackageMore.

Lemma package_bundles_own_modules_only_witness :
  package Sample.no_stage_engine Sample.no_archive_staging "D" "Engine" false
    Extra.world_with_manifest
  = (engine_dist_folder <- Sample.no_stage_engine "Engine" false ;;
     Sample.no_archive_staging engine_dist_folder Extra.distD "D" false)
      (world_after_cleanup Extra.world_with_manifest).
Proof.
  apply (proj1 (package_bundles_own_modules_only Sample.no_stage_engine
                  Sample.no_archive_staging "D" "Engine" false
                  [Extra.distD; Sample.distB] Extra.distD
                  Extra.world_with_manifest eq_refl eq_refl eq_refl)).
  reflexivity.
Defined.

(** The includes of [D] would bring the module of [B]. *)
Example distD_effective_set :
  effective_bundled Extra.distD [Extra.distD; Sample.distB] = {["m2"]}.
Proof. by vm_compute. Qed.

(** * The engine settings *)

Section EngineSettings.

Lemma json_load_Ok path doc indent w :
  fs w !! path = Some (File (CJson doc indent)) -> json_load path w = Ok doc w.
Proof.
  intros Hfile. unfold json_load. by run_with (read_file_Ok _ _ w Hfile).
Qed.

Lemma setitem_dict key value items w :
  setitem key value (JDict items) w = Ok (JDict (dict_set key value items)) w.
Proof. reflexivity. Qed.

(** X13: the engine settings are rewritten as a whole or not at all.
    On a settings file that holds a JSON object, [remote_modules]
    becomes the one-element list with the module index of the
    distribution, whatever it held before, [engine_index_url] is set,
    every other member keeps its value, and the file is written with
    [indent=2].  When the distribution has no [engine_index_url] the
    function raises [KeyError]; whenever it raises, the file system is
    as it was. *)
Theorem write_engine_settings_replaces (engine_dist_folder : string)
    (distconf : DistributionConfig) (w : World) :
  let path := engine_dist_folder +:+ "/Config/EngineSettings.json" in
  let remote := JList [JDict [("url", JStr (d_module_index_url distconf))]] in
  (forall items indent url,
     fs w !! path = Some (File (CJson (JDict items) indent)) ->
     exists items',
       write_engine_settings engine_dist_folder distconf (Some url) w
       = Ok tt (set_fs (<[path := File (CJson (JDict items') (Some 2%nat))]>) w) /\
       dict_get "remote_modules" items' = Some remote /\
       dict_get "engine_index_url" items' = Some (JStr url) /\
       (forall k, k <> "remote_modules" -> k <> "engine_index_url" ->
                  dict_get k items' = dict_get k items)) /\
  (forall items indent,
     fs w !! path = Some (File (CJson (JDict items) indent)) ->
     write_engine_settings engine_dist_folder distconf None w = Raise KeyError w) /\
  (forall engine_index_url,
     (exists doc,
        write_engine_settings engine_dist_folder distconf engine_index_url w
        = Ok tt (set_fs (<[path := File (CJson doc (Some 2%nat))]>) w)) \/
     (exists e,
        write_engine_settings engine_dist_folder distconf engine_index_url w
        = Raise e w)).
Proof.
  intros path remote. unfold write_engine_settings. cbv zeta. fold path remote.
  split; [|split].
  - intros items indent url Hfile.
    rewrite (bind_Ok _ _ w _ w (json_load_Ok _ _ _ w Hfile)).
    unfold setitem at 1. run_ret. run_ret. unfold setitem. run_ret.
    eexists. split; [unfold json_dump, write_file; by rewrite Hfile|].
    split; [|split].
    + rewrite dict_get_set_ne by done. apply dict_get_set_eq.
    + apply dict_get_set_eq.
    + intros k H1 H2. by rewrite !dict_get_set_ne.
  - intros items indent Hfile.
    rewrite (bind_Ok _ _ w _ w (json_load_Ok _ _ _ w Hfile)).
    unfold setitem at 1. run_ret. by apply bind_Raise.
  - intros engine_index_url.
    destruct (fs w !! path) as [[|c]|] eqn:Hfile.
    + right. exists IsADirectoryError. apply bind_Raise. unfold json_load.
      by rewrite (bind_Raise _ _ w IsADirectoryError w (read_file_Dir path w Hfile)).
    + destruct c as [lines|doc indent|dists|members];
        try (right; exists JSONDecodeError; apply bind_Raise; unfold json_load;
             by run_with (read_file_Ok _ _ w Hfile)).
      rewrite (bind_Ok _ _ w _ w (json_load_Ok _ _ _ w Hfile)).
      destruct doc as [| | | | |items];
        try (right; exists TypeError; by apply bind_Raise).
      rewrite (bind_Ok _ _ w _ w (setitem_dict "remote_modules" remote items w)).
      destruct engine_index_url as [url|];
        [|right; exists KeyError; by apply bind_Raise].
      run_ret. rewrite (bind_Ok _ _ w _ w (setitem_dict _ _ _ w)).
      left. eexists. unfold json_dump, write_file. by rewrite Hfile.
    + right. exists FileNotFoundError. apply bind_Raise. unfold json_load.
      apply bind_Raise. unfold read_file. by rewrite Hfile.
Qed.

End EngineSettings.

Lemma write_engine_settings_replaces_witness :
  write_engine_settings "dist" Extra.distD None Extra.world_with_settings
  = Raise KeyError Extra.world_with_settings.
Proof.
  apply (proj1 (proj2 (write_engine_settings_replaces "dist" Extra.distD
                         Extra.world_with_settings))
           [("remote_modules", JList [JStr "old"]); ("log_level", JStr "info")]
           None).
  reflexivity.
Defined.

(** What the settings of the sample become. *)
Example write_engine_settings_sample :
  write_engine_settings "dist" Extra.distD (Some "https://engine.example")
    Extra.world_with_settings
  = Ok tt
      (set_fs (<["dist/Config/EngineSettings.json" :=
                   File (CJson
                           (JDict [("remote_modules",
                                    JList [JDict [("url",
                                      JStr "https://modules.example/index.json")]]);
                                   ("log_level", JStr "info");
                                   ("engine_index_url",
                                    JStr "https://engine.example")])
                           (Some 2%nat))]>)
         Extra.world_with_settings).
Proof. by vm_compute. Qed.

(** * Substrings and case *)

Section Strings.

Lemma app_assoc_s (a b c : string) : (a +:+ b) +:+ c = a +:+ b +:+ c.
Proof.
  induction a as [|x a IH]; [done|].
  change (String x ((a +:+ b) +:+ c) = String x (a +:+ b +:+ c)).
  by rewrite IH.
Qed.

Lemma app_nil_r_s (a : string) : a +:+ "" = a.
Proof.
  induction a as [|x a IH]; [done|].
  change (String x (a +:+ "") = String x a). by rewrite IH.
Qed.

Lemma prefix_nil s : String.prefix "" s = true.
Proof. by destruct s. Qed.

Lemma prefix_cons_cons a x b s :
  String.prefix (String a x) (String b s)
  = (if ascii_dec a b then String.prefix x s else false).
Proof. simpl. by destruct (ascii_dec a b). Qed.

Lemma prefix_iff p s :
  String.prefix p s = true <-> exists b, s = p +:+ b.
Proof.
  revert s. induction p as [|c p IH]; intros s.
  - rewrite prefix_nil. split; [by exists s | done].
  - destruct s as [|d s].
    + split; [done | by intros [b Hb]].
    + rewrite prefix_cons_cons. destruct (ascii_dec c d) as [<- | Hne].
      * rewrite IH. split; intros [b Hb]; exists b.
        -- by rewrite Hb.
        -- by injection Hb.
      * split; [done|]. intros [b Hb]. injection Hb as Hcd _. by destruct Hne.
Qed.

Lemma contains_iff p s :
  PyStr.contains p s = true <-> exists a b, s = a +:+ p +:+ b.
Proof.
  induction s as [|c s IH].
  - destruct p as [|x p].
    + split; [by exists "", "" | done].
    + split; [done|]. intros (a & b & Hab). by destruct a.
  - change (PyStr.contains p (String c s))
      with (String.prefix p (String c s) || PyStr.contains p s).
    rewrite orb_true_iff, IH, prefix_iff. split.
    + intros [[b Hb] | (a & b & Hab)].
      * by exists "", b.
      * exists (String c a), b. by rewrite Hab.
    + intros (a & b & Hab). destruct a as [|x a].
      * left. by exists b.
      * right. exists a, b. by injection Hab.
Qed.

Lemma contains_trans a b c :
  PyStr.contains a b = true -> PyStr.contains b c = true ->
  PyStr.contains a c = true.
Proof.
  rewrite !contains_iff. intros (x & y & ->) (u & v & ->).
  exists (u +:+ x), (y +:+ v). by rewrite !app_assoc_s.
Qed.

Lemma lower_app a b : PyStr.lower (a +:+ b) = PyStr.lower a +:+ PyStr.lower b.
Proof.
  induction a as [|x a IH]; [done|].
  change (String (PyStr.lower_char x) (PyStr.lower (a +:+ b))
          = String (PyStr.lower_char x) (PyStr.lower a +:+ PyStr.lower b)).
  by rewrite IH.
Qed.

Lemma lower_char_idem c :
  PyStr.lower_char (PyStr.lower_char c) = PyStr.lower_char c.
Proof. by destruct c as [[] [] [] [] [] [] [] []]. Qed.

Lemma lower_idem s : PyStr.lower (PyStr.lower s) = PyStr.lower s.
Proof.
  induction s as [|c s IH]; [done|]. simpl. by rewrite lower_char_idem, IH.
Qed.

Lemma contains_lower a b :
  PyStr.contains a b = true ->
  PyStr.contains (PyStr.lower a) (PyStr.lower b) = true.
Proof.
  rewrite !contains_iff. intros (x & y & ->).
  exists (PyStr.lower x), (PyStr.lower y). by rewrite !lower_app.
Qed.

End Strings.

(** * The exclusion list of the installer *)

Section Excluded.

(** X14: a name is excluded exactly when, lowered, it contains one of
    seven strings, the last of which is [vkclientzlib], the two last
    literals of the source being joined; exclusion does not depend on
    the case of the name, and a name that contains an excluded name is
    excluded. *)
Theorem excluded_by_lowercase_substring (target : string) :
  (excluded target = true <->
   exists e, e ∈ ["flatc"; "curl"; "gen_hpack_tables"; "protoc";
                  "grpc_cpp_plugin"; "test"; "vkclientzlib"] /\
             PyStr.contains e (PyStr.lower target) = true) /\
  excluded (PyStr.lower target) = excluded target /\
  (forall longer,
     PyStr.contains target longer = true -> excluded target = true ->
     excluded longer = true).
Proof.
  unfold excluded. split; [|split].
  - change (existsb (fun e => PyStr.contains e (PyStr.lower target))
              ["flatc"; "curl"; "gen_hpack_tables"; "protoc";
               "grpc_cpp_plugin"; "test"; "vkclientzlib"] = true <->
            exists e, e ∈ ["flatc"; "curl"; "gen_hpack_tables"; "protoc";
                           "grpc_cpp_plugin"; "test"; "vkclientzlib"] /\
                      PyStr.contains e (PyStr.lower target) = true).
    rewrite existsb_exists.
    split; intros (e & Hin & He); exists e; (split; [|done]);
      by apply list_elem_of_In.
  - by rewrite lower_idem.
  - intros longer Hsub. rewrite !existsb_exists.
    intros (x & Hin & Hx). exists x. split; [done|].
    eapply contains_trans; [exact Hx|]. by apply contains_lower.
Qed.

End Excluded.

(** * Running the command-line side *)

Section CliRun.
Context {A B : Type}.

Lemma cli_bind_Done (m : Cli.C A) (k : A -> Cli.C B) h t a t' :
  m h t = Cli.Done a t' -> Cli.bind m k h t = k a h t'.
Proof. unfold Cli.bind. by intros ->. Qed.

Lemma cli_bind_Exited (m : Cli.C A) (k : A -> Cli.C B) h t code t' :
  m h t = Cli.Exited code t' -> Cli.bind m k h t = Cli.Exited code t'.
Proof. unfold Cli.bind. by intros ->. Qed.

End CliRun.

Lemma cli_logger_Done lvl msg h t :
  Cli.logger lvl msg h t = Cli.Done tt (t ++ [Cli.Logged lvl msg]).
Proof. reflexivity. Qed.

Lemma cli_effect_Done e h t : Cli.effect e h t = Cli.Done tt (t ++ [e]).
Proof. reflexivity. Qed.

Lemma cli_host_Done {A} (f : Cli.Host -> A) h t : Cli.host f h t = Cli.Done (f h) t.
Proof. reflexivity. Qed.

Lemma cli_run_Done args h t :
  Cli.run args h t = Cli.Done (Cli.completes h args) (t ++ [Cli.Called args]).
Proof. reflexivity. Qed.

Lemma cli_ret_Done {A} (a : A) h t : Cli.ret a h t = Cli.Done a t.
Proof. reflexivity. Qed.

Ltac cli_ret := rewrite (cli_bind_Done _ _ _ _ _ _ (cli_ret_Done _ _ _)).
Ltac cli_step H := rewrite (cli_bind_Done _ _ _ _ _ _ H).
Ltac cli_logger := rewrite (cli_bind_Done _ _ _ _ _ _ (cli_logger_Done _ _ _ _)).
Ltac cli_effect := rewrite (cli_bind_Done _ _ _ _ _ _ (cli_effect_Done _ _ _)).
Ltac cli_host := rewrite (cli_bind_Done _ _ _ _ _ _ (cli_host_Done _ _ _)).
Ltac cli_run := rewrite (cli_bind_Done _ _ _ _ _ _ (cli_run_Done _ _ _)).

(** * The version of the release and the signing variables *)

Section Environment.

(** X15: [get_version_info_from_env] returns the four values exactly
    when the four variables are set and not empty, without any effect;
    when one of them is unset or empty, it logs one error and exits with
    status 1. *)
Theorem version_info_all_or_exit (h : Cli.Host) (t : list Cli.Effect) :
  let var n := Cli.environ h !! n in
  (forall major minor patch build_number,
     var "VERSION_MAJOR" = Some major -> var "VERSION_MINOR" = Some minor ->
     var "VERSION_PATCH" = Some patch -> var "BUILD_NUMBER" = Some build_number ->
     major <> "" -> minor <> "" -> patch <> "" -> build_number <> "" ->
     Cli.get_version_info_from_env h t
     = Cli.Done (major, minor, patch, build_number) t) /\
  (forall n,
     n ∈ ["VERSION_MAJOR"; "VERSION_MINOR"; "VERSION_PATCH"; "BUILD_NUMBER"] ->
     var n = None \/ var n = Some "" ->
     Cli.get_version_info_from_env h t
     = Cli.Exited 1 (t ++ [Cli.Logged ERROR Cli.MsgMissingVersionInfo])).
Proof.
  intros var. unfold Cli.get_version_info_from_env.
  do 4 cli_host. fold (var "VERSION_MAJOR") (var "VERSION_MINOR")
    (var "VERSION_PATCH") (var "BUILD_NUMBER").
  split.
  - intros major minor patch build_number -> -> -> -> HM Hm Hp Hb.
    apply String.eqb_neq in HM, Hm, Hp, Hb. simpl.
    by rewrite HM, Hm, Hp, Hb.
  - intros n Hn Hunset.
    assert (Cli.unset_or_empty (var n) = true) as Hn'
      by (by destruct Hunset as [-> | ->]).
    assert (Cli.unset_or_empty (var "VERSION_MAJOR")
            || Cli.unset_or_empty (var "VERSION_MINOR")
            || Cli.unset_or_empty (var "VERSION_PATCH")
            || Cli.unset_or_empty (var "BUILD_NUMBER") = true) as ->.
    { apply list_elem_of_In in Hn. simpl in Hn.
      destruct Hn as [<- | [<- | [<- | [<- | []]]]];
        rewrite Hn'; by rewrite ?orb_true_r. }
    by cli_logger.
Qed.

End Environment.

Lemma getenv_Some n v h t :
  Cli.environ h !! n = Some v -> Cli.getenv n h t = Cli.Done v t.
Proof. intros Hn. unfold Cli.getenv. cli_host. by rewrite Hn. Qed.

Lemma getenv_None n h t :
  Cli.environ h !! n = None ->
  Cli.getenv n h t = Cli.Exited 1 (t ++ [Cli.Logged ERROR (Cli.MsgEnvNotSet n)]).
Proof. intros Hn. unfold Cli.getenv. cli_host. rewrite Hn. by cli_logger. Qed.

Lemma sign_files_Done files values h t :
  signing_in_env h values ->
  Cli.sign_files files h t
  = Cli.Done tt
      (t ++ [Cli.Logged INFO (Cli.MsgSigning files);
             Cli.Called (signtool_command values files)]
         ++ (if Z.eqb (Cli.completes h (signtool_command values files)).1 0 then []
             else [Cli.Logged ERROR
                     (Cli.MsgSigntoolReturned
                        (Cli.completes h (signtool_command values files)).1)])).
Proof.
  unfold signing_in_env, SIGNING_VARIABLES. intros Hv.
  destruct values as [|v1 [|v2 [|v3 [|v4 [|v5 [|v6 values]]]]]]; try discriminate Hv.
  injection Hv as H1 H2 H3 H4 H5.
  unfold Cli.sign_files.
  cli_step (getenv_Some _ _ h t H1). cli_step (getenv_Some _ _ h t H2).
  cli_step (getenv_Some _ _ h t H3). cli_step (getenv_Some _ _ h t H4).
  cli_step (getenv_Some _ _ h t H5).
  cli_logger. cbv zeta. cli_run.
  change (["AzureSignTool"; "sign"; "-kvu"; v1; "-kvi"; v2; "-kvs"; v3;
           "-kvt"; v4; "-kvc"; v5; "-tr"; "http://timestamp.digicert.com"; "-v"]
          ++ files) with (signtool_command [v1; v2; v3; v4; v5] files).
  destruct (Z.eqb (Cli.completes h (signtool_command [v1; v2; v3; v4; v5] files)).1 0).
  - unfold negb, Cli.ret. by rewrite <- !app_assoc.
  - unfold negb. rewrite cli_logger_Done. by rewrite <- !app_assoc.
Qed.

(** * Traces *)

Lemma calls_of_app t1 t2 : calls_of (t1 ++ t2) = calls_of t1 ++ calls_of t2.
Proof. apply omap_app. Qed.

Lemma chdirs_of_app t1 t2 : chdirs_of (t1 ++ t2) = chdirs_of t1 ++ chdirs_of t2.
Proof. apply omap_app. Qed.

Lemma records_only_calls es : records_only es -> calls_of es = [].
Proof.
  induction 1 as [|e es (lvl & msg & ->) _ IH]; [done|]. exact IH.
Qed.

Lemma records_only_chdirs es : records_only es -> chdirs_of es = [].
Proof.
  induction 1 as [|e es (lvl & msg & ->) _ IH]; [done|]. exact IH.
Qed.

Lemma records_only_app es1 es2 :
  records_only es1 -> records_only es2 -> records_only (es1 ++ es2).
Proof. apply Forall_app_2. Qed.

Lemma records_only_one lvl msg : records_only [Cli.Logged lvl msg].
Proof. apply Forall_cons_2; [by eexists _, _ | apply Forall_nil_2]. Qed.

Lemma should_exclude_from_install_Done target h t :
  exists es,
    Cli.should_exclude_from_install target h t
    = Cli.Done (excluded target) (t ++ es) /\ records_only es.
Proof.
  unfold Cli.should_exclude_from_install. destruct (excluded target).
  - eexists. cli_logger. split; [done|]. apply records_only_one.
  - exists []. rewrite app_nil_r. split; [done|]. apply Forall_nil_2.
Qed.

Lemma collect_file_Done root filename acc h t :
  exists es,
    Cli.collect_file root filename acc h t
    = Cli.Done (acc ++ (if is_binary root filename && negb (excluded filename)
                        then [Cli.as_posix h (root +:+ "/" +:+ filename)]
                        else []))
        (t ++ es) /\ records_only es.
Proof.
  unfold Cli.collect_file, is_binary. cbv zeta.
  destruct (bool_decide _).
  - destruct (should_exclude_from_install_Done filename h t) as (es & He & Hes).
    exists es. cli_step He. split; [|done].
    destruct (excluded filename); simpl.
    + by rewrite app_nil_r.
    + by cli_host.
  - exists []. rewrite !app_nil_r. split; [done|]. apply Forall_nil_2.
Qed.

Lemma collect_files_Done root files acc h t :
  exists es,
    Cli.collect_files root files acc h t
    = Cli.Done (acc ++ map (fun filename => Cli.as_posix h (root +:+ "/" +:+ filename))
                         (List.filter (fun filename =>
                                    is_binary root filename && negb (excluded filename))
                            files))
        (t ++ es) /\ records_only es.
Proof.
  revert acc t. induction files as [|filename files IH]; intros acc t.
  - exists []. rewrite !app_nil_r. split; [done|]. apply Forall_nil_2.
  - destruct (collect_file_Done root filename acc h t) as (es1 & H1 & Hes1).
    destruct (IH (acc ++ (if is_binary root filename && negb (excluded filename)
                          then [Cli.as_posix h (root +:+ "/" +:+ filename)]
                          else [])) (t ++ es1)) as (es2 & H2 & Hes2).
    exists (es1 ++ es2). split; [|by apply records_only_app].
    change (Cli.collect_files root (filename :: files) acc)
      with (Cli.bind (Cli.collect_file root filename acc)
              (fun acc' => Cli.collect_files root files acc')).
    cli_step H1. rewrite H2, <- !app_assoc. f_equal. f_equal.
    simpl List.filter. by destruct (is_binary root filename && negb (excluded filename)).
Qed.

Lemma collect_roots_Done roots acc h t :
  exists es,
    Cli.collect_roots roots acc h t = Cli.Done (acc ++ binaries_of h roots) (t ++ es)
    /\ records_only es.
Proof.
  revert acc t. induction roots as [|[root files] roots IH]; intros acc t.
  - exists []. rewrite !app_nil_r. split; [done|]. apply Forall_nil_2.
  - destruct (collect_files_Done root files acc h t) as (es1 & H1 & Hes1).
    destruct (IH (acc ++ map (fun filename => Cli.as_posix h (root +:+ "/" +:+ filename))
                          (List.filter (fun filename =>
                                     is_binary root filename && negb (excluded filename))
                             files))
                (t ++ es1)) as (es2 & H2 & Hes2).
    exists (es1 ++ es2). split; [|by apply records_only_app].
    change (Cli.collect_roots ((root, files) :: roots) acc)
      with (Cli.bind (Cli.collect_files root files acc)
              (fun acc' => Cli.collect_roots roots acc')).
    cli_step H1. by rewrite H2, <- !app_assoc.
Qed.

(** * Signing *)

Section Signing.

(** X16: [sign_files] runs the signing tool once when the five variables
    are set, and a tool that fails is only reported: the function
    returns all the same.  When one of the five variables is unset the
    script exits with status 1 on the first such variable, before the
    tool is run. *)
Theorem sign_files_reports_tool_failure (files : list string)
    (h : Cli.Host) (t : list Cli.Effect) :
  (forall values,
     signing_in_env h values ->
     exists es,
       Cli.sign_files files h t = Cli.Done tt (t ++ es) /\
       calls_of es = [signtool_command values files] /\
       (Cli.Logged ERROR
          (Cli.MsgSigntoolReturned
             (Cli.completes h (signtool_command values files)).1) ∈ es
        <-> (Cli.completes h (signtool_command values files)).1 <> 0)) /\
  (forall n,
     n ∈ SIGNING_VARIABLES -> Cli.environ h !! n = None ->
     exists before n' after,
       SIGNING_VARIABLES = before ++ n' :: after /\
       Forall (fun v => is_Some (Cli.environ h !! v)) before /\
       Cli.environ h !! n' = None /\
       Cli.sign_files files h t
       = Cli.Exited 1 (t ++ [Cli.Logged ERROR (Cli.MsgEnvNotSet n')])).
Proof.
  split.
  - intros values Hv. eexists. split; [by apply sign_files_Done|].
    destruct (Z.eqb_spec (Cli.completes h (signtool_command values files)).1 0)
      as [-> | Hne].
    + split; [done|]. split; [|done].
      rewrite list_elem_of_In. simpl. intros [H | [H | []]]; discriminate H.
    + split; [done|]. split; [done|]. intros _.
      rewrite list_elem_of_In. simpl. auto.
  - intros n Hn Hnone. unfold SIGNING_VARIABLES in *. unfold Cli.sign_files.
    destruct (Cli.environ h !! "ZD_CODE_SIGN_AZURE_KEY_VAULT_URL")
      as [v1|] eqn:H1.
    2:{ eexists (take 0 SIGNING_VARIABLES), _, (drop 1 SIGNING_VARIABLES).
        split; [reflexivity|]. split; [repeat apply Forall_cons_2; eauto|].
        split; [exact H1|].
        by rewrite (cli_bind_Exited _ _ _ _ _ _ (getenv_None _ h _ H1)). }
    cli_step (getenv_Some _ _ h t H1).
    destruct (Cli.environ h !! "ZD_CODE_SIGN_AZURE_KEY_VAULT_CLIENT_ID")
      as [v2|] eqn:H2.
    2:{ eexists (take 1 SIGNING_VARIABLES), _, (drop 2 SIGNING_VARIABLES).
        split; [reflexivity|]. split; [repeat apply Forall_cons_2; eauto|].
        split; [exact H2|].
        by rewrite (cli_bind_Exited _ _ _ _ _ _ (getenv_None _ h _ H2)). }
    cli_step (getenv_Some _ _ h t H2).
    destruct (Cli.environ h !! "ZD_CODE_SIGN_AZURE_KEY_VAULT_CLIENT_SECRET")
      as [v3|] eqn:H3.
    2:{ eexists (take 2 SIGNING_VARIABLES), _, (drop 3 SIGNING_VARIABLES).
        split; [reflexivity|]. split; [repeat apply Forall_cons_2; eauto|].
        split; [exact H3|].
        by rewrite (cli_bind_Exited _ _ _ _ _ _ (getenv_None _ h _ H3)). }
    cli_step (getenv_Some _ _ h t H3).
    destruct (Cli.environ h !! "ZD_CODE_SIGN_AZURE_TENANT_ID")
      as [v4|] eqn:H4.
    2:{ eexists (take 3 SIGNING_VARIABLES), _, (drop 4 SIGNING_VARIABLES).
        split; [reflexivity|]. split; [repeat apply Forall_cons_2; eauto|].
        split; [exact H4|].
        by rewrite (cli_bind_Exited _ _ _ _ _ _ (getenv_None _ h _ H4)). }
    cli_step (getenv_Some _ _ h t H4).
    destruct (Cli.environ h !! "ZD_CODE_SIGN_AZURE_KEY_VAULT_CERT_NAME")
      as [v5|] eqn:H5.
    2:{ eexists (take 4 SIGNING_VARIABLES), _, (drop 5 SIGNING_VARIABLES).
        split; [reflexivity|]. split; [repeat apply Forall_cons_2; eauto|].
        split; [exact H5|].
        by rewrite (cli_bind_Exited _ _ _ _ _ _ (getenv_None _ h _ H5)). }
    cli_step (getenv_Some _ _ h t H5).
    exfalso. apply list_elem_of_In in Hn. simpl in Hn.
    destruct Hn as [<- | [<- | [<- | [<- | [<- | []]]]]]; congruence.
Qed.

(** X17: [sign_binaries] hands to the signing tool, in one command, the
    files of the walk that have the suffix [.exe] or [.dll] and whose
    name is not excluded, in the order of the walk; the tool is run once
    also when no file is selected, and nothing else is run. *)
Theorem sign_binaries_signs_selected (folder : string) (values : list string)
    (h : Cli.Host) (t : list Cli.Effect) :
  signing_in_env h values ->
  exists es,
    Cli.sign_binaries folder h t = Cli.Done tt (t ++ es) /\
    calls_of es
    = [signtool_command values (binaries_of h (Cli.walk h folder))] /\
    chdirs_of es = [].
Proof.
  intros Hv. unfold Cli.sign_binaries. cli_logger. cli_host.
  destruct (collect_roots_Done (Cli.walk h folder) [] h
              (t ++ [Cli.Logged INFO (Cli.MsgSigningInside folder)]))
    as (es & He & Hes).
  cli_step He. rewrite (sign_files_Done _ values _ _ Hv).
  eexists. split; [by rewrite <- !app_assoc|].
  rewrite !calls_of_app, !chdirs_of_app.
  rewrite (records_only_calls es Hes), (records_only_chdirs es Hes).
  change ([] ++ binaries_of h (Cli.walk h folder))
    with (binaries_of h (Cli.walk h folder)).
  by destruct (Z.eqb _ 0).
Qed.

End Signing.

(** * Publishing a release *)

Lemma get_version_info_from_env_Done major minor patch build_number h t :
  version_in_env h major minor patch build_number ->
  Cli.get_version_info_from_env h t
  = Cli.Done (major, minor, patch, build_number) t.
Proof.
  intros (HM & Hm & Hp & Hb & HM' & Hm' & Hp' & Hb').
  unfold Cli.get_version_info_from_env. do 4 cli_host.
  rewrite HM, Hm, Hp, Hb. apply String.eqb_neq in HM', Hm', Hp', Hb'.
  simpl. by rewrite HM', Hm', Hp', Hb'.
Qed.

Lemma log_artifacts_Done artifacts h t :
  exists es, Cli.log_artifacts artifacts h t = Cli.Done tt (t ++ es)
             /\ records_only es.
Proof.
  revert t. induction artifacts as [|path rest IH]; intros t.
  - exists []. rewrite app_nil_r. split; [done|]. apply Forall_nil_2.
  - destruct (IH (t ++ [Cli.Logged INFO (Cli.MsgReleaseArtifact path)]))
      as (es & He & Hes).
    exists ([Cli.Logged INFO (Cli.MsgReleaseArtifact path)] ++ es).
    split; [|by apply records_only_app; [apply records_only_one|]].
    change (Cli.log_artifacts (path :: rest))
      with (Cli.bind (Cli.logger INFO (Cli.MsgReleaseArtifact path))
              (fun _ => Cli.log_artifacts rest)).
    cli_logger. by rewrite He, <- app_assoc.
Qed.

Lemma gh_arguments_Done tag artifacts release_notes title target_branch
    release_repo h t :
  exists es,
    Cli.gh_arguments tag artifacts release_notes title target_branch
      release_repo h t
    = Cli.Done (gh_command tag artifacts release_notes title target_branch
                  release_repo) (t ++ es)
    /\ records_only es.
Proof.
  unfold Cli.gh_arguments, gh_command. cbv zeta.
  destruct (String.eqb target_branch ""), (String.eqb release_repo "");
    unfold negb, Cli.bind, Cli.logger, Cli.effect, Cli.ret; cbv beta iota;
    (eexists; split;
     [rewrite <- ?app_assoc; simpl; reflexivity
     | repeat apply Forall_cons_2; try apply Forall_nil_2; by eexists _, _]).
Qed.

Lemma publish_commands_cons path paths major minor patch build_number dry :
  publish_commands (path :: paths) major minor patch build_number dry
  = (if Py.startswith (Py.basename path)
          ("Nodos-" +:+ Cli.version_string major minor patch build_number)
     then [Cli.nosman_arguments path
             (Cli.dist_key_of
                ("Nodos-" +:+ Cli.version_string major minor patch build_number)
                (Py.basename path))
             major minor patch build_number dry]
     else [])
    ++ publish_commands paths major minor patch build_number dry.
Proof.
  unfold publish_commands. cbv zeta. simpl List.filter.
  by destruct (Py.startswith _ _).
Qed.

Lemma publish_artifacts_cons path paths major minor patch build_number dry h t :
  Cli.publish_artifacts (path :: paths) major minor patch build_number dry h t
  = if Py.startswith (Py.basename path)
         ("Nodos-" +:+ Cli.version_string major minor patch build_number)
    then
      let args :=
        Cli.nosman_arguments path
          (Cli.dist_key_of
             ("Nodos-" +:+ Cli.version_string major minor patch build_number)
             (Py.basename path))
          major minor patch build_number dry in
      let t' := t ++ [Cli.Logged INFO Cli.MsgRunningPublish;
                      Cli.Logged INFO (Cli.MsgPublishArgs args);
                      Cli.Called args] in
      if Z.eqb (Cli.completes h args).1 0 then
        Cli.publish_artifacts paths major minor patch build_number dry h t'
      else
        Cli.Exited (Cli.completes h args).1
          (t' ++ [Cli.Logged ERROR (Cli.MsgPublishReturned (Cli.completes h args).1)])
    else Cli.publish_artifacts paths major minor patch build_number dry h t.
Proof.
  change (Cli.publish_artifacts (path :: paths) major minor patch build_number dry)
    with
    (let nodos_zip_prefix :=
       "Nodos-" +:+ Cli.version_string major minor patch build_number in
     let file_name := Py.basename path in
     if negb (Py.startswith file_name nodos_zip_prefix) then
       Cli.publish_artifacts paths major minor patch build_number dry
     else
       let dist_key := Cli.dist_key_of nodos_zip_prefix file_name in
       Cli.bind (Cli.logger INFO Cli.MsgRunningPublish) (fun _ =>
       let nosman_args :=
         Cli.nosman_arguments path dist_key major minor patch build_number dry in
       Cli.bind (Cli.logger INFO (Cli.MsgPublishArgs nosman_args)) (fun _ =>
       Cli.bind (Cli.run nosman_args) (fun result =>
       if negb (Z.eqb result.1 0) then
         Cli.bind (Cli.logger ERROR (Cli.MsgPublishReturned result.1))
           (fun _ => Cli.exit result.1)
       else
         Cli.publish_artifacts paths major minor patch build_number dry)))).
  cbv zeta. destruct (Py.startswith _ _); unfold negb at 1; [|done].
  do 2 cli_logger. cli_run. rewrite <- !app_assoc.
  destruct (Z.eqb _ 0); unfold negb; [done|].
  cli_logger. unfold Cli.exit. by rewrite <- !app_assoc.
Qed.

Lemma publish_artifacts_Done paths major minor patch build_number dry h t :
  (forall args,
     args ∈ publish_commands paths major minor patch build_number dry ->
     (Cli.completes h args).1 = 0) ->
  exists es,
    Cli.publish_artifacts paths major minor patch build_number dry h t
    = Cli.Done tt (t ++ es) /\
    calls_of es = publish_commands paths major minor patch build_number dry /\
    chdirs_of es = [].
Proof.
  revert t. induction paths as [|path paths IH]; intros t Hok.
  - exists []. by rewrite app_nil_r.
  - rewrite publish_artifacts_cons. rewrite publish_commands_cons in Hok |- *.
    destruct (Py.startswith _ _).
    + cbv zeta. rewrite (Hok _ (list_elem_of_here _ _)). simpl Z.eqb. cbv iota.
      destruct (IH (t ++ [Cli.Logged INFO Cli.MsgRunningPublish;
                         Cli.Logged INFO (Cli.MsgPublishArgs
                           (Cli.nosman_arguments path
                              (Cli.dist_key_of
                                 ("Nodos-" +:+ Cli.version_string major minor patch
                                                 build_number)
                                 (Py.basename path))
                              major minor patch build_number dry));
                         Cli.Called
                           (Cli.nosman_arguments path
                              (Cli.dist_key_of
                                 ("Nodos-" +:+ Cli.version_string major minor patch
                                                 build_number)
                                 (Py.basename path))
                              major minor patch build_number dry)]))
        as (es & He & Hc & Hd).
      { intros args Hargs. apply Hok. by apply list_elem_of_further. }
      eexists. rewrite He, <- app_assoc. split; [done|].
      rewrite calls_of_app, chdirs_of_app, Hc, Hd. done.
    + apply IH. intros args Hargs. by apply Hok.
Qed.

Lemma publish_artifacts_Exited paths major minor patch build_number dry h t
    ok bad rest :
  publish_commands paths major minor patch build_number dry = ok ++ bad :: rest ->
  (forall args, args ∈ ok -> (Cli.completes h args).1 = 0) ->
  (Cli.completes h bad).1 <> 0 ->
  exists es,
    Cli.publish_artifacts paths major minor patch build_number dry h t
    = Cli.Exited (Cli.completes h bad).1 (t ++ es) /\
    calls_of es = ok ++ [bad] /\
    chdirs_of es = [].
Proof.
  revert t ok. induction paths as [|path paths IH]; intros t ok Hcmds Hok Hbad.
  - by destruct ok.
  - rewrite publish_artifacts_cons. rewrite publish_commands_cons in Hcmds.
    destruct (Py.startswith _ _); [|by apply IH].
    cbv zeta. destruct ok as [|first ok].
    + injection Hcmds as -> Hrest.
      apply Z.eqb_neq in Hbad. rewrite Hbad. eexists.
      rewrite <- app_assoc. split; [done|]. done.
    + injection Hcmds as -> Hrest.
      rewrite (Hok _ (list_elem_of_here _ _)). simpl Z.eqb. cbv iota.
      destruct (IH (t ++ [Cli.Logged INFO Cli.MsgRunningPublish;
                         Cli.Logged INFO (Cli.MsgPublishArgs first);
                         Cli.Called first])
                  ok Hrest) as (es & He & Hc & Hd); [|done|].
      { intros args Hargs. apply Hok. by apply list_elem_of_further. }
      eexists. rewrite He, <- app_assoc. split; [done|].
      rewrite calls_of_app, chdirs_of_app, Hc, Hd. done.
Qed.

Lemma run_dry_runnable_Done args dry h t :
  Cli.run_dry_runnable args dry h t
  = Cli.Done (if dry then (0, "") else Cli.completes h args)
      (t ++ [if dry then Cli.Logged INFO (Cli.MsgDryRun args) else Cli.Called args]).
Proof. by destruct dry. Qed.

Section AddsOnly.
Context {A B : Type} (P : Cli.Effect -> Prop).

Lemma adds_only_bind (m : Cli.C A) (k : A -> Cli.C B) :
  adds_only P m -> (forall a, adds_only P (k a)) -> adds_only P (Cli.bind m k).
Proof.
  intros Hm Hk h t. destruct (Hm h t) as (es1 & E1 & F1).
  unfold Cli.bind. destruct (m h t) as [a t'|code t']; simpl in E1; subst t'.
  - destruct (Hk a h (t ++ es1)) as (es2 & E2 & F2).
    exists (es1 ++ es2). rewrite E2, app_assoc. split; [done|].
    by apply Forall_app_2.
  - by exists es1.
Qed.

Lemma adds_only_ret (a : A) : adds_only P (Cli.ret a).
Proof. intros h t. exists []. by rewrite app_nil_r. Qed.

Lemma adds_only_exit code : adds_only P (@Cli.exit A code).
Proof. intros h t. exists []. by rewrite app_nil_r. Qed.

Lemma adds_only_host (f : Cli.Host -> A) : adds_only P (Cli.host f).
Proof. intros h t. exists []. by rewrite app_nil_r. Qed.

End AddsOnly.

Lemma adds_only_effect (P : Cli.Effect -> Prop) e :
  P e -> adds_only P (Cli.effect e).
Proof. intros He h t. exists [e]. split; [done|]. by apply Forall_cons_2. Qed.

Lemma adds_only_records {A} (m : Cli.C A) :
  (forall h t, exists es, Cli.trace_of (m h t) = t ++ es /\ records_only es) ->
  adds_only dry_run_effect m.
Proof.
  intros Hm h t. destruct (Hm h t) as (es & He & Hes). exists es.
  split; [done|]. eapply Forall_impl; [exact Hes|].
  by intros e (lvl & msg & ->).
Qed.

Lemma adds_only_publish_artifacts paths major minor patch build_number :
  adds_only dry_run_effect
    (Cli.publish_artifacts paths major minor patch build_number true).
Proof.
  induction paths as [|path paths IH]; [apply adds_only_ret|].
  intros h t. rewrite publish_artifacts_cons.
  destruct (Py.startswith _ _); [|apply IH]. cbv zeta.
  set (args := Cli.nosman_arguments path _ major minor patch build_number true).
  assert (Forall dry_run_effect
            [Cli.Logged INFO Cli.MsgRunningPublish;
             Cli.Logged INFO (Cli.MsgPublishArgs args); Cli.Called args]) as Hes.
  { repeat apply Forall_cons_2; try apply Forall_nil_2; try exact I.
    by eexists _, _, _, _, _, _. }
  destruct (Z.eqb _ 0).
  - destruct (IH h (t ++ [Cli.Logged INFO Cli.MsgRunningPublish;
                         Cli.Logged INFO (Cli.MsgPublishArgs args);
                         Cli.Called args])) as (es & He & HP).
    eexists. rewrite He, <- app_assoc. split; [done|]. by apply Forall_app_2.
  - eexists. simpl Cli.trace_of. rewrite <- app_assoc. split; [done|].
    apply Forall_app_2; [done|]. by apply Forall_cons_2.
Qed.

Section Release.
Variables gh_release_repo gh_release_notes gh_release_title_postfix
  gh_release_target_branch : string.
Variable h : Cli.Host.
Variables major minor patch build_number : string.

Lemma create_nodos_release_upto_gh dry skip t :
  version_in_env h major minor patch build_number ->
  exists es,
    records_only es /\
    Cli.create_nodos_release gh_release_repo gh_release_notes
      gh_release_title_postfix gh_release_target_branch dry skip h t
    = Cli.bind
        (Cli.run_dry_runnable
           (release_command h gh_release_repo gh_release_notes
              gh_release_title_postfix gh_release_target_branch
              major minor patch build_number) dry)
        (fun result =>
        if negb (Z.eqb result.1 0) then
          Cli.bind (Cli.effect (Cli.Printed result.2)) (fun _ =>
          Cli.bind (Cli.logger ERROR (Cli.MsgGhReturned result.1)) (fun _ =>
          Cli.exit result.1))
        else
          Cli.bind (Cli.logger INFO Cli.MsgGhSuccessful) (fun _ =>
          if skip then Cli.ret tt
          else
            Cli.bind (Cli.host (fun h' => map (Cli.abspath h') (found_artifacts h)))
              (fun artifacts_abspath =>
            Cli.bind (Cli.host Cli.getcwd) (fun cwd =>
            Cli.bind (Cli.effect (Cli.Chdir STAGING_FOLDER)) (fun _ =>
            Cli.bind (Cli.publish_artifacts artifacts_abspath major minor patch
                        build_number dry) (fun _ =>
            Cli.effect (Cli.Chdir cwd)))))))
        h (t ++ es).
Proof.
  intros Hv. unfold Cli.create_nodos_release, Cli.get_release_artifacts.
  cli_host.
  destruct (log_artifacts_Done (found_artifacts h) h t) as (es1 & H1 & Hes1).
  cli_step H1.
  cli_step (get_version_info_from_env_Done _ _ _ _ h (t ++ es1) Hv).
  cbv beta iota zeta.
  destruct (gh_arguments_Done
              ("v" +:+ Cli.version_string major minor patch build_number)
              (found_artifacts h) gh_release_notes
              (("v" +:+ Cli.version_string major minor patch build_number)
               +:+ gh_release_title_postfix)
              gh_release_target_branch gh_release_repo h (t ++ es1))
    as (es2 & H2 & Hes2).
  cli_step H2. cli_logger.
  exists (es1 ++ es2 ++ [Cli.Logged INFO (Cli.MsgPushing gh_release_repo)]).
  split.
  - apply records_only_app; [done|]. apply records_only_app; [done|].
    apply records_only_one.
  - by rewrite <- !app_assoc.
Qed.

(** X18: when [gh] fails, its stderr is printed and the script exits
    with the code of [gh]: no artifact is published and the working
    directory is not changed. *)
Theorem release_gh_failure_exits (skip : bool) (t : list Cli.Effect) :
  let gh := release_command h gh_release_repo gh_release_notes
              gh_release_title_postfix gh_release_target_branch
              major minor patch build_number in
  version_in_env h major minor patch build_number ->
  (Cli.completes h gh).1 <> 0 ->
  exists es,
    Cli.create_nodos_release gh_release_repo gh_release_notes
      gh_release_title_postfix gh_release_target_branch false skip h t
    = Cli.Exited (Cli.completes h gh).1 (t ++ es) /\
    calls_of es = [gh] /\
    chdirs_of es = [] /\
    Cli.Printed (Cli.completes h gh).2 ∈ es.
Proof.
  intros gh Hv Hrc.
  destruct (create_nodos_release_upto_gh false skip t Hv) as (es & Hes & ->). fold gh.
  cli_step (run_dry_runnable_Done gh false h (t ++ es)). cbv iota.
  apply Z.eqb_neq in Hrc. rewrite Hrc. unfold negb.
  cli_effect. cli_logger. unfold Cli.exit.
  exists (es ++ [Cli.Called gh; Cli.Printed (Cli.completes h gh).2;
                 Cli.Logged ERROR (Cli.MsgGhReturned (Cli.completes h gh).1)]).
  split; [by rewrite <- !app_assoc|].
  rewrite calls_of_app, chdirs_of_app.
  rewrite (records_only_calls es Hes), (records_only_chdirs es Hes).
  split; [done|]. split; [done|].
  apply elem_of_app. right. apply list_elem_of_In. simpl. auto.
Qed.

(** X19: in a dry run the only commands run are those of
    [nosman publish], each with [--dry-run]: [gh] is never run,
    whatever the environment and the outcome of the commands. *)
Theorem release_dry_run_commands (skip : bool) :
  adds_only dry_run_effect
    (Cli.create_nodos_release gh_release_repo gh_release_notes
       gh_release_title_postfix gh_release_target_branch true skip).
Proof.
  unfold Cli.create_nodos_release.
  apply adds_only_bind; [apply adds_only_host|]. intros artifacts.
  apply adds_only_bind.
  { apply adds_only_records. intros h' t.
    destruct (log_artifacts_Done artifacts h' t) as (es & -> & Hes). by exists es. }
  intros _. apply adds_only_bind.
  { unfold Cli.get_version_info_from_env.
    repeat (apply adds_only_bind; [apply adds_only_host|]; intros ?).
    destruct (_ || _).
    - apply adds_only_bind; [by apply adds_only_effect | intros _; apply adds_only_exit].
    - apply adds_only_ret. }
  intros [[[M m] p] b]. cbv zeta.
  apply adds_only_bind.
  { apply adds_only_records. intros h' t.
    destruct (gh_arguments_Done ("v" +:+ Cli.version_string M m p b) artifacts
                gh_release_notes
                (("v" +:+ Cli.version_string M m p b) +:+ gh_release_title_postfix)
                gh_release_target_branch gh_release_repo h' t)
      as (es & -> & Hes). by exists es. }
  intros ghargs.
  apply adds_only_bind; [by apply adds_only_effect|]. intros _.
  apply adds_only_bind.
  { apply adds_only_bind; [by apply adds_only_effect | intros _; apply adds_only_ret]. }
  intros result. destruct (negb _).
  - apply adds_only_bind; [by apply adds_only_effect|]. intros _.
    apply adds_only_bind; [by apply adds_only_effect|]. intros _.
    apply adds_only_exit.
  - apply adds_only_bind; [by apply adds_only_effect|]. intros _.
    destruct skip; [apply adds_only_ret|].
    apply adds_only_bind; [apply adds_only_host|]. intros artifacts_abspath.
    apply adds_only_bind; [apply adds_only_host|]. intros cwd.
    apply adds_only_bind; [by apply adds_only_effect|]. intros _.
    apply adds_only_bind; [apply adds_only_publish_artifacts|]. intros _.
    by apply adds_only_effect.
Qed.

(** X20: a release that goes well.  With [gh] succeeding (or skipped by
    the dry run) and every [nosman publish] succeeding, the script
    returns; the commands run are [gh] (unless dry) followed, unless
    publishing is skipped, by one [nosman publish] for each artifact
    whose name starts with [Nodos-<version>], in the order of the
    listing; publishing happens in the staging folder and the working
    directory is restored afterwards. *)
Theorem release_success (dry skip : bool) (t : list Cli.Effect) :
  let gh := release_command h gh_release_repo gh_release_notes
              gh_release_title_postfix gh_release_target_branch
              major minor patch build_number in
  version_in_env h major minor patch build_number ->
  (dry = false -> (Cli.completes h gh).1 = 0) ->
  (skip = false ->
   forall args,
     args ∈ published h major minor patch build_number dry ->
     (Cli.completes h args).1 = 0) ->
  exists es,
    Cli.create_nodos_release gh_release_repo gh_release_notes
      gh_release_title_postfix gh_release_target_branch dry skip h t
    = Cli.Done tt (t ++ es) /\
    calls_of es
    = (if dry then [] else [gh])
      ++ (if skip then [] else published h major minor patch build_number dry) /\
    chdirs_of es = (if skip then [] else [STAGING_FOLDER; Cli.getcwd h]).
Proof.
  intros gh Hv Hgh Hpub.
  destruct (create_nodos_release_upto_gh dry skip t Hv) as (es & Hes & ->). fold gh.
  cli_step (run_dry_runnable_Done gh dry h (t ++ es)).
  assert (Z.eqb (if dry then (0, "") else Cli.completes h gh).1 0 = true) as ->.
  { destruct dry; [done|]. apply Z.eqb_eq. by apply Hgh. }
  unfold negb at 1. cli_logger.
  assert (calls_of [if dry then Cli.Logged INFO (Cli.MsgDryRun gh)
                    else Cli.Called gh] = if dry then [] else [gh]) as Hc1
    by by destruct dry.
  assert (chdirs_of [if dry then Cli.Logged INFO (Cli.MsgDryRun gh)
                     else Cli.Called gh] = []) as Hd1
    by by destruct dry.
  destruct skip.
  - unfold Cli.ret. eexists. split; [by rewrite <- !app_assoc|].
    rewrite !calls_of_app, !chdirs_of_app, Hc1, Hd1.
    rewrite (records_only_calls es Hes), (records_only_chdirs es Hes).
    split; [|done]. by rewrite !app_nil_r.
  - do 2 cli_host. cli_effect.
    destruct (publish_artifacts_Done (map (Cli.abspath h) (found_artifacts h))
                major minor patch
                build_number dry h
                ((((t ++ es)
                   ++ [if dry then Cli.Logged INFO (Cli.MsgDryRun gh)
                       else Cli.Called gh])
                  ++ [Cli.Logged INFO Cli.MsgGhSuccessful])
                 ++ [Cli.Chdir STAGING_FOLDER]) (Hpub eq_refl))
      as (es3 & H3 & Hc3 & Hd3).
    cli_step H3. rewrite cli_effect_Done.
    eexists. split; [by rewrite <- !app_assoc|].
    rewrite !calls_of_app, !chdirs_of_app, Hc1, Hd1, Hc3, Hd3.
    rewrite (records_only_calls es Hes), (records_only_chdirs es Hes).
    split; [by rewrite !app_nil_r | done].
Qed.

(** X21: when a [nosman publish] fails, the script exits with its code;
    the artifacts that come after it are not published and the working
    directory is left in the staging folder. *)
Theorem release_publish_failure_exits (dry : bool) (t : list Cli.Effect)
    (ok : list (list string)) (bad : list string) (rest : list (list string)) :
  let gh := release_command h gh_release_repo gh_release_notes
              gh_release_title_postfix gh_release_target_branch
              major minor patch build_number in
  version_in_env h major minor patch build_number ->
  (dry = false -> (Cli.completes h gh).1 = 0) ->
  published h major minor patch build_number dry = ok ++ bad :: rest ->
  (forall args, args ∈ ok -> (Cli.completes h args).1 = 0) ->
  (Cli.completes h bad).1 <> 0 ->
  exists es,
    Cli.create_nodos_release gh_release_repo gh_release_notes
      gh_release_title_postfix gh_release_target_branch dry false h t
    = Cli.Exited (Cli.completes h bad).1 (t ++ es) /\
    calls_of es = (if dry then [] else [gh]) ++ ok ++ [bad] /\
    chdirs_of es = [STAGING_FOLDER].
Proof.
  intros gh Hv Hgh Hcmds Hok Hbad.
  destruct (create_nodos_release_upto_gh dry false t Hv) as (es & Hes & ->). fold gh.
  cli_step (run_dry_runnable_Done gh dry h (t ++ es)).
  assert (Z.eqb (if dry then (0, "") else Cli.completes h gh).1 0 = true) as ->.
  { destruct dry; [done|]. apply Z.eqb_eq. by apply Hgh. }
  unfold negb at 1. cli_logger.
  assert (calls_of [if dry then Cli.Logged INFO (Cli.MsgDryRun gh)
                    else Cli.Called gh] = if dry then [] else [gh]) as Hc1
    by by destruct dry.
  assert (chdirs_of [if dry then Cli.Logged INFO (Cli.MsgDryRun gh)
                     else Cli.Called gh] = []) as Hd1
    by by destruct dry.
  cbv iota. do 2 cli_host. cli_effect.
  destruct (publish_artifacts_Exited (map (Cli.abspath h) (found_artifacts h))
              major minor patch
              build_number dry h
              ((((t ++ es)
                 ++ [if dry then Cli.Logged INFO (Cli.MsgDryRun gh)
                     else Cli.Called gh])
                ++ [Cli.Logged INFO Cli.MsgGhSuccessful])
               ++ [Cli.Chdir STAGING_FOLDER]) ok bad rest Hcmds Hok Hbad)
    as (es3 & H3 & Hc3 & Hd3).
  rewrite (cli_bind_Exited _ _ _ _ _ _ H3).
  eexists. split; [by rewrite <- !app_assoc|].
  rewrite !calls_of_app, !chdirs_of_app, Hc1, Hd1, Hc3, Hd3.
  rewrite (records_only_calls es Hes), (records_only_chdirs es Hes).
  split; by rewrite ?app_nil_r.
Qed.

End Release.

(** * The names of the archives *)

Section ArchiveNames.

Lemma length_app_s (a b : string) :
  String.length (a +:+ b) = (String.length a + String.length b)%nat.
Proof. induction a as [|x a IH]; [done|]. simpl. by rewrite IH. Qed.

Lemma occurs_app c a b :
  Py.occurs c (a +:+ b) = Py.occurs c a || Py.occurs c b.
Proof.
  induction a as [|x a IH]; [done|]. simpl. by destruct (Ascii.eqb x c).
Qed.

Lemma prefix_app_l p b : String.prefix p (p +:+ b) = true.
Proof. apply prefix_iff. by exists b. Qed.

Lemma prefix_app_cancel a x y :
  String.prefix (a +:+ x) (a +:+ y) = String.prefix x y.
Proof.
  induction a as [|c a IH]; [done|].
  change (String.prefix (String c (a +:+ x)) (String c (a +:+ y))
          = String.prefix x y).
  rewrite prefix_cons_cons. by destruct (ascii_dec c c).
Qed.

Lemma prefix_app_split v p t :
  String.prefix v (p +:+ t) = true ->
  String.prefix v p = true \/
  exists v2, v = p +:+ v2 /\ String.prefix v2 t = true.
Proof.
  revert v. induction p as [|c p IH]; intros v Hv.
  - right. by exists v.
  - destruct v as [|d v]; [by left|].
    change (String.prefix (String d v) (String c (p +:+ t)) = true) in Hv.
    rewrite prefix_cons_cons in Hv |- *.
    destruct (ascii_dec d c) as [-> | Hne]; [|done].
    destruct (IH v Hv) as [Hp | (v2 & -> & Hv2)]; [by left|].
    right. by exists v2.
Qed.

Lemma prefix_occurs c v p :
  String.prefix v p = true -> Py.occurs c v = true -> Py.occurs c p = true.
Proof.
  intros (b & ->)%prefix_iff Hc. by rewrite occurs_app, Hc.
Qed.

(** A string that is a prefix of itself shifted by a non-empty [p] is
    made of the characters of [p]. *)
Lemma shifted_prefix_occurs x p c n :
  forall v s,
    (String.length v <= n)%nat ->
    String.prefix v (String x p +:+ v +:+ s) = true ->
    Py.occurs c v = true -> Py.occurs c (String x p) = true.
Proof.
  induction n as [|n IH]; intros v s Hlen Hpre Hc.
  - destruct v; [done | simpl in Hlen; lia].
  - destruct (prefix_app_split _ _ _ Hpre) as [Hp | (v2 & Hv & Hv2)].
    + by apply (prefix_occurs c v).
    + rewrite Hv, occurs_app in Hc. apply orb_true_iff in Hc as [Hc | Hc]; [done|].
      apply (IH v2 s); [| |done].
      * rewrite Hv, length_app_s in Hlen. simpl in Hlen. lia.
      * rewrite Hv in Hv2. by rewrite app_assoc_s in Hv2.
Qed.

Lemma version_string_dot major minor patch build_number :
  Py.occurs "." (Cli.version_string major minor patch build_number) = true.
Proof.
  unfold Cli.version_string. rewrite occurs_app.
  change (Py.occurs "." ("." +:+ minor +:+ "." +:+ patch +:+ ".b" +:+ build_number))
    with true.
  apply orb_true_r.
Qed.

Lemma sdk_archive_name_not_engine major minor patch build_number :
  Py.startswith (sdk_archive_name major minor patch build_number)
    ("Nodos-" +:+ Cli.version_string major minor patch build_number) = false.
Proof.
  unfold Py.startswith, sdk_archive_name.
  set (v := Cli.version_string major minor patch build_number).
  change ("Nodos-SDK-" +:+ v +:+ ".zip") with ("Nodos-" +:+ "SDK-" +:+ v +:+ ".zip").
  rewrite prefix_app_cancel.
  destruct (String.prefix v ("SDK-" +:+ v +:+ ".zip")) eqn:Hpre; [|done].
  assert (Py.occurs "." "SDK-" = true) as Hdot; [|done].
  apply (shifted_prefix_occurs _ _ _ (String.length v) v ".zip"); [lia|done|].
  apply version_string_dot.
Qed.

(** X22: the SDK archive that [package] makes, [Nodos-SDK-<version>.zip],
    is never handed to [nosman publish], whatever the four components of
    the version are: the loop passes over it. *)
Theorem sdk_archive_never_published (path : string) (rest : list string)
    (major minor patch build_number : string) (dry : bool)
    (h : Cli.Host) (t : list Cli.Effect) :
  Py.basename path = sdk_archive_name major minor patch build_number ->
  Cli.publish_artifacts (path :: rest) major minor patch build_number dry h t
  = Cli.publish_artifacts rest major minor patch build_number dry h t /\
  publish_commands (path :: rest) major minor patch build_number dry
  = publish_commands rest major minor patch build_number dry.
Proof.
  intros Hname.
  rewrite publish_artifacts_cons, publish_commands_cons, Hname.
  by rewrite sdk_archive_name_not_engine.
Qed.

Lemma drop_app a b : PyStr.drop (String.length a) (a +:+ b) = b.
Proof. induction a as [|x a IH]; [by destruct b | exact IH]. Qed.

Lemma cut_unfold sep s :
  PyStr.cut sep s
  = if String.prefix sep s then Some ("", PyStr.drop (String.length sep) s)
    else match s with
         | EmptyString => None
         | String c r =>
             match PyStr.cut sep r with
             | Some (a, b) => Some (String c a, b)
             | None => None
             end
         end.
Proof. by destruct s. Qed.

Lemma cut_absent c r s :
  Py.occurs c s = false -> PyStr.cut (String c r) s = None.
Proof.
  induction s as [|x s IH]; [done|]. intros Hc. simpl in Hc.
  destruct (Ascii.eqb_spec x c) as [-> | Hne]; [done|].
  rewrite cut_unfold, prefix_cons_cons.
  destruct (ascii_dec c x) as [-> | _]; [done|]. by rewrite IH.
Qed.

Lemma cut_first c r a b :
  Py.occurs c a = false ->
  PyStr.cut (String c r) (a +:+ String c r +:+ b) = Some (a, b).
Proof.
  induction a as [|x a IH]; intros Hc.
  - change ("" +:+ String c r +:+ b) with (String c r +:+ b).
    rewrite cut_unfold, prefix_app_l. by rewrite drop_app.
  - simpl in Hc. destruct (Ascii.eqb_spec x c) as [-> | Hne]; [done|].
    change (String x a +:+ String c r +:+ b)
      with (String x (a +:+ String c r +:+ b)).
    rewrite cut_unfold, prefix_cons_cons.
    destruct (ascii_dec c x) as [-> | _]; [done|]. by rewrite IH.
Qed.

Lemma cut_skip c r x s :
  x <> c ->
  PyStr.cut (String c r) (String x s)
  = match PyStr.cut (String c r) s with
    | Some (a, b) => Some (String x a, b)
    | None => None
    end.
Proof.
  intros Hne. rewrite cut_unfold, prefix_cons_cons.
  by destruct (ascii_dec c x) as [-> | _].
Qed.

Lemma bundle_marker_not_at_version v t :
  Py.occurs "-" v = false -> Py.occurs "." v = true ->
  String.prefix "bundle-" (v +:+ t) = false.
Proof.
  intros Hhyphen Hdot.
  destruct (String.prefix "bundle-" (v +:+ t)) eqn:Hpre; [|done].
  destruct (prefix_app_split _ _ _ Hpre) as [Hp | (v2 & Hv & _)].
  - by rewrite (prefix_occurs "-" "bundle-" v Hp eq_refl) in Hhyphen.
  - assert (Py.occurs "." "bundle-" = true) as Habs; [|done].
    by rewrite Hv, occurs_app, Hdot.
Qed.

Lemma dist_key_of_bundled major minor patch build_number dist_key :
  Py.occurs "-" (Cli.version_string major minor patch build_number) = false ->
  Py.occurs "-" dist_key = false ->
  Py.occurs "." dist_key = false ->
  Cli.dist_key_of ("Nodos-" +:+ Cli.version_string major minor patch build_number)
    (engine_archive_name major minor patch build_number dist_key true)
  = Some dist_key.
Proof.
  intros Hv Hk Hd. unfold Cli.dist_key_of, engine_archive_name, Py.startswith.
  set (v := Cli.version_string major minor patch build_number) in *.
  assert ("Nodos-" +:+ v +:+ ("-bundle-" +:+ dist_key) +:+ ".zip"
          = ("Nodos-" +:+ v +:+ "-bundle-") +:+ dist_key +:+ ".zip") as Hname
    by by rewrite !app_assoc_s.
  rewrite Hname at 1. rewrite prefix_app_l.
  assert (PyStr.cut "-bundle-"
            ("Nodos-" +:+ v +:+ ("-bundle-" +:+ dist_key) +:+ ".zip")
          = Some ("Nodos-" +:+ v, dist_key +:+ ".zip")) as Hcut.
  { change ("Nodos-" +:+ v +:+ ("-bundle-" +:+ dist_key) +:+ ".zip")
      with (String "N" (String "o" (String "d" (String "o" (String "s"
              (String "-" (v +:+ ("-bundle-" +:+ dist_key) +:+ ".zip"))))))).
    do 5 (rewrite cut_skip; [|done]).
    rewrite cut_unfold, prefix_cons_cons.
    destruct (ascii_dec "-" "-") as [_ | Hne]; [|done].
    rewrite (bundle_marker_not_at_version v _ Hv (version_string_dot _ _ _ _)).
    rewrite app_assoc_s. by rewrite (cut_first "-" "bundle-" v _ Hv). }
  unfold PyStr.split_1. rewrite Hcut. unfold PyStr.split_0 at 2.
  rewrite cut_absent; [|by rewrite occurs_app, Hk].
  simpl fmap. unfold PyStr.split_0.
  rewrite <- (app_nil_r_s (dist_key +:+ ".zip")), app_assoc_s.
  by rewrite (cut_first "." "zip" dist_key "" Hd).
Qed.

Lemma dist_key_of_plain major minor patch build_number dist_key :
  Cli.dist_key_of ("Nodos-" +:+ Cli.version_string major minor patch build_number)
    (engine_archive_name major minor patch build_number dist_key false)
  = None.
Proof.
  unfold Cli.dist_key_of, engine_archive_name, Py.startswith.
  change ("" +:+ ".zip") with ".zip".
  by rewrite <- !app_assoc_s, !prefix_app_cancel.
Qed.

Lemma engine_archive_name_engine major minor patch build_number dist_key is_bundled :
  Py.startswith (engine_archive_name major minor patch build_number dist_key is_bundled)
    ("Nodos-" +:+ Cli.version_string major minor patch build_number) = true.
Proof.
  unfold Py.startswith, engine_archive_name. rewrite <- app_assoc_s.
  apply prefix_app_l.
Qed.

(** X23: the key of the distribution survives the trip through the name
    of the archive.  For an archive named as [package] names it, the
    loop of [create_nodos_release] runs [nosman publish] under the name
    [nodos.bundle.<key>] when the distribution is bundled and under
    [nodos] when it is not, provided the version holds no hyphen and the
    key neither a hyphen nor a dot. *)
Theorem bundle_key_round_trip (path : string) (rest : list string)
    (major minor patch build_number dist_key : string) (is_bundled dry : bool)
    (h : Cli.Host) (t : list Cli.Effect) :
  Py.basename path
  = engine_archive_name major minor patch build_number dist_key is_bundled ->
  Py.occurs "-" (Cli.version_string major minor patch build_number) = false ->
  Py.occurs "-" dist_key = false ->
  Py.occurs "." dist_key = false ->
  let args :=
    Cli.nosman_arguments path (if is_bundled then Some dist_key else None)
      major minor patch build_number dry in
  let t' := t ++ [Cli.Logged INFO Cli.MsgRunningPublish;
                  Cli.Logged INFO (Cli.MsgPublishArgs args);
                  Cli.Called args] in
  Cli.publish_artifacts (path :: rest) major minor patch build_number dry h t
  = (if Z.eqb (Cli.completes h args).1 0 then
       Cli.publish_artifacts rest major minor patch build_number dry h t'
     else
       Cli.Exited (Cli.completes h args).1
         (t' ++ [Cli.Logged ERROR
                   (Cli.MsgPublishReturned (Cli.completes h args).1)])) /\
  nth_error args 5
  = Some ("nodos" +:+ (if is_bundled then ".bundle." +:+ dist_key else "")).
Proof.
  intros Hname Hv Hk Hd args t'. split; [|by destruct is_bundled].
  rewrite publish_artifacts_cons, Hname, engine_archive_name_engine.
  assert (Cli.dist_key_of
            ("Nodos-" +:+ Cli.version_string major minor patch build_number)
            (engine_archive_name major minor patch build_number dist_key is_bundled)
          = (if is_bundled then Some dist_key else None)) as ->; [|done].
  destruct is_bundled; [by apply dist_key_of_bundled | apply dist_key_of_plain].
Qed.

End ArchiveNames.

(** * Building nosman *)

Section BuildNosman.

(** X24: [build_nosman] exits with the code of [cargo] when the build
    fails, before [upx] is run and without going back to the working
    directory.  When the build succeeds [upx] is run on the binary, and
    whether it succeeds or not the function goes back to the working
    directory and returns the path of that binary under the source
    directory. *)
Theorem build_nosman_upx_optional (nosman_src_dir : string) (is_release : bool)
    (h : Cli.Host) (t : list Cli.Effect) :
  let cargo := ["cargo"; "build"; if is_release then "--release" else "--debug"] in
  let binary :=
    "target/" +:+ (if is_release then "release" else "debug") +:+ "/nosman"
    +:+ (if Cli.windows h then ".exe" else "") in
  ((Cli.completes h cargo).1 <> 0 ->
   exists es,
     Cli.build_nosman nosman_src_dir is_release h t
     = Cli.Exited (Cli.completes h cargo).1 (t ++ es) /\
     calls_of es = [cargo] /\ chdirs_of es = [nosman_src_dir]) /\
  ((Cli.completes h cargo).1 = 0 ->
   exists es,
     Cli.build_nosman nosman_src_dir is_release h t
     = Cli.Done (nosman_src_dir +:+ "/" +:+ binary) (t ++ es) /\
     calls_of es = [cargo; ["upx"; "--best"; binary]] /\
     chdirs_of es = [nosman_src_dir; Cli.getcwd h]).
Proof.
  intros cargo binary. unfold Cli.build_nosman.
  cli_logger. cli_host. cli_effect. cli_run. fold cargo. split.
  - intros Hrc. apply Z.eqb_neq in Hrc. rewrite Hrc. unfold negb.
    cli_logger. unfold Cli.exit. eexists.
    split; [by rewrite <- !app_assoc|]. done.
  - intros Hrc. rewrite Hrc. change (negb (0 =? 0)) with false. cbv iota.
    cli_host. cbv zeta. cli_run. fold binary.
    destruct (negb (Z.eqb (Cli.completes h ["upx"; "--best"; binary]).1 0)).
    + cli_logger. cli_effect. unfold Cli.ret. eexists.
      split; [by rewrite <- !app_assoc|]. done.
    + cli_ret. cli_effect.
      unfold Cli.ret. eexists.
      split; [by rewrite <- !app_assoc|]. done.
Qed.

End BuildNosman.

(** * The properties on a sample host *)

Lemma excluded_by_lowercase_substring_witness :
  excluded "Plugins/Protoc_Gen.exe" = true.
Proof.
  apply (proj2 (proj2 (excluded_by_lowercase_substring "Protoc"))
           "Plugins/Protoc_Gen.exe"); by vm_compute.
Defined.

Lemma version_info_all_or_exit_witness :
  Cli.get_version_info_from_env
    (CliSample.host CliSample.version_env CliSample.all_succeed) []
  = Cli.Done ("1", "3", "0", "42") [].
Proof.
  apply (proj1 (version_info_all_or_exit
                  (CliSample.host CliSample.version_env CliSample.all_succeed) []));
    by vm_compute.
Defined.

Lemma sign_files_reports_tool_failure_witness :
  exists es,
    Cli.sign_files ["a.exe"]
      (CliSample.host CliSample.signing_env CliSample.all_fail) []
    = Cli.Done tt ([] ++ es) /\
    calls_of es = [signtool_command CliSample.signing_values ["a.exe"]] /\
    (Cli.Logged ERROR (Cli.MsgSigntoolReturned 2) ∈ es <-> 2 <> 0).
Proof.
  apply (proj1 (sign_files_reports_tool_failure ["a.exe"]
                  (CliSample.host CliSample.signing_env CliSample.all_fail) [])
           CliSample.signing_values).
  by vm_compute.
Defined.

Lemma sign_binaries_signs_selected_witness :
  exists es,
    Cli.sign_binaries "Binaries"
      (CliSample.host CliSample.signing_env CliSample.all_succeed) []
    = Cli.Done tt ([] ++ es) /\
    calls_of es
    = [signtool_command CliSample.signing_values
         (binaries_of (CliSample.host CliSample.signing_env CliSample.all_succeed)
            CliSample.binaries)] /\
    chdirs_of es = [].
Proof.
  apply (sign_binaries_signs_selected "Binaries" CliSample.signing_values
           (CliSample.host CliSample.signing_env CliSample.all_succeed) []).
  by vm_compute.
Defined.

(** Of the five files of the sample two are signed: [protoc.exe] and
    [UnitTests.dll] are excluded by name, [readme.txt] by its suffix. *)
Example binaries_of_sample :
  binaries_of (CliSample.host CliSample.signing_env CliSample.all_succeed)
    CliSample.binaries
  = ["Binaries/nosLauncher.exe"; "Binaries/x64/nosEngine.dll"].
Proof. by vm_compute. Qed.

Lemma version_in_env_sample completes :
  version_in_env (CliSample.host CliSample.version_env completes) "1" "3" "0" "42".
Proof. repeat split; by vm_compute. Defined.

Lemma release_gh_failure_exits_witness :
  let h := CliSample.host CliSample.version_env CliSample.all_fail in
  exists es,
    Cli.create_nodos_release "" "notes" "" "main" false false h []
    = Cli.Exited 2 ([] ++ es) /\
    calls_of es = [release_command h "" "notes" "" "main" "1" "3" "0" "42"] /\
    chdirs_of es = [] /\
    Cli.Printed "denied" ∈ es.
Proof.
  apply (release_gh_failure_exits "" "notes" "" "main"
           (CliSample.host CliSample.version_env CliSample.all_fail)
           "1" "3" "0" "42" false []
           (version_in_env_sample CliSample.all_fail)).
  by vm_compute.
Defined.

Lemma release_success_witness :
  let h := CliSample.host CliSample.version_env CliSample.all_succeed in
  exists es,
    Cli.create_nodos_release "" "notes" "" "main" false false h []
    = Cli.Done tt ([] ++ es) /\
    calls_of es
    = [release_command h "" "notes" "" "main" "1" "3" "0" "42"]
      ++ published h "1" "3" "0" "42" false /\
    chdirs_of es = [STAGING_FOLDER; "/work"].
Proof.
  apply (release_success "" "notes" "" "main"
           (CliSample.host CliSample.version_env CliSample.all_succeed)
           "1" "3" "0" "42" false false []
           (version_in_env_sample CliSample.all_succeed)
           (fun _ => eq_refl) (fun _ _ _ => eq_refl)).
Defined.

(** The commands of the sample: the bundled archive under the name of
    its key, the plain archive under [nodos], the SDK archive not at
    all. *)
Example published_sample :
  published (CliSample.host CliSample.version_env CliSample.all_succeed)
    "1" "3" "0" "42" false
  = [Cli.nosman_arguments "/work/./Artifacts/Nodos-1.3.0.b42-bundle-all.zip"
       (Some "all") "1" "3" "0" "42" false;
     Cli.nosman_arguments "/work/./Artifacts/Nodos-1.3.0.b42.zip"
       None "1" "3" "0" "42" false].
Proof. by vm_compute. Qed.

Lemma release_publish_failure_exits_witness :
  let h := CliSample.host CliSample.version_env (CliSample.only "gh") in
  exists es,
    Cli.create_nodos_release "" "notes" "" "main" false false h []
    = Cli.Exited 2 ([] ++ es) /\
    calls_of es
    = [release_command h "" "notes" "" "main" "1" "3" "0" "42"]
      ++ []
      ++ [Cli.nosman_arguments "/work/./Artifacts/Nodos-1.3.0.b42-bundle-all.zip"
            (Some "all") "1" "3" "0" "42" false] /\
    chdirs_of es = [STAGING_FOLDER].
Proof.
  apply (release_publish_failure_exits "" "notes" "" "main"
           (CliSample.host CliSample.version_env (CliSample.only "gh"))
           "1" "3" "0" "42" false [] []
           (Cli.nosman_arguments "/work/./Artifacts/Nodos-1.3.0.b42-bundle-all.zip"
              (Some "all") "1" "3" "0" "42" false)
           [Cli.nosman_arguments "/work/./Artifacts/Nodos-1.3.0.b42.zip"
              None "1" "3" "0" "42" false]
           (version_in_env_sample (CliSample.only "gh"))).
  - intros _. by vm_compute.
  - by vm_compute.
  - intros args Hargs. by apply elem_of_nil in Hargs.
  - by vm_compute.
Defined.

Lemma sdk_archive_never_published_witness :
  let h := CliSample.host CliSample.version_env CliSample.all_succeed in
  Cli.publish_artifacts ["/work/./Artifacts/Nodos-SDK-1.3.0.b42.zip"]
    "1" "3" "0" "42" false h []
  = Cli.publish_artifacts [] "1" "3" "0" "42" false h [] /\
  publish_commands ["/work/./Artifacts/Nodos-SDK-1.3.0.b42.zip"]
    "1" "3" "0" "42" false
  = publish_commands [] "1" "3" "0" "42" false.
Proof.
  apply (sdk_archive_never_published
           "/work/./Artifacts/Nodos-SDK-1.3.0.b42.zip" [] "1" "3" "0" "42" false
           (CliSample.host CliSample.version_env CliSample.all_succeed) []).
  by vm_compute.
Defined.

Lemma bundle_key_round_trip_witness :
  let h := CliSample.host CliSample.version_env CliSample.all_succeed in
  let path := "/work/./Artifacts/Nodos-1.3.0.b42-bundle-all.zip" in
  let args := Cli.nosman_arguments path (Some "all") "1" "3" "0" "42" true in
  let t' := [] ++ [Cli.Logged INFO Cli.MsgRunningPublish;
                   Cli.Logged INFO (Cli.MsgPublishArgs args);
                   Cli.Called args] in
  Cli.publish_artifacts [path] "1" "3" "0" "42" true h []
  = (if Z.eqb (Cli.completes h args).1 0 then
       Cli.publish_artifacts [] "1" "3" "0" "42" true h t'
     else
       Cli.Exited (Cli.completes h args).1
         (t' ++ [Cli.Logged ERROR
                   (Cli.MsgPublishReturned (Cli.completes h args).1)])) /\
  nth_error args 5 = Some ("nodos" +:+ ".bundle." +:+ "all").
Proof.
  apply (bundle_key_round_trip
           "/work/./Artifacts/Nodos-1.3.0.b42-bundle-all.zip" []
           "1" "3" "0" "42" "all" true true
           (CliSample.host CliSample.version_env CliSample.all_succeed) []);
    by vm_compute.
Defined.

Lemma build_nosman_upx_optional_witness :
  let h := CliSample.host CliSample.version_env (CliSample.only "cargo") in
  exists es,
    Cli.build_nosman "./Toolchain/nosman" true h []
    = Cli.Done ("./Toolchain/nosman" +:+ "/" +:+ "target/release/nosman.exe")
        ([] ++ es) /\
    calls_of es
    = [["cargo"; "build"; "--release"];
       ["upx"; "--best"; "target/release/nosman.exe"]] /\
    chdirs_of es = ["./Toolchain/nosman"; "/work"].
Proof.
  apply (proj2 (build_nosman_upx_optional "./Toolchain/nosman" true
                  (CliSample.host CliSample.version_env (CliSample.only "cargo"))
                  [])).
  by vm_compute.
Defined.
